(** * Interview orchestration of the recruitment backend

    A shallow embedding of the interview endpoints of [backend/server.py]
    (create, update, book-slot, send-invite, mark-completed, mark-no-show,
    cancel, move-to-next-round, reject, initiate-hiring, the pipeline
    statistics and the public booking link), followed by the properties
    the specification states about them.

    Modelling choices.
    - A Mongo collection is a list of documents in insertion order;
      [find_one] returns the first document matching the query and
      [update_one] rewrites the first matching document only.  Nothing
      assumes that ids are unique unless a statement says so.
    - Documents are records.  A field that may hold [None] or may be absent
      is an [option].
    - A handler is a computation [M A] over the database that either
      returns or raises an [HTTPException]; writes made before a raise
      stay in the database, as they do in the source.
    - The clock ([now]), the uuid generator, the SHA-256 digest and the
      answer of the calendar service are inputs of the handlers.
    - A string is the UTF-8 encoding of the Python [str].
    - Audit logging and notifications do not feed back into the
      collections modelled here and are left out.  Of the e-mail template
      the model keeps the one step that can raise (the candidate's first
      name), of [get_interview] the construction of the
      [InterviewResponse], whose validation can raise too. *)

From Stdlib Require Import ZArith List String Bool Lia.
From Stdlib Require Import DecimalString.
Import ListNotations.

Local Open Scope Z_scope.
Local Open Scope string_scope.

(** ** Python helpers *)

(** [str(n)] for an integer. *)
Definition str_of_Z (n : Z) : string := NilZero.string_of_int (Z.to_int n).

(** Truthiness of an [Optional[str]]: [None] and the empty string are falsy. *)
Definition truthy_str (o : option string) : bool :=
  match o with
  | Some s => negb (s =? "")
  | None => false
  end.

(** [o or dflt] for an [Optional[str]]. *)
Definition str_or (o : option string) (dflt : string) : string :=
  match o with
  | Some s => if s =? "" then dflt else s
  | None => dflt
  end.

Definition opt_str_eqb (a b : option string) : bool :=
  match a, b with
  | Some x, Some y => x =? y
  | None, None => true
  | _, _ => false
  end.

(** [str.isspace] for one character, given by its UTF-8 encoding: the
    characters U+0009..U+000D, U+001C..U+0020, U+0085, U+00A0, U+1680,
    U+2000..U+200A, U+2028, U+2029, U+202F, U+205F and U+3000. *)
Definition byte (a : Ascii.ascii) : Z := Z.of_N (Ascii.N_of_ascii a).

Definition is_space1 (a : Ascii.ascii) : bool :=
  ((9 <=? byte a)%Z && (byte a <=? 13)%Z)
  || ((28 <=? byte a)%Z && (byte a <=? 32)%Z).

Definition is_space2 (a b : Ascii.ascii) : bool :=
  (byte a =? 194)%Z && ((byte b =? 133)%Z || (byte b =? 160)%Z).

Definition is_space3 (a b c : Ascii.ascii) : bool :=
  ((byte a =? 225)%Z && (byte b =? 154)%Z && (byte c =? 128)%Z)
  || ((byte a =? 226)%Z && (byte b =? 128)%Z
      && (((128 <=? byte c)%Z && (byte c <=? 138)%Z)
          || (byte c =? 168)%Z || (byte c =? 169)%Z || (byte c =? 175)%Z))
  || ((byte a =? 226)%Z && (byte b =? 129)%Z && (byte c =? 159)%Z)
  || ((byte a =? 227)%Z && (byte b =? 128)%Z && (byte c =? 128)%Z).

(** Does [s] begin with a white-space character? *)
Definition starts_with_space (s : string) : bool :=
  match s with
  | String a (String b (String c _)) =>
      is_space1 a || is_space2 a b || is_space3 a b c
  | String a (String b EmptyString) => is_space1 a || is_space2 a b
  | String a EmptyString => is_space1 a
  | EmptyString => false
  end.

(** [s.lstrip()] *)
Fixpoint lstrip (s : string) : string :=
  match s with
  | EmptyString => EmptyString
  | String a rest =>
      if is_space1 a then lstrip rest
      else
        match rest with
        | EmptyString => s
        | String b rest2 =>
            if is_space2 a b then lstrip rest2
            else
              match rest2 with
              | EmptyString => s
              | String c rest3 =>
                  if is_space3 a b c then lstrip rest3 else s
              end
        end
  end.

(** The characters of [s] up to its first white space. *)
Fixpoint until_space (s : string) : string :=
  match s with
  | EmptyString => EmptyString
  | String a rest =>
      if starts_with_space s then EmptyString
      else String a (until_space rest)
  end.

(** [s.split()[0]]: the first word of [s]; an [IndexError] ([None]) when
    [s] is empty or all white space. *)
Definition split_first (s : string) : option string :=
  match lstrip s with
  | EmptyString => None
  | String a rest => Some (until_space (String a rest))
  end.

(** [enumerate(l)] *)
Fixpoint enumerate_from {A : Type} (k : nat) (l : list A) : list (nat * A) :=
  match l with
  | [] => []
  | x :: t => (k, x) :: enumerate_from (S k) t
  end.

Definition enumerate {A : Type} (l : list A) : list (nat * A) :=
  enumerate_from 0 l.

(** ** Interview status *)

Inductive InterviewStatus : Type :=
| Draft
| AwaitingCandidateConfirmation
| Confirmed
| Scheduled
| Completed
| NoShow
| Cancelled
| Passed
| Failed.

Scheme Equality for InterviewStatus.

(** The string the source stores for each status. *)
Definition status_string (s : InterviewStatus) : string :=
  match s with
  | Draft => "Draft"
  | AwaitingCandidateConfirmation => "Awaiting Candidate Confirmation"
  | Confirmed => "Confirmed"
  | Scheduled => "Scheduled"
  | Completed => "Completed"
  | NoShow => "No Show"
  | Cancelled => "Cancelled"
  | Passed => "Passed"
  | Failed => "Failed"
  end.

(** How an f-string prints the stored status ([None] when the field was
    nulled by an update). *)
Definition show_status (o : option InterviewStatus) : string :=
  match o with
  | Some s => status_string s
  | None => "None"
  end.

(** [doc["interview_status"] == "<s>"] *)
Definition status_is (o : option InterviewStatus) (s : InterviewStatus) : bool :=
  match o with
  | Some x => InterviewStatus_beq x s
  | None => false
  end.

Definition opt_status_eqb (a b : option InterviewStatus) : bool :=
  match a, b with
  | Some x, Some y => InterviewStatus_beq x y
  | None, None => true
  | _, _ => false
  end.

(** ** Documents *)

Module Slot.

(** One entry of [proposed_slots], as [create_interview] builds it. *)
Record t : Type := mk {
  slot_id : string;
  start_time : option string;
  end_time : option string;
  duration_minutes : Z;
  is_available : bool
}.

Definition set_is_available (v : bool) (d : t) : t :=
  mk (slot_id d) (start_time d) (end_time d) (duration_minutes d) v.

End Slot.

Module Interview.

(** A document of the [interviews] collection: the fields written by
    [create_interview], followed by the fields later commands add with
    [$set] (absent until then, hence [None] or [false]). *)
Record t : Type := mk {
  interview_id : string;
  job_id : string;
  candidate_id : string;
  client_id : string;
  interview_mode : option string;
  interview_duration : Z;
  time_zone : option string;
  proposed_slots : list Slot.t;
  selected_slot_id : option string;
  scheduled_start_time : option string;
  scheduled_end_time : option string;
  interview_status : option InterviewStatus;
  meeting_link : option string;
  additional_instructions : option string;
  invite_sent : bool;
  invite_sent_by : option string;
  candidate_confirmation_timestamp : option string;
  no_show_flag : bool;
  no_show_count : Z;
  interview_round : Z;
  round_name : string;
  feedback : option string;
  rating : option Z;
  created_at : string;
  updated_at : string;
  created_by : string;
  invite_sent_at : option string;
  duration_minutes : option Z;
  calendar_event_id : option string;
  calendar_link : option string;
  passed_by : option string;
  passed_at : option string;
  rejected_by : option string;
  rejected_at : option string;
  hiring_initiated : bool;
  hiring_initiated_at : option string;
  hiring_initiated_by : option string
}.

Definition set_interview_mode (v : option string) (d : t) : t :=
  mk (interview_id d) (job_id d) (candidate_id d) (client_id d) v
    (interview_duration d) (time_zone d) (proposed_slots d) (selected_slot_id
    d) (scheduled_start_time d) (scheduled_end_time d) (interview_status d)
    (meeting_link d) (additional_instructions d) (invite_sent d)
    (invite_sent_by d) (candidate_confirmation_timestamp d) (no_show_flag d)
    (no_show_count d) (interview_round d) (round_name d) (feedback d) (rating
    d) (created_at d) (updated_at d) (created_by d) (invite_sent_at d)
    (duration_minutes d) (calendar_event_id d) (calendar_link d) (passed_by d)
    (passed_at d) (rejected_by d) (rejected_at d) (hiring_initiated d)
    (hiring_initiated_at d) (hiring_initiated_by d).

Definition set_time_zone (v : option string) (d : t) : t :=
  mk (interview_id d) (job_id d) (candidate_id d) (client_id d)
    (interview_mode d) (interview_duration d) v (proposed_slots d)
    (selected_slot_id d) (scheduled_start_time d) (scheduled_end_time d)
    (interview_status d) (meeting_link d) (additional_instructions d)
    (invite_sent d) (invite_sent_by d) (candidate_confirmation_timestamp d)
    (no_show_flag d) (no_show_count d) (interview_round d) (round_name d)
    (feedback d) (rating d) (created_at d) (updated_at d) (created_by d)
    (invite_sent_at d) (duration_minutes d) (calendar_event_id d)
    (calendar_link d) (passed_by d) (passed_at d) (rejected_by d) (rejected_at
    d) (hiring_initiated d) (hiring_initiated_at d) (hiring_initiated_by d).

Definition set_proposed_slots (v : list Slot.t) (d : t) : t :=
  mk (interview_id d) (job_id d) (candidate_id d) (client_id d)
    (interview_mode d) (interview_duration d) (time_zone d) v
    (selected_slot_id d) (scheduled_start_time d) (scheduled_end_time d)
    (interview_status d) (meeting_link d) (additional_instructions d)
    (invite_sent d) (invite_sent_by d) (candidate_confirmation_timestamp d)
    (no_show_flag d) (no_show_count d) (interview_round d) (round_name d)
    (feedback d) (rating d) (created_at d) (updated_at d) (created_by d)
    (invite_sent_at d) (duration_minutes d) (calendar_event_id d)
    (calendar_link d) (passed_by d) (passed_at d) (rejected_by d) (rejected_at
    d) (hiring_initiated d) (hiring_initiated_at d) (hiring_initiated_by d).

Definition set_selected_slot_id (v : option string) (d : t) : t :=
  mk (interview_id d) (job_id d) (candidate_id d) (client_id d)
    (interview_mode d) (interview_duration d) (time_zone d) (proposed_slots d)
    v (scheduled_start_time d) (scheduled_end_time d) (interview_status d)
    (meeting_link d) (additional_instructions d) (invite_sent d)
    (invite_sent_by d) (candidate_confirmation_timestamp d) (no_show_flag d)
    (no_show_count d) (interview_round d) (round_name d) (feedback d) (rating
    d) (created_at d) (updated_at d) (created_by d) (invite_sent_at d)
    (duration_minutes d) (calendar_event_id d) (calendar_link d) (passed_by d)
    (passed_at d) (rejected_by d) (rejected_at d) (hiring_initiated d)
    (hiring_initiated_at d) (hiring_initiated_by d).

Definition set_scheduled_start_time (v : option string) (d : t) : t :=
  mk (interview_id d) (job_id d) (candidate_id d) (client_id d)
    (interview_mode d) (interview_duration d) (time_zone d) (proposed_slots d)
    (selected_slot_id d) v (scheduled_end_time d) (interview_status d)
    (meeting_link d) (additional_instructions d) (invite_sent d)
    (invite_sent_by d) (candidate_confirmation_timestamp d) (no_show_flag d)
    (no_show_count d) (interview_round d) (round_name d) (feedback d) (rating
    d) (created_at d) (updated_at d) (created_by d) (invite_sent_at d)
    (duration_minutes d) (calendar_event_id d) (calendar_link d) (passed_by d)
    (passed_at d) (rejected_by d) (rejected_at d) (hiring_initiated d)
    (hiring_initiated_at d) (hiring_initiated_by d).

Definition set_scheduled_end_time (v : option string) (d : t) : t :=
  mk (interview_id d) (job_id d) (candidate_id d) (client_id d)
    (interview_mode d) (interview_duration d) (time_zone d) (proposed_slots d)
    (selected_slot_id d) (scheduled_start_time d) v (interview_status d)
    (meeting_link d) (additional_instructions d) (invite_sent d)
    (invite_sent_by d) (candidate_confirmation_timestamp d) (no_show_flag d)
    (no_show_count d) (interview_round d) (round_name d) (feedback d) (rating
    d) (created_at d) (updated_at d) (created_by d) (invite_sent_at d)
    (duration_minutes d) (calendar_event_id d) (calendar_link d) (passed_by d)
    (passed_at d) (rejected_by d) (rejected_at d) (hiring_initiated d)
    (hiring_initiated_at d) (hiring_initiated_by d).

Definition set_interview_status (v : option InterviewStatus) (d : t) : t :=
  mk (interview_id d) (job_id d) (candidate_id d) (client_id d)
    (interview_mode d) (interview_duration d) (time_zone d) (proposed_slots d)
    (selected_slot_id d) (scheduled_start_time d) (scheduled_end_time d) v
    (meeting_link d) (additional_instructions d) (invite_sent d)
    (invite_sent_by d) (candidate_confirmation_timestamp d) (no_show_flag d)
    (no_show_count d) (interview_round d) (round_name d) (feedback d) (rating
    d) (created_at d) (updated_at d) (created_by d) (invite_sent_at d)
    (duration_minutes d) (calendar_event_id d) (calendar_link d) (passed_by d)
    (passed_at d) (rejected_by d) (rejected_at d) (hiring_initiated d)
    (hiring_initiated_at d) (hiring_initiated_by d).

Definition set_meeting_link (v : option string) (d : t) : t :=
  mk (interview_id d) (job_id d) (candidate_id d) (client_id d)
    (interview_mode d) (interview_duration d) (time_zone d) (proposed_slots d)
    (selected_slot_id d) (scheduled_start_time d) (scheduled_end_time d)
    (interview_status d) v (additional_instructions d) (invite_sent d)
    (invite_sent_by d) (candidate_confirmation_timestamp d) (no_show_flag d)
    (no_show_count d) (interview_round d) (round_name d) (feedback d) (rating
    d) (created_at d) (updated_at d) (created_by d) (invite_sent_at d)
    (duration_minutes d) (calendar_event_id d) (calendar_link d) (passed_by d)
    (passed_at d) (rejected_by d) (rejected_at d) (hiring_initiated d)
    (hiring_initiated_at d) (hiring_initiated_by d).

Definition set_additional_instructions (v : option string) (d : t) : t :=
  mk (interview_id d) (job_id d) (candidate_id d) (client_id d)
    (interview_mode d) (interview_duration d) (time_zone d) (proposed_slots d)
    (selected_slot_id d) (scheduled_start_time d) (scheduled_end_time d)
    (interview_status d) (meeting_link d) v (invite_sent d) (invite_sent_by d)
    (candidate_confirmation_timestamp d) (no_show_flag d) (no_show_count d)
    (interview_round d) (round_name d) (feedback d) (rating d) (created_at d)
    (updated_at d) (created_by d) (invite_sent_at d) (duration_minutes d)
    (calendar_event_id d) (calendar_link d) (passed_by d) (passed_at d)
    (rejected_by d) (rejected_at d) (hiring_initiated d) (hiring_initiated_at
    d) (hiring_initiated_by d).

Definition set_invite_sent (v : bool) (d : t) : t :=
  mk (interview_id d) (job_id d) (candidate_id d) (client_id d)
    (interview_mode d) (interview_duration d) (time_zone d) (proposed_slots d)
    (selected_slot_id d) (scheduled_start_time d) (scheduled_end_time d)
    (interview_status d) (meeting_link d) (additional_instructions d) v
    (invite_sent_by d) (candidate_confirmation_timestamp d) (no_show_flag d)
    (no_show_count d) (interview_round d) (round_name d) (feedback d) (rating
    d) (created_at d) (updated_at d) (created_by d) (invite_sent_at d)
    (duration_minutes d) (calendar_event_id d) (calendar_link d) (passed_by d)
    (passed_at d) (rejected_by d) (rejected_at d) (hiring_initiated d)
    (hiring_initiated_at d) (hiring_initiated_by d).

Definition set_invite_sent_by (v : option string) (d : t) : t :=
  mk (interview_id d) (job_id d) (candidate_id d) (client_id d)
    (interview_mode d) (interview_duration d) (time_zone d) (proposed_slots d)
    (selected_slot_id d) (scheduled_start_time d) (scheduled_end_time d)
    (interview_status d) (meeting_link d) (additional_instructions d)
    (invite_sent d) v (candidate_confirmation_timestamp d) (no_show_flag d)
    (no_show_count d) (interview_round d) (round_name d) (feedback d) (rating
    d) (created_at d) (updated_at d) (created_by d) (invite_sent_at d)
    (duration_minutes d) (calendar_event_id d) (calendar_link d) (passed_by d)
    (passed_at d) (rejected_by d) (rejected_at d) (hiring_initiated d)
    (hiring_initiated_at d) (hiring_initiated_by d).

Definition set_candidate_confirmation_timestamp (v : option string) (d : t) : t :=
  mk (interview_id d) (job_id d) (candidate_id d) (client_id d)
    (interview_mode d) (interview_duration d) (time_zone d) (proposed_slots d)
    (selected_slot_id d) (scheduled_start_time d) (scheduled_end_time d)
    (interview_status d) (meeting_link d) (additional_instructions d)
    (invite_sent d) (invite_sent_by d) v (no_show_flag d) (no_show_count d)
    (interview_round d) (round_name d) (feedback d) (rating d) (created_at d)
    (updated_at d) (created_by d) (invite_sent_at d) (duration_minutes d)
    (calendar_event_id d) (calendar_link d) (passed_by d) (passed_at d)
    (rejected_by d) (rejected_at d) (hiring_initiated d) (hiring_initiated_at
    d) (hiring_initiated_by d).

Definition set_no_show_flag (v : bool) (d : t) : t :=
  mk (interview_id d) (job_id d) (candidate_id d) (client_id d)
    (interview_mode d) (interview_duration d) (time_zone d) (proposed_slots d)
    (selected_slot_id d) (scheduled_start_time d) (scheduled_end_time d)
    (interview_status d) (meeting_link d) (additional_instructions d)
    (invite_sent d) (invite_sent_by d) (candidate_confirmation_timestamp d) v
    (no_show_count d) (interview_round d) (round_name d) (feedback d) (rating
    d) (created_at d) (updated_at d) (created_by d) (invite_sent_at d)
    (duration_minutes d) (calendar_event_id d) (calendar_link d) (passed_by d)
    (passed_at d) (rejected_by d) (rejected_at d) (hiring_initiated d)
    (hiring_initiated_at d) (hiring_initiated_by d).

Definition set_no_show_count (v : Z) (d : t) : t :=
  mk (interview_id d) (job_id d) (candidate_id d) (client_id d)
    (interview_mode d) (interview_duration d) (time_zone d) (proposed_slots d)
    (selected_slot_id d) (scheduled_start_time d) (scheduled_end_time d)
    (interview_status d) (meeting_link d) (additional_instructions d)
    (invite_sent d) (invite_sent_by d) (candidate_confirmation_timestamp d)
    (no_show_flag d) v (interview_round d) (round_name d) (feedback d) (rating
    d) (created_at d) (updated_at d) (created_by d) (invite_sent_at d)
    (duration_minutes d) (calendar_event_id d) (calendar_link d) (passed_by d)
    (passed_at d) (rejected_by d) (rejected_at d) (hiring_initiated d)
    (hiring_initiated_at d) (hiring_initiated_by d).

Definition set_feedback (v : option string) (d : t) : t :=
  mk (interview_id d) (job_id d) (candidate_id d) (client_id d)
    (interview_mode d) (interview_duration d) (time_zone d) (proposed_slots d)
    (selected_slot_id d) (scheduled_start_time d) (scheduled_end_time d)
    (interview_status d) (meeting_link d) (additional_instructions d)
    (invite_sent d) (invite_sent_by d) (candidate_confirmation_timestamp d)
    (no_show_flag d) (no_show_count d) (interview_round d) (round_name d) v
    (rating d) (created_at d) (updated_at d) (created_by d) (invite_sent_at d)
    (duration_minutes d) (calendar_event_id d) (calendar_link d) (passed_by d)
    (passed_at d) (rejected_by d) (rejected_at d) (hiring_initiated d)
    (hiring_initiated_at d) (hiring_initiated_by d).

Definition set_rating (v : option Z) (d : t) : t :=
  mk (interview_id d) (job_id d) (candidate_id d) (client_id d)
    (interview_mode d) (interview_duration d) (time_zone d) (proposed_slots d)
    (selected_slot_id d) (scheduled_start_time d) (scheduled_end_time d)
    (interview_status d) (meeting_link d) (additional_instructions d)
    (invite_sent d) (invite_sent_by d) (candidate_confirmation_timestamp d)
    (no_show_flag d) (no_show_count d) (interview_round d) (round_name d)
    (feedback d) v (created_at d) (updated_at d) (created_by d)
    (invite_sent_at d) (duration_minutes d) (calendar_event_id d)
    (calendar_link d) (passed_by d) (passed_at d) (rejected_by d) (rejected_at
    d) (hiring_initiated d) (hiring_initiated_at d) (hiring_initiated_by d).

Definition set_updated_at (v : string) (d : t) : t :=
  mk (interview_id d) (job_id d) (candidate_id d) (client_id d)
    (interview_mode d) (interview_duration d) (time_zone d) (proposed_slots d)
    (selected_slot_id d) (scheduled_start_time d) (scheduled_end_time d)
    (interview_status d) (meeting_link d) (additional_instructions d)
    (invite_sent d) (invite_sent_by d) (candidate_confirmation_timestamp d)
    (no_show_flag d) (no_show_count d) (interview_round d) (round_name d)
    (feedback d) (rating d) (created_at d) v (created_by d) (invite_sent_at d)
    (duration_minutes d) (calendar_event_id d) (calendar_link d) (passed_by d)
    (passed_at d) (rejected_by d) (rejected_at d) (hiring_initiated d)
    (hiring_initiated_at d) (hiring_initiated_by d).

Definition set_invite_sent_at (v : option string) (d : t) : t :=
  mk (interview_id d) (job_id d) (candidate_id d) (client_id d)
    (interview_mode d) (interview_duration d) (time_zone d) (proposed_slots d)
    (selected_slot_id d) (scheduled_start_time d) (scheduled_end_time d)
    (interview_status d) (meeting_link d) (additional_instructions d)
    (invite_sent d) (invite_sent_by d) (candidate_confirmation_timestamp d)
    (no_show_flag d) (no_show_count d) (interview_round d) (round_name d)
    (feedback d) (rating d) (created_at d) (updated_at d) (created_by d) v
    (duration_minutes d) (calendar_event_id d) (calendar_link d) (passed_by d)
    (passed_at d) (rejected_by d) (rejected_at d) (hiring_initiated d)
    (hiring_initiated_at d) (hiring_initiated_by d).

Definition set_duration_minutes (v : option Z) (d : t) : t :=
  mk (interview_id d) (job_id d) (candidate_id d) (client_id d)
    (interview_mode d) (interview_duration d) (time_zone d) (proposed_slots d)
    (selected_slot_id d) (scheduled_start_time d) (scheduled_end_time d)
    (interview_status d) (meeting_link d) (additional_instructions d)
    (invite_sent d) (invite_sent_by d) (candidate_confirmation_timestamp d)
    (no_show_flag d) (no_show_count d) (interview_round d) (round_name d)
    (feedback d) (rating d) (created_at d) (updated_at d) (created_by d)
    (invite_sent_at d) v (calendar_event_id d) (calendar_link d) (passed_by d)
    (passed_at d) (rejected_by d) (rejected_at d) (hiring_initiated d)
    (hiring_initiated_at d) (hiring_initiated_by d).

Definition set_calendar_event_id (v : option string) (d : t) : t :=
  mk (interview_id d) (job_id d) (candidate_id d) (client_id d)
    (interview_mode d) (interview_duration d) (time_zone d) (proposed_slots d)
    (selected_slot_id d) (scheduled_start_time d) (scheduled_end_time d)
    (interview_status d) (meeting_link d) (additional_instructions d)
    (invite_sent d) (invite_sent_by d) (candidate_confirmation_timestamp d)
    (no_show_flag d) (no_show_count d) (interview_round d) (round_name d)
    (feedback d) (rating d) (created_at d) (updated_at d) (created_by d)
    (invite_sent_at d) (duration_minutes d) v (calendar_link d) (passed_by d)
    (passed_at d) (rejected_by d) (rejected_at d) (hiring_initiated d)
    (hiring_initiated_at d) (hiring_initiated_by d).

Definition set_calendar_link (v : option string) (d : t) : t :=
  mk (interview_id d) (job_id d) (candidate_id d) (client_id d)
    (interview_mode d) (interview_duration d) (time_zone d) (proposed_slots d)
    (selected_slot_id d) (scheduled_start_time d) (scheduled_end_time d)
    (interview_status d) (meeting_link d) (additional_instructions d)
    (invite_sent d) (invite_sent_by d) (candidate_confirmation_timestamp d)
    (no_show_flag d) (no_show_count d) (interview_round d) (round_name d)
    (feedback d) (rating d) (created_at d) (updated_at d) (created_by d)
    (invite_sent_at d) (duration_minutes d) (calendar_event_id d) v (passed_by
    d) (passed_at d) (rejected_by d) (rejected_at d) (hiring_initiated d)
    (hiring_initiated_at d) (hiring_initiated_by d).

Definition set_passed_by (v : option string) (d : t) : t :=
  mk (interview_id d) (job_id d) (candidate_id d) (client_id d)
    (interview_mode d) (interview_duration d) (time_zone d) (proposed_slots d)
    (selected_slot_id d) (scheduled_start_time d) (scheduled_end_time d)
    (interview_status d) (meeting_link d) (additional_instructions d)
    (invite_sent d) (invite_sent_by d) (candidate_confirmation_timestamp d)
    (no_show_flag d) (no_show_count d) (interview_round d) (round_name d)
    (feedback d) (rating d) (created_at d) (updated_at d) (created_by d)
    (invite_sent_at d) (duration_minutes d) (calendar_event_id d)
    (calendar_link d) v (passed_at d) (rejected_by d) (rejected_at d)
    (hiring_initiated d) (hiring_initiated_at d) (hiring_initiated_by d).

Definition set_passed_at (v : option string) (d : t) : t :=
  mk (interview_id d) (job_id d) (candidate_id d) (client_id d)
    (interview_mode d) (interview_duration d) (time_zone d) (proposed_slots d)
    (selected_slot_id d) (scheduled_start_time d) (scheduled_end_time d)
    (interview_status d) (meeting_link d) (additional_instructions d)
    (invite_sent d) (invite_sent_by d) (candidate_confirmation_timestamp d)
    (no_show_flag d) (no_show_count d) (interview_round d) (round_name d)
    (feedback d) (rating d) (created_at d) (updated_at d) (created_by d)
    (invite_sent_at d) (duration_minutes d) (calendar_event_id d)
    (calendar_link d) (passed_by d) v (rejected_by d) (rejected_at d)
    (hiring_initiated d) (hiring_initiated_at d) (hiring_initiated_by d).

Definition set_rejected_by (v : option string) (d : t) : t :=
  mk (interview_id d) (job_id d) (candidate_id d) (client_id d)
    (interview_mode d) (interview_duration d) (time_zone d) (proposed_slots d)
    (selected_slot_id d) (scheduled_start_time d) (scheduled_end_time d)
    (interview_status d) (meeting_link d) (additional_instructions d)
    (invite_sent d) (invite_sent_by d) (candidate_confirmation_timestamp d)
    (no_show_flag d) (no_show_count d) (interview_round d) (round_name d)
    (feedback d) (rating d) (created_at d) (updated_at d) (created_by d)
    (invite_sent_at d) (duration_minutes d) (calendar_event_id d)
    (calendar_link d) (passed_by d) (passed_at d) v (rejected_at d)
    (hiring_initiated d) (hiring_initiated_at d) (hiring_initiated_by d).

Definition set_rejected_at (v : option string) (d : t) : t :=
  mk (interview_id d) (job_id d) (candidate_id d) (client_id d)
    (interview_mode d) (interview_duration d) (time_zone d) (proposed_slots d)
    (selected_slot_id d) (scheduled_start_time d) (scheduled_end_time d)
    (interview_status d) (meeting_link d) (additional_instructions d)
    (invite_sent d) (invite_sent_by d) (candidate_confirmation_timestamp d)
    (no_show_flag d) (no_show_count d) (interview_round d) (round_name d)
    (feedback d) (rating d) (created_at d) (updated_at d) (created_by d)
    (invite_sent_at d) (duration_minutes d) (calendar_event_id d)
    (calendar_link d) (passed_by d) (passed_at d) (rejected_by d) v
    (hiring_initiated d) (hiring_initiated_at d) (hiring_initiated_by d).

Definition set_hiring_initiated (v : bool) (d : t) : t :=
  mk (interview_id d) (job_id d) (candidate_id d) (client_id d)
    (interview_mode d) (interview_duration d) (time_zone d) (proposed_slots d)
    (selected_slot_id d) (scheduled_start_time d) (scheduled_end_time d)
    (interview_status d) (meeting_link d) (additional_instructions d)
    (invite_sent d) (invite_sent_by d) (candidate_confirmation_timestamp d)
    (no_show_flag d) (no_show_count d) (interview_round d) (round_name d)
    (feedback d) (rating d) (created_at d) (updated_at d) (created_by d)
    (invite_sent_at d) (duration_minutes d) (calendar_event_id d)
    (calendar_link d) (passed_by d) (passed_at d) (rejected_by d) (rejected_at
    d) v (hiring_initiated_at d) (hiring_initiated_by d).

Definition set_hiring_initiated_at (v : option string) (d : t) : t :=
  mk (interview_id d) (job_id d) (candidate_id d) (client_id d)
    (interview_mode d) (interview_duration d) (time_zone d) (proposed_slots d)
    (selected_slot_id d) (scheduled_start_time d) (scheduled_end_time d)
    (interview_status d) (meeting_link d) (additional_instructions d)
    (invite_sent d) (invite_sent_by d) (candidate_confirmation_timestamp d)
    (no_show_flag d) (no_show_count d) (interview_round d) (round_name d)
    (feedback d) (rating d) (created_at d) (updated_at d) (created_by d)
    (invite_sent_at d) (duration_minutes d) (calendar_event_id d)
    (calendar_link d) (passed_by d) (passed_at d) (rejected_by d) (rejected_at
    d) (hiring_initiated d) v (hiring_initiated_by d).

Definition set_hiring_initiated_by (v : option string) (d : t) : t :=
  mk (interview_id d) (job_id d) (candidate_id d) (client_id d)
    (interview_mode d) (interview_duration d) (time_zone d) (proposed_slots d)
    (selected_slot_id d) (scheduled_start_time d) (scheduled_end_time d)
    (interview_status d) (meeting_link d) (additional_instructions d)
    (invite_sent d) (invite_sent_by d) (candidate_confirmation_timestamp d)
    (no_show_flag d) (no_show_count d) (interview_round d) (round_name d)
    (feedback d) (rating d) (created_at d) (updated_at d) (created_by d)
    (invite_sent_at d) (duration_minutes d) (calendar_event_id d)
    (calendar_link d) (passed_by d) (passed_at d) (rejected_by d) (rejected_at
    d) (hiring_initiated d) (hiring_initiated_at d) v.

End Interview.

Module Candidate.

(** The fields of a [candidates] document that the interview commands read
    or write.  Every insert into [candidates] writes [name], so a [None]
    there is a stored [null].  [no_show_count] and [current_round] are
    absent ([None]) until a command first writes them. *)
Record t : Type := mk {
  candidate_id : string;
  job_id : string;
  name : option string;
  email : option string;
  status : string;
  current_round : option Z;
  no_show_count : option Z;
  last_interview_passed : option string;
  rejection_reason : option string;
  rejected_at_round : option Z;
  selected_at : option string;
  selected_by : option string;
  salary_offered : option string;
  proposed_joining_date : option string;
  offer_notes : option string;
  total_rounds_cleared : option Z;
  updated_at : option string
}.

Definition set_status (v : string) (d : t) : t :=
  mk (candidate_id d) (job_id d) (name d) (email d) v (current_round d)
    (no_show_count d) (last_interview_passed d) (rejection_reason d)
    (rejected_at_round d) (selected_at d) (selected_by d) (salary_offered d)
    (proposed_joining_date d) (offer_notes d) (total_rounds_cleared d)
    (updated_at d).

Definition set_current_round (v : option Z) (d : t) : t :=
  mk (candidate_id d) (job_id d) (name d) (email d) (status d) v
    (no_show_count d) (last_interview_passed d) (rejection_reason d)
    (rejected_at_round d) (selected_at d) (selected_by d) (salary_offered d)
    (proposed_joining_date d) (offer_notes d) (total_rounds_cleared d)
    (updated_at d).

Definition set_no_show_count (v : option Z) (d : t) : t :=
  mk (candidate_id d) (job_id d) (name d) (email d) (status d) (current_round
    d) v (last_interview_passed d) (rejection_reason d) (rejected_at_round d)
    (selected_at d) (selected_by d) (salary_offered d) (proposed_joining_date
    d) (offer_notes d) (total_rounds_cleared d) (updated_at d).

Definition set_last_interview_passed (v : option string) (d : t) : t :=
  mk (candidate_id d) (job_id d) (name d) (email d) (status d) (current_round
    d) (no_show_count d) v (rejection_reason d) (rejected_at_round d)
    (selected_at d) (selected_by d) (salary_offered d) (proposed_joining_date
    d) (offer_notes d) (total_rounds_cleared d) (updated_at d).

Definition set_rejection_reason (v : option string) (d : t) : t :=
  mk (candidate_id d) (job_id d) (name d) (email d) (status d) (current_round
    d) (no_show_count d) (last_interview_passed d) v (rejected_at_round d)
    (selected_at d) (selected_by d) (salary_offered d) (proposed_joining_date
    d) (offer_notes d) (total_rounds_cleared d) (updated_at d).

Definition set_rejected_at_round (v : option Z) (d : t) : t :=
  mk (candidate_id d) (job_id d) (name d) (email d) (status d) (current_round
    d) (no_show_count d) (last_interview_passed d) (rejection_reason d) v
    (selected_at d) (selected_by d) (salary_offered d) (proposed_joining_date
    d) (offer_notes d) (total_rounds_cleared d) (updated_at d).

Definition set_selected_at (v : option string) (d : t) : t :=
  mk (candidate_id d) (job_id d) (name d) (email d) (status d) (current_round
    d) (no_show_count d) (last_interview_passed d) (rejection_reason d)
    (rejected_at_round d) v (selected_by d) (salary_offered d)
    (proposed_joining_date d) (offer_notes d) (total_rounds_cleared d)
    (updated_at d).

Definition set_selected_by (v : option string) (d : t) : t :=
  mk (candidate_id d) (job_id d) (name d) (email d) (status d) (current_round
    d) (no_show_count d) (last_interview_passed d) (rejection_reason d)
    (rejected_at_round d) (selected_at d) v (salary_offered d)
    (proposed_joining_date d) (offer_notes d) (total_rounds_cleared d)
    (updated_at d).

Definition set_salary_offered (v : option string) (d : t) : t :=
  mk (candidate_id d) (job_id d) (name d) (email d) (status d) (current_round
    d) (no_show_count d) (last_interview_passed d) (rejection_reason d)
    (rejected_at_round d) (selected_at d) (selected_by d) v
    (proposed_joining_date d) (offer_notes d) (total_rounds_cleared d)
    (updated_at d).

Definition set_proposed_joining_date (v : option string) (d : t) : t :=
  mk (candidate_id d) (job_id d) (name d) (email d) (status d) (current_round
    d) (no_show_count d) (last_interview_passed d) (rejection_reason d)
    (rejected_at_round d) (selected_at d) (selected_by d) (salary_offered d) v
    (offer_notes d) (total_rounds_cleared d) (updated_at d).

Definition set_offer_notes (v : option string) (d : t) : t :=
  mk (candidate_id d) (job_id d) (name d) (email d) (status d) (current_round
    d) (no_show_count d) (last_interview_passed d) (rejection_reason d)
    (rejected_at_round d) (selected_at d) (selected_by d) (salary_offered d)
    (proposed_joining_date d) v (total_rounds_cleared d) (updated_at d).

Definition set_total_rounds_cleared (v : option Z) (d : t) : t :=
  mk (candidate_id d) (job_id d) (name d) (email d) (status d) (current_round
    d) (no_show_count d) (last_interview_passed d) (rejection_reason d)
    (rejected_at_round d) (selected_at d) (selected_by d) (salary_offered d)
    (proposed_joining_date d) (offer_notes d) v (updated_at d).

Definition set_updated_at (v : option string) (d : t) : t :=
  mk (candidate_id d) (job_id d) (name d) (email d) (status d) (current_round
    d) (no_show_count d) (last_interview_passed d) (rejection_reason d)
    (rejected_at_round d) (selected_at d) (selected_by d) (salary_offered d)
    (proposed_joining_date d) (offer_notes d) (total_rounds_cleared d) v.

End Candidate.

Module Job.

Record t : Type := mk {
  job_id : string;
  client_id : string;
  title : option string
}.

End Job.

Module Client.

Record t : Type := mk {
  client_id : string;
  company_name : option string
}.

End Client.

Module User.

(** The authenticated caller, as [get_current_user] returns it. *)
Record t : Type := mk {
  email : string;
  role : string;
  client_id : string
}.

End User.

(** ** The database *)

Record DB : Type := mkDB {
  interviews : list Interview.t;
  candidates : list Candidate.t;
  jobs : list Job.t;
  clients : list Client.t
}.

Definition set_interviews (v : list Interview.t) (db : DB) : DB :=
  mkDB v (candidates db) (jobs db) (clients db).

Definition set_candidates (v : list Candidate.t) (db : DB) : DB :=
  mkDB (interviews db) v (jobs db) (clients db).

(** [collection.update_one(query, update)]: the first matching document is
    rewritten, the others are left alone. *)
Fixpoint update_one {A : Type} (query : A -> bool) (update : A -> A)
    (coll : list A) : list A :=
  match coll with
  | [] => []
  | d :: rest =>
      if query d then update d :: rest
      else d :: update_one query update rest
  end.

(** [{"$set": {...}}]: the listed field writes, applied in order. *)
Definition apply_set {A : Type} (writes : list (A -> A)) (d : A) : A :=
  fold_left (fun acc w => w acc) writes d.

Notation "'$set' ws" := (apply_set ws) (at level 10, ws at level 9).

(** Queries *)
Definition by_interview_id (id : string) (d : Interview.t) : bool :=
  Interview.interview_id d =? id.

Definition by_candidate_id (id : string) (d : Candidate.t) : bool :=
  Candidate.candidate_id d =? id.

Definition by_job_id (id : string) (d : Job.t) : bool :=
  Job.job_id d =? id.

Definition by_client_id (id : string) (d : Client.t) : bool :=
  Client.client_id d =? id.

(** ** Handlers as computations *)

Record HTTPException : Type := mkHTTP {
  status_code : Z;
  detail : string
}.

Inductive Result (A : Type) : Type :=
| Return (a : A)
| Raise (e : HTTPException).

Arguments Return {A} a.
Arguments Raise {A} e.

(** A handler reads and writes the database and returns or raises.  The
    database it leaves behind is kept in both cases. *)
Definition M (A : Type) : Type := DB -> DB * Result A.

Definition ret {A : Type} (a : A) : M A := fun db => (db, Return a).

Definition raise {A : Type} (e : HTTPException) : M A :=
  fun db => (db, Raise e).

Definition bind {A B : Type} (c : M A) (k : A -> M B) : M B :=
  fun db =>
    match c db with
    | (db', Return a) => k a db'
    | (db', Raise e) => (db', Raise e)
    end.

Declare Scope handler_scope.
Delimit Scope handler_scope with handler.
Notation "x <- c ;; k" := (bind c (fun x => k))
  (at level 61, c at next level, right associativity) : handler_scope.
Notation "c ;; k" := (bind c (fun _ => k))
  (at level 61, right associativity) : handler_scope.
Local Open Scope handler_scope.

(** [if cond: raise HTTPException(...)] *)
Definition raise_if (cond : bool) (e : HTTPException) : M unit :=
  if cond then raise e else ret tt.

(** [x = ...; if not x: raise HTTPException(...)] *)
Definition require {A : Type} (o : option A) (e : HTTPException) : M A :=
  match o with
  | Some a => ret a
  | None => raise e
  end.

Definition db_interviews_find_one (q : Interview.t -> bool)
  : M (option Interview.t) :=
  fun db => (db, Return (find q (interviews db))).

Definition db_interviews_update_one (q : Interview.t -> bool)
    (u : Interview.t -> Interview.t) : M unit :=
  fun db => (set_interviews (update_one q u (interviews db)) db, Return tt).

Definition db_interviews_insert_one (d : Interview.t) : M unit :=
  fun db => (set_interviews (interviews db ++ [d]) db, Return tt).

Definition db_candidates_find_one (q : Candidate.t -> bool)
  : M (option Candidate.t) :=
  fun db => (db, Return (find q (candidates db))).

Definition db_candidates_update_one (q : Candidate.t -> bool)
    (u : Candidate.t -> Candidate.t) : M unit :=
  fun db => (set_candidates (update_one q u (candidates db)) db, Return tt).

Definition db_jobs_find_one (q : Job.t -> bool) : M (option Job.t) :=
  fun db => (db, Return (find q (jobs db))).

Definition db_clients_find_one (q : Client.t -> bool) : M (option Client.t) :=
  fun db => (db, Return (find q (clients db))).

(** HTTP status codes used by the handlers. *)
Definition HTTP_400_BAD_REQUEST : Z := 400.
Definition HTTP_403_FORBIDDEN : Z := 403.
Definition HTTP_404_NOT_FOUND : Z := 404.
Definition HTTP_422_UNPROCESSABLE : Z := 422.
Definition HTTP_500_INTERNAL : Z := 500.

(** What FastAPI answers when the request body violates the model. *)
Definition validation_error : HTTPException :=
  mkHTTP HTTP_422_UNPROCESSABLE "validation error".

(** What FastAPI answers when the handler dies on an uncaught Python
    exception: [.get] on a document that was not found, [.split()[0]] on
    a name without a word, a response that fails its validation. *)
Definition internal_server_error : HTTPException :=
  mkHTTP HTTP_500_INTERNAL "Internal Server Error".

(** The tenant check the handlers repeat:
[[
    if current_user["role"] == "client_user":
        if interview["client_id"] != current_user["client_id"]:
            raise HTTPException(403, "Access denied")
]] *)
Definition tenant_denied (current_user : User.t) (client_id : string) : bool :=
  (User.role current_user =? "client_user")
  && negb (client_id =? User.client_id current_user).

Definition tenant_check (current_user : User.t) (client_id : string) : M unit :=
  raise_if (tenant_denied current_user client_id)
           (mkHTTP HTTP_403_FORBIDDEN "Access denied").

Definition require_found {A : Type} (c : M (option A)) (e : HTTPException)
  : M A :=
  o <- c ;; require o e.

(** ** Request models *)

Module InterviewCreate.

(** An entry of the request's [proposed_slots : List[dict]]; the handler
    reads it with [slot.get("start_time")] and [slot.get("end_time")]. *)
Record SlotDict : Type := mkSlot {
  start_time : option string;
  end_time : option string
}.

Record t : Type := mk {
  job_id : string;
  candidate_id : string;
  interview_mode : string;
  interview_duration : Z;
  time_zone : string;
  proposed_slots : list SlotDict;
  meeting_link : option string;
  additional_instructions : option string;
  interview_round : Z;
  round_name : option string
}.

(** The constraints the model declares:
    [interview_mode: Literal["Video", "Phone", "Onsite"]],
    [interview_duration: int = Field(ge=15, le=240)],
    [interview_round: int = Field(default=1, ge=1, le=10)].
    [proposed_slots] is a plain [List[dict]] and carries none. *)
Definition valid (r : t) : bool :=
  ((interview_mode r =? "Video") || (interview_mode r =? "Phone")
   || (interview_mode r =? "Onsite"))
  && (15 <=? interview_duration r)%Z && (interview_duration r <=? 240)%Z
  && (1 <=? interview_round r)%Z && (interview_round r <=? 10)%Z.

End InterviewCreate.

Module InterviewUpdate.

(** Every field is optional; the outer [option] records whether the
    request set the field at all ([model_dump(exclude_unset=True)]), the
    inner one whether it set it to [null]. *)
Record t : Type := mk {
  interview_mode : option (option string);
  meeting_link : option (option string);
  additional_instructions : option (option string);
  interview_status : option (option InterviewStatus);
  feedback : option (option string);
  rating : option (option Z)
}.

Definition valid (r : t) : bool :=
  match interview_mode r with
  | Some (Some m) => (m =? "Video") || (m =? "Phone") || (m =? "Onsite")
  | _ => true
  end
  && match rating r with
     | Some (Some n) => (1 <=? n)%Z && (n <=? 5)%Z
     | _ => true
     end.

End InterviewUpdate.

Module InterviewResponse.

(** The response model of [get_interview], [update_interview] and
    [book_interview_slot].  [interview_mode], [time_zone] and
    [interview_status] are declared [str], without a default. *)
Record t : Type := mk {
  interview_id : string;
  job_id : string;
  candidate_id : string;
  client_id : string;
  candidate_name : option string;
  job_title : option string;
  company_name : option string;
  interview_mode : string;
  interview_duration : Z;
  scheduled_start_time : option string;
  scheduled_end_time : option string;
  time_zone : string;
  interview_status : string;
  meeting_link : option string;
  additional_instructions : option string;
  invite_sent : bool;
  invite_sent_by : option string;
  candidate_confirmation_timestamp : option string;
  no_show_flag : bool;
  no_show_count : Z;
  proposed_slots : list Slot.t;
  selected_slot_id : option string;
  created_at : string;
  updated_at : string;
  created_by : string;
  interview_round : Z;
  round_name : option string;
  feedback : option string;
  rating : option Z
}.

End InterviewResponse.

Module CandidateSlotSelection.

Record t : Type := mk {
  slot_id : string;
  confirmed : bool
}.

End CandidateSlotSelection.

(** ** create_interview *)

Definition process_slots (uuid4_hex : nat -> string) (duration : Z)
    (slots : list InterviewCreate.SlotDict) : list Slot.t :=
  map (fun '(i, slot) =>
         Slot.mk ("slot_" ++ substring 0 8 (uuid4_hex (S i)))
                 (InterviewCreate.start_time slot)
                 (InterviewCreate.end_time slot)
                 duration
                 true)
      (enumerate slots).

Definition create_interview (uuid4_hex : nat -> string) (now : string)
    (interview_data : InterviewCreate.t) (current_user : User.t)
  : M Interview.t :=
  raise_if (negb (InterviewCreate.valid interview_data)) validation_error ;;
  job <- require_found
           (db_jobs_find_one (by_job_id (InterviewCreate.job_id interview_data)))
           (mkHTTP HTTP_404_NOT_FOUND "Job not found") ;;
  candidate <- require_found
           (db_candidates_find_one
              (by_candidate_id (InterviewCreate.candidate_id interview_data)))
           (mkHTTP HTTP_404_NOT_FOUND "Candidate not found") ;;
  raise_if (negb (Candidate.job_id candidate
                  =? InterviewCreate.job_id interview_data))
           (mkHTTP HTTP_400_BAD_REQUEST "Candidate does not belong to this job") ;;
  tenant_check current_user (Job.client_id job) ;;
  let interview_id := "int_" ++ substring 0 12 (uuid4_hex 0%nat) in
  let processed_slots :=
    process_slots uuid4_hex (InterviewCreate.interview_duration interview_data)
                  (InterviewCreate.proposed_slots interview_data) in
  let interview_doc :=
    Interview.mk
      interview_id
      (InterviewCreate.job_id interview_data)
      (InterviewCreate.candidate_id interview_data)
      (Job.client_id job)
      (Some (InterviewCreate.interview_mode interview_data))
      (InterviewCreate.interview_duration interview_data)
      (Some (InterviewCreate.time_zone interview_data))
      processed_slots
      None None None
      (Some AwaitingCandidateConfirmation)
      (InterviewCreate.meeting_link interview_data)
      (InterviewCreate.additional_instructions interview_data)
      false None None
      false 0
      (InterviewCreate.interview_round interview_data)
      (str_or (InterviewCreate.round_name interview_data)
              ("Round " ++ str_of_Z (InterviewCreate.interview_round interview_data)))
      None None
      now now (User.email current_user)
      None None None None None None None None false None None in
  db_interviews_insert_one interview_doc ;;
  ret interview_doc.

(** ** get_interview *)

(** The call [InterviewResponse(...)] at the end of [get_interview].
    Pydantic refuses a [None] for the three required strings and the
    handler dies on the [ValidationError]; [interview_round], [round_name],
    [feedback] and [rating] are not passed and take their defaults. *)
Definition interview_response (interview : Interview.t)
    (candidate : option Candidate.t) (job : option Job.t)
    (client : option Client.t) : option InterviewResponse.t :=
  match Interview.interview_mode interview, Interview.time_zone interview,
        Interview.interview_status interview with
  | Some interview_mode, Some time_zone, Some interview_status =>
      Some (InterviewResponse.mk
              (Interview.interview_id interview)
              (Interview.job_id interview)
              (Interview.candidate_id interview)
              (Interview.client_id interview)
              (match candidate with Some c => Candidate.name c | None => None end)
              (match job with Some j => Job.title j | None => None end)
              (match client with Some c => Client.company_name c | None => None end)
              interview_mode
              (Interview.interview_duration interview)
              (Interview.scheduled_start_time interview)
              (Interview.scheduled_end_time interview)
              time_zone
              (status_string interview_status)
              (Interview.meeting_link interview)
              (Interview.additional_instructions interview)
              (Interview.invite_sent interview)
              (Interview.invite_sent_by interview)
              (Interview.candidate_confirmation_timestamp interview)
              (Interview.no_show_flag interview)
              (Interview.no_show_count interview)
              (Interview.proposed_slots interview)
              (Interview.selected_slot_id interview)
              (Interview.created_at interview)
              (Interview.updated_at interview)
              (Interview.created_by interview)
              1 None None None)
  | _, _, _ => None
  end.

Definition get_interview (interview_id : string) (current_user : User.t)
  : M InterviewResponse.t :=
  interview <- require_found
                 (db_interviews_find_one (by_interview_id interview_id))
                 (mkHTTP HTTP_404_NOT_FOUND "Interview not found") ;;
  tenant_check current_user (Interview.client_id interview) ;;
  candidate <- db_candidates_find_one
                 (by_candidate_id (Interview.candidate_id interview)) ;;
  job <- db_jobs_find_one (by_job_id (Interview.job_id interview)) ;;
  client <- db_clients_find_one
              (by_client_id (Interview.client_id interview)) ;;
  require (interview_response interview candidate job client)
          internal_server_error.

(** ** update_interview *)

Definition opt_write {A V : Type} (setter : V -> A -> A) (o : option V)
  : list (A -> A) :=
  match o with
  | Some v => [setter v]
  | None => []
  end.

(** [update_data.model_dump(exclude_unset=True)] plus [updated_at] *)
Definition update_dict (update_data : InterviewUpdate.t) (now : string)
  : list (Interview.t -> Interview.t) :=
  opt_write Interview.set_interview_mode (InterviewUpdate.interview_mode update_data)
  ++ opt_write Interview.set_meeting_link (InterviewUpdate.meeting_link update_data)
  ++ opt_write Interview.set_additional_instructions
       (InterviewUpdate.additional_instructions update_data)
  ++ opt_write Interview.set_interview_status
       (InterviewUpdate.interview_status update_data)
  ++ opt_write Interview.set_feedback (InterviewUpdate.feedback update_data)
  ++ opt_write Interview.set_rating (InterviewUpdate.rating update_data)
  ++ [Interview.set_updated_at now].

Definition update_interview (now : string) (interview_id : string)
    (update_data : InterviewUpdate.t) (current_user : User.t)
  : M InterviewResponse.t :=
  raise_if (negb (InterviewUpdate.valid update_data)) validation_error ;;
  interview <- require_found
                 (db_interviews_find_one (by_interview_id interview_id))
                 (mkHTTP HTTP_404_NOT_FOUND "Interview not found") ;;
  tenant_check current_user (Interview.client_id interview) ;;
  db_interviews_update_one (by_interview_id interview_id)
                           ($set (update_dict update_data now)) ;;
  get_interview interview_id current_user.

(** ** book_interview_slot *)

(** The loop that looks the chosen slot up and breaks at the first hit. *)
Definition find_slot (slot_id : string) (slots : list Slot.t) : option Slot.t :=
  find (fun slot => Slot.slot_id slot =? slot_id) slots.

(** The loop that rebuilds [proposed_slots] with the chosen slot marked. *)
Definition mark_unavailable (slot_id : string) (slots : list Slot.t)
  : list Slot.t :=
  map (fun slot =>
         if Slot.slot_id slot =? slot_id
         then Slot.set_is_available false slot
         else slot)
      slots.

Definition not_awaiting_confirmation (interview : Interview.t) : HTTPException :=
  mkHTTP HTTP_400_BAD_REQUEST
    ("Interview is not awaiting confirmation (current status: "
     ++ show_status (Interview.interview_status interview) ++ ")").

Definition book_interview_slot (now : string) (interview_id : string)
    (slot_selection : CandidateSlotSelection.t) (current_user : User.t)
  : M InterviewResponse.t :=
  interview <- require_found
                 (db_interviews_find_one (by_interview_id interview_id))
                 (mkHTTP HTTP_404_NOT_FOUND "Interview not found") ;;
  raise_if (negb (status_is (Interview.interview_status interview)
                            AwaitingCandidateConfirmation))
           (not_awaiting_confirmation interview) ;;
  let slot_id := CandidateSlotSelection.slot_id slot_selection in
  let confirmed := CandidateSlotSelection.confirmed slot_selection in
  selected_slot <- require (find_slot slot_id (Interview.proposed_slots interview))
                           (mkHTTP HTTP_404_NOT_FOUND "Slot not found") ;;
  raise_if (negb (Slot.is_available selected_slot))
           (mkHTTP HTTP_400_BAD_REQUEST "Slot is no longer available") ;;
  db_interviews_update_one (by_interview_id interview_id)
    ($set [ Interview.set_selected_slot_id (Some slot_id);
            Interview.set_scheduled_start_time (Slot.start_time selected_slot);
            Interview.set_scheduled_end_time (Slot.end_time selected_slot);
            Interview.set_interview_status
              (Some (if confirmed then Confirmed
                     else AwaitingCandidateConfirmation));
            Interview.set_candidate_confirmation_timestamp
              (if confirmed then Some now else None);
            Interview.set_updated_at now;
            Interview.set_proposed_slots
              (mark_unavailable slot_id (Interview.proposed_slots interview)) ]) ;;
  get_interview interview_id current_user.

(** ** send_interview_invite *)

Module SendInterviewInviteRequest.

Record t : Type := mk {
  meeting_link : option string;
  interview_mode : option string;
  duration_minutes : option Z;
  time_zone : option string;
  auto_create_calendar_event : option bool
}.

(** The body [{}]: every field takes its declared default. *)
Definition defaults : t :=
  mk None (Some "Video") (Some 30) (Some "IST (Indian Standard Time)")
     (Some false).

End SendInterviewInviteRequest.

(** What [create_google_calendar_event] answers. *)
Inductive CalendarResult : Type :=
| CalendarFailure
| CalendarSuccess (event_id meeting_link calendar_link : string).

Definition calendar_success (r : option CalendarResult) : bool :=
  match r with
  | Some (CalendarSuccess _ _ _) => true
  | _ => false
  end.

(** [notification_service.get_interview_invitation_email_template], up to
    the one line of it that can raise:
    [candidate_first_name = candidate.get('name', 'Candidate').split()[0]],
    an [AttributeError] on a stored [null] and an [IndexError] on a name
    without a word.  The date parsing before it sits in a [try] and the
    rest only formats the message. *)
Definition candidate_first_name (candidate : Candidate.t) : option string :=
  match Candidate.name candidate with
  | Some name => split_first name
  | None => None
  end.

Definition send_interview_invite (calendar : CalendarResult) (now : string)
    (interview_id : string) (request : option SendInterviewInviteRequest.t)
    (current_user : User.t) : M unit :=
  interview <- require_found
                 (db_interviews_find_one (by_interview_id interview_id))
                 (mkHTTP HTTP_404_NOT_FOUND "Interview not found") ;;
  tenant_check current_user (Interview.client_id interview) ;;
  candidate <- require_found
                 (db_candidates_find_one
                    (by_candidate_id (Interview.candidate_id interview)))
                 (mkHTTP 404 "Candidate not found") ;;
  raise_if (negb (truthy_str (Candidate.email candidate)))
           (mkHTTP HTTP_400_BAD_REQUEST
                   "Candidate does not have an email address") ;;
  job <- db_jobs_find_one (by_job_id (Interview.job_id interview)) ;;
  client <- db_clients_find_one (by_client_id (Interview.client_id interview)) ;;
  raise_if (match job, client with Some _, Some _ => false | _, _ => true end)
           (mkHTTP 404 "Job or client not found") ;;
  (* interview_data *)
  let duration_minutes :=
    match request with
    | Some r => SendInterviewInviteRequest.duration_minutes r
    | None => Some 30
    end in
  let interview_mode :=
    match request with
    | Some r => SendInterviewInviteRequest.interview_mode r
    | None => Some "Video"
    end in
  let time_zone :=
    match request with
    | Some r => SendInterviewInviteRequest.time_zone r
    | None => Some "IST (Indian Standard Time)"
    end in
  let meeting_link :=
    match request with
    | Some r => SendInterviewInviteRequest.meeting_link r
    | None => Some ""
    end in
  let calendar_result :=
    match request with
    | Some r =>
        match SendInterviewInviteRequest.auto_create_calendar_event r with
        | Some true => Some calendar
        | _ => None
        end
    | None => None
    end in
  let meeting_link :=
    match calendar_result with
    | Some (CalendarSuccess _ link _) => Some link
    | _ => meeting_link
    end in
  (* subject, body = get_interview_invitation_email_template(...) *)
  _ <- require (candidate_first_name candidate) internal_server_error ;;
  db_interviews_update_one (by_interview_id interview_id)
    ($set ([ Interview.set_invite_sent true;
             Interview.set_invite_sent_by (Some (User.email current_user));
             Interview.set_invite_sent_at (Some now);
             Interview.set_interview_status
               (if status_is (Interview.interview_status interview) Confirmed
                then Some Scheduled
                else Interview.interview_status interview);
             Interview.set_meeting_link meeting_link;
             Interview.set_interview_mode interview_mode;
             Interview.set_duration_minutes duration_minutes;
             Interview.set_time_zone time_zone;
             Interview.set_updated_at now ]
           ++ match calendar_result with
              | Some (CalendarSuccess event_id _ calendar_link) =>
                  [ Interview.set_calendar_event_id (Some event_id);
                    Interview.set_calendar_link (Some calendar_link) ]
              | _ => []
              end)).

(** ** mark_interview_completed, mark_interview_no_show, cancel_interview *)

Definition mark_interview_completed (now : string) (interview_id : string)
    (current_user : User.t) : M unit :=
  interview <- require_found
                 (db_interviews_find_one (by_interview_id interview_id))
                 (mkHTTP HTTP_404_NOT_FOUND "Interview not found") ;;
  tenant_check current_user (Interview.client_id interview) ;;
  db_interviews_update_one (by_interview_id interview_id)
    ($set [ Interview.set_interview_status (Some Completed);
            Interview.set_updated_at now ]).

(** [{"$inc": {"no_show_count": 1}}]; an absent field counts as 0. *)
Definition inc_no_show_count (c : Candidate.t) : Candidate.t :=
  Candidate.set_no_show_count
    (Some (match Candidate.no_show_count c with Some n => n | None => 0 end + 1))
    c.

(** Returns the [no_show_count] of the response. *)
Definition mark_interview_no_show (now : string) (interview_id : string)
    (current_user : User.t) : M Z :=
  interview <- require_found
                 (db_interviews_find_one (by_interview_id interview_id))
                 (mkHTTP HTTP_404_NOT_FOUND "Interview not found") ;;
  tenant_check current_user (Interview.client_id interview) ;;
  let current_no_show_count := Interview.no_show_count interview + 1 in
  db_interviews_update_one (by_interview_id interview_id)
    ($set [ Interview.set_interview_status (Some NoShow);
            Interview.set_no_show_flag true;
            Interview.set_no_show_count current_no_show_count;
            Interview.set_updated_at now ]) ;;
  db_candidates_update_one
    (by_candidate_id (Interview.candidate_id interview))
    inc_no_show_count ;;
  ret current_no_show_count.

Definition cancel_interview (now : string) (interview_id : string)
    (current_user : User.t) : M unit :=
  interview <- require_found
                 (db_interviews_find_one (by_interview_id interview_id))
                 (mkHTTP HTTP_404_NOT_FOUND "Interview not found") ;;
  tenant_check current_user (Interview.client_id interview) ;;
  db_interviews_update_one (by_interview_id interview_id)
    ($set [ Interview.set_interview_status (Some Cancelled);
            Interview.set_updated_at now ]).

(** ** Multi-round flow *)

Definition rating_ok (rating : option Z) : bool :=
  match rating with
  | Some n => (1 <=? n)%Z && (n <=? 5)%Z
  | None => true
  end.

Module MoveToNextRoundRequest.

Record t : Type := mk {
  feedback : option string;
  rating : option Z;
  next_round_name : option string
}.

Definition valid (r : t) : bool := rating_ok (rating r).

End MoveToNextRoundRequest.

Module InitiateHiringRequest.

Record t : Type := mk {
  feedback : option string;
  rating : option Z;
  salary_offered : option string;
  joining_date : option string;
  offer_notes : option string
}.

Definition valid (r : t) : bool := rating_ok (rating r).

End InitiateHiringRequest.

Definition must_be_completed_or_scheduled (interview : Interview.t)
  : HTTPException :=
  mkHTTP 400
    ("Interview must be Completed or Scheduled before moving to next round. Current status: "
     ++ show_status (Interview.interview_status interview)).

(** Returns [(current_round, next_round)] of the response. *)
Definition move_to_next_round (now : string) (interview_id : string)
    (request : MoveToNextRoundRequest.t) (current_user : User.t)
  : M (Z * Z) :=
  raise_if (negb (MoveToNextRoundRequest.valid request)) validation_error ;;
  interview <- require_found
                 (db_interviews_find_one (by_interview_id interview_id))
                 (mkHTTP 404 "Interview not found") ;;
  tenant_check current_user (Interview.client_id interview) ;;
  raise_if (negb (status_is (Interview.interview_status interview) Completed
                  || status_is (Interview.interview_status interview) Scheduled))
           (must_be_completed_or_scheduled interview) ;;
  let current_round := Interview.interview_round interview in
  db_interviews_update_one (by_interview_id interview_id)
    ($set [ Interview.set_interview_status (Some Passed);
            Interview.set_feedback (MoveToNextRoundRequest.feedback request);
            Interview.set_rating (MoveToNextRoundRequest.rating request);
            Interview.set_updated_at now;
            Interview.set_passed_by (Some (User.email current_user));
            Interview.set_passed_at (Some now) ]) ;;
  db_candidates_update_one
    (by_candidate_id (Interview.candidate_id interview))
    ($set [ Candidate.set_status "IN_PROGRESS";
            Candidate.set_current_round (Some (current_round + 1));
            Candidate.set_last_interview_passed (Some interview_id);
            Candidate.set_updated_at (Some now) ]) ;;
  (* the notification title reads [candidate.get('name', ...)] *)
  _ <- require_found
         (db_candidates_find_one
            (by_candidate_id (Interview.candidate_id interview)))
         internal_server_error ;;
  ret (current_round, current_round + 1).

Definition reject_after_interview (now : string) (interview_id : string)
    (request : MoveToNextRoundRequest.t) (current_user : User.t) : M unit :=
  raise_if (negb (MoveToNextRoundRequest.valid request)) validation_error ;;
  interview <- require_found
                 (db_interviews_find_one (by_interview_id interview_id))
                 (mkHTTP 404 "Interview not found") ;;
  tenant_check current_user (Interview.client_id interview) ;;
  db_interviews_update_one (by_interview_id interview_id)
    ($set [ Interview.set_interview_status (Some Failed);
            Interview.set_feedback (MoveToNextRoundRequest.feedback request);
            Interview.set_rating (MoveToNextRoundRequest.rating request);
            Interview.set_updated_at now;
            Interview.set_rejected_by (Some (User.email current_user));
            Interview.set_rejected_at (Some now) ]) ;;
  db_candidates_update_one
    (by_candidate_id (Interview.candidate_id interview))
    ($set [ Candidate.set_status "REJECTED";
            Candidate.set_rejection_reason
              (MoveToNextRoundRequest.feedback request);
            Candidate.set_rejected_at_round
              (Some (Interview.interview_round interview));
            Candidate.set_updated_at (Some now) ]).

(** Returns [rounds_cleared] of the response. *)
Definition initiate_hiring (now : string) (interview_id : string)
    (request : InitiateHiringRequest.t) (current_user : User.t) : M Z :=
  raise_if (negb (InitiateHiringRequest.valid request)) validation_error ;;
  interview <- require_found
                 (db_interviews_find_one (by_interview_id interview_id))
                 (mkHTTP 404 "Interview not found") ;;
  tenant_check current_user (Interview.client_id interview) ;;
  let current_round := Interview.interview_round interview in
  db_interviews_update_one (by_interview_id interview_id)
    ($set [ Interview.set_interview_status (Some Passed);
            Interview.set_feedback (InitiateHiringRequest.feedback request);
            Interview.set_rating (InitiateHiringRequest.rating request);
            Interview.set_hiring_initiated true;
            Interview.set_hiring_initiated_at (Some now);
            Interview.set_hiring_initiated_by (Some (User.email current_user));
            Interview.set_updated_at now ]) ;;
  candidate <- db_candidates_find_one
                 (by_candidate_id (Interview.candidate_id interview)) ;;
  db_candidates_update_one
    (by_candidate_id (Interview.candidate_id interview))
    ($set [ Candidate.set_status "SELECTED";
            Candidate.set_selected_at (Some now);
            Candidate.set_selected_by (Some (User.email current_user));
            Candidate.set_salary_offered
              (InitiateHiringRequest.salary_offered request);
            Candidate.set_proposed_joining_date
              (InitiateHiringRequest.joining_date request);
            Candidate.set_offer_notes (InitiateHiringRequest.offer_notes request);
            Candidate.set_total_rounds_cleared (Some current_round);
            Candidate.set_updated_at (Some now) ]) ;;
  job <- db_jobs_find_one (by_job_id (Interview.job_id interview)) ;;
  (* the notification reads [candidate.get('name', ...)] and
     [job.get('title', ...)] *)
  _ <- require candidate internal_server_error ;;
  _ <- require job internal_server_error ;;
  ret current_round.

(** ** get_interview_pipeline_stats *)

Module InterviewPipelineStats.

Record t : Type := mk {
  total_interviews : Z;
  awaiting_confirmation : Z;
  confirmed : Z;
  scheduled : Z;
  completed : Z;
  no_shows : Z;
  cancelled : Z
}.

Definition set_total_interviews (v : Z) (s : t) : t :=
  mk v (awaiting_confirmation s) (confirmed s) (scheduled s) (completed s)
     (no_shows s) (cancelled s).
Definition set_awaiting_confirmation (v : Z) (s : t) : t :=
  mk (total_interviews s) v (confirmed s) (scheduled s) (completed s)
     (no_shows s) (cancelled s).
Definition set_confirmed (v : Z) (s : t) : t :=
  mk (total_interviews s) (awaiting_confirmation s) v (scheduled s)
     (completed s) (no_shows s) (cancelled s).
Definition set_scheduled (v : Z) (s : t) : t :=
  mk (total_interviews s) (awaiting_confirmation s) (confirmed s) v
     (completed s) (no_shows s) (cancelled s).
Definition set_completed (v : Z) (s : t) : t :=
  mk (total_interviews s) (awaiting_confirmation s) (confirmed s)
     (scheduled s) v (no_shows s) (cancelled s).
Definition set_no_shows (v : Z) (s : t) : t :=
  mk (total_interviews s) (awaiting_confirmation s) (confirmed s)
     (scheduled s) (completed s) v (cancelled s).
Definition set_cancelled (v : Z) (s : t) : t :=
  mk (total_interviews s) (awaiting_confirmation s) (confirmed s)
     (scheduled s) (completed s) (no_shows s) v.

End InterviewPipelineStats.

(** The query of the handler: [None] is [{}], [Some c] is
    [{"client_id": c}]. *)
Definition pipeline_query (client_id : option string) (current_user : User.t)
  : option string :=
  if User.role current_user =? "client_user"
  then Some (User.client_id current_user)
  else if truthy_str client_id then client_id
  else None.

(** [{"$match": query}] *)
Definition match_query (query : option string) (docs : list Interview.t)
  : list Interview.t :=
  match query with
  | Some c => filter (fun d => Interview.client_id d =? c) docs
  | None => docs
  end.

(** [{"$group": {"_id": "$interview_status", "count": {"$sum": 1}}}]:
    one item per distinct status, with the number of documents holding it. *)
Fixpoint group_add (key : option InterviewStatus)
    (groups : list (option InterviewStatus * Z))
  : list (option InterviewStatus * Z) :=
  match groups with
  | [] => [(key, 1)]
  | (k, n) :: rest =>
      if opt_status_eqb k key then (k, n + 1) :: rest
      else (k, n) :: group_add key rest
  end.

Definition group_by_status (docs : list Interview.t)
  : list (option InterviewStatus * Z) :=
  fold_left (fun groups d => group_add (Interview.interview_status d) groups)
            docs [].

(** [status_mapping.get(item["_id"])], as the field of [stats] it names. *)
Definition status_mapping (key : option InterviewStatus)
  : option (Z -> InterviewPipelineStats.t -> InterviewPipelineStats.t) :=
  match key with
  | Some AwaitingCandidateConfirmation =>
      Some InterviewPipelineStats.set_awaiting_confirmation
  | Some Confirmed => Some InterviewPipelineStats.set_confirmed
  | Some Scheduled => Some InterviewPipelineStats.set_scheduled
  | Some Completed => Some InterviewPipelineStats.set_completed
  | Some NoShow => Some InterviewPipelineStats.set_no_shows
  | Some Cancelled => Some InterviewPipelineStats.set_cancelled
  | _ => None
  end.

(** The body of the loop over [status_counts]. *)
Definition count_item (stats : InterviewPipelineStats.t)
    (item : option InterviewStatus * Z) : InterviewPipelineStats.t :=
  let stats :=
    match status_mapping (fst item) with
    | Some set_bucket => set_bucket (snd item) stats
    | None => stats
    end in
  InterviewPipelineStats.set_total_interviews
    (InterviewPipelineStats.total_interviews stats + snd item) stats.

Definition get_interview_pipeline_stats (client_id : option string)
    (current_user : User.t) : M InterviewPipelineStats.t :=
  fun db =>
    let query := pipeline_query client_id current_user in
    let status_counts :=
      firstn 100 (group_by_status (match_query query (interviews db))) in
    (db, Return (fold_left count_item status_counts
                           (InterviewPipelineStats.mk 0 0 0 0 0 0 0))).

(** ** Public booking link *)

(** The process environment the token depends on: the SHA-256 hex digest
    and the [JWT_SECRET] variable. *)
Record Env : Type := mkEnv {
  sha256_hexdigest : string -> string;
  JWT_SECRET : option string
}.

Definition generate_booking_token (env : Env) (interview_id : string) : string :=
  let secret :=
    match JWT_SECRET env with
    | Some s => s
    | None => "arbeit-secret-key"
    end in
  substring 0 32 (sha256_hexdigest env (interview_id ++ ":" ++ secret)).

Definition verify_booking_token (env : Env) (interview_id token : string)
  : bool :=
  token =? generate_booking_token env interview_id.

Definition public_book_slot (env : Env) (now : string)
    (interview_id slot_id token : string) : M unit :=
  raise_if (negb (verify_booking_token env interview_id token))
           (mkHTTP HTTP_403_FORBIDDEN "Invalid or expired booking link") ;;
  interview <- require_found
                 (db_interviews_find_one (by_interview_id interview_id))
                 (mkHTTP HTTP_404_NOT_FOUND "Interview not found") ;;
  raise_if (negb (status_is (Interview.interview_status interview)
                            AwaitingCandidateConfirmation))
           (not_awaiting_confirmation interview) ;;
  selected_slot <- require (find_slot slot_id (Interview.proposed_slots interview))
                           (mkHTTP HTTP_404_NOT_FOUND "Slot not found") ;;
  raise_if (negb (Slot.is_available selected_slot))
           (mkHTTP HTTP_400_BAD_REQUEST "Slot is no longer available") ;;
  db_interviews_update_one (by_interview_id interview_id)
    ($set [ Interview.set_selected_slot_id (Some slot_id);
            Interview.set_scheduled_start_time (Slot.start_time selected_slot);
            Interview.set_scheduled_end_time (Slot.end_time selected_slot);
            Interview.set_interview_status (Some Confirmed);
            Interview.set_candidate_confirmation_timestamp (Some now);
            Interview.set_updated_at now;
            Interview.set_proposed_slots
              (mark_unavailable slot_id (Interview.proposed_slots interview)) ]).

(** ** Commands and reachable states *)

Inductive Command : Type :=
| CreateInterview (uuid4_hex : nat -> string) (data : InterviewCreate.t)
| UpdateInterview (interview_id : string) (data : InterviewUpdate.t)
| BookInterviewSlot (interview_id : string) (sel : CandidateSlotSelection.t)
| PublicBookSlot (interview_id slot_id token : string)
| SendInterviewInvite (calendar : CalendarResult) (interview_id : string)
    (request : option SendInterviewInviteRequest.t)
| MarkInterviewCompleted (interview_id : string)
| MarkInterviewNoShow (interview_id : string)
| CancelInterview (interview_id : string)
| MoveToNextRound (interview_id : string) (request : MoveToNextRoundRequest.t)
| RejectAfterInterview (interview_id : string)
    (request : MoveToNextRoundRequest.t)
| InitiateHiring (interview_id : string) (request : InitiateHiringRequest.t).

Definition ignore {A : Type} (c : M A) : M unit := _ <- c ;; ret tt.

(** One request: the command, the caller and the time it is served. *)
Definition run_command (env : Env) (now : string) (current_user : User.t)
    (c : Command) : M unit :=
  match c with
  | CreateInterview uuid4_hex data =>
      ignore (create_interview uuid4_hex now data current_user)
  | UpdateInterview id data =>
      ignore (update_interview now id data current_user)
  | BookInterviewSlot id sel =>
      ignore (book_interview_slot now id sel current_user)
  | PublicBookSlot id slot_id token =>
      public_book_slot env now id slot_id token
  | SendInterviewInvite calendar id request =>
      send_interview_invite calendar now id request current_user
  | MarkInterviewCompleted id => mark_interview_completed now id current_user
  | MarkInterviewNoShow id =>
      ignore (mark_interview_no_show now id current_user)
  | CancelInterview id => cancel_interview now id current_user
  | MoveToNextRound id request =>
      ignore (move_to_next_round now id request current_user)
  | RejectAfterInterview id request =>
      reject_after_interview now id request current_user
  | InitiateHiring id request =>
      ignore (initiate_hiring now id request current_user)
  end.

(** The uuid generator hands out distinct slot ids within one request. *)
Definition distinct_slot_ids (c : Command) : Prop :=
  match c with
  | CreateInterview uuid4_hex data =>
      NoDup (map Slot.slot_id
                 (process_slots uuid4_hex
                    (InterviewCreate.interview_duration data)
                    (InterviewCreate.proposed_slots data)))
  | _ => True
  end.

(** Where the interview commands start from: no interview yet, and the
    candidates as the CRUD layer stores them (distinct ids, no
    [no_show_count] field). *)
Definition initial (db : DB) : Prop :=
  interviews db = []
  /\ NoDup (map Candidate.candidate_id (candidates db))
  /\ Forall (fun c => Candidate.no_show_count c = None) (candidates db).

(** States reachable by requests whose commands satisfy [allowed]. *)
Inductive reachable_by (allowed : Command -> Prop) (env : Env) : DB -> Prop :=
| reach_initial db : initial db -> reachable_by allowed env db
| reach_step db now current_user c :
    reachable_by allowed env db ->
    allowed c ->
    distinct_slot_ids c ->
    reachable_by allowed env (fst (run_command env now current_user c db)).

Definition reachable : Env -> DB -> Prop := reachable_by (fun _ => True).

(** ** get_public_interview and get_booking_link *)

(** The public view of an interview; only the token is checked. *)
Definition get_public_interview (env : Env) (interview_id token : string)
  : M Interview.t :=
  raise_if (negb (verify_booking_token env interview_id token))
           (mkHTTP HTTP_403_FORBIDDEN "Invalid or expired booking link") ;;
  require_found (db_interviews_find_one (by_interview_id interview_id))
                (mkHTTP HTTP_404_NOT_FOUND "Interview not found").

Module BookingLink.

Record t : Type := mk {
  interview_id : string;
  booking_link : string;
  booking_token : string
}.

End BookingLink.

(** [frontend_url] is the [FRONTEND_URL] variable of the process. *)
Definition get_booking_link (env : Env) (frontend_url : option string)
    (interview_id : string) (current_user : User.t) : M BookingLink.t :=
  interview <- require_found
                 (db_interviews_find_one (by_interview_id interview_id))
                 (mkHTTP HTTP_404_NOT_FOUND "Interview not found") ;;
  tenant_check current_user (Interview.client_id interview) ;;
  let booking_token := generate_booking_token env interview_id in
  let frontend_url :=
    match frontend_url with
    | Some url => url
    | None => "https://hirematch-52.preview.emergentagent.com"
    end in
  ret (BookingLink.mk interview_id
         (frontend_url ++ "/book/" ++ interview_id ++ "/" ++ booking_token)
         booking_token).

(** ** candidate_portal_book_slot *)

Module PortalUser.

(** The logged-in candidate, as [get_current_candidate] returns it. *)
Record t : Type := mk {
  candidate_portal_id : string;
  email : string;
  name : string
}.

End PortalUser.

(** [collection.find(query).to_list(100)] over the candidates. *)
Definition db_candidates_find (q : Candidate.t -> bool)
  : M (list Candidate.t) :=
  fun db => (db, Return (firstn 100 (filter q (candidates db)))).

(** The query
    [{"$or": [{"candidate_portal_id": ...}, {"email": ...}]}].
    [portal_id_of] reads the [candidate_portal_id] field of a candidate
    document, which [Candidate.t] does not carry. *)
Definition owned_by (portal_id_of : Candidate.t -> option string)
    (current_candidate : PortalUser.t) (c : Candidate.t) : bool :=
  opt_str_eqb (portal_id_of c)
              (Some (PortalUser.candidate_portal_id current_candidate))
  || opt_str_eqb (Candidate.email c) (Some (PortalUser.email current_candidate)).

(** [x not in ids] *)
Definition not_in (x : string) (ids : list string) : bool :=
  negb (existsb (fun id => id =? x) ids).

Definition candidate_portal_book_slot
    (portal_id_of : Candidate.t -> option string) (now : string)
    (interview_id slot_id : string) (current_candidate : PortalUser.t)
  : M unit :=
  interview <- require_found
                 (db_interviews_find_one (by_interview_id interview_id))
                 (mkHTTP HTTP_404_NOT_FOUND "Interview not found") ;;
  candidate_records <- db_candidates_find
                         (owned_by portal_id_of current_candidate) ;;
  let candidate_ids := map Candidate.candidate_id candidate_records in
  raise_if (not_in (Interview.candidate_id interview) candidate_ids)
           (mkHTTP HTTP_403_FORBIDDEN "This interview does not belong to you") ;;
  raise_if (negb (status_is (Interview.interview_status interview)
                            AwaitingCandidateConfirmation))
           (not_awaiting_confirmation interview) ;;
  selected_slot <- require (find_slot slot_id (Interview.proposed_slots interview))
                           (mkHTTP HTTP_404_NOT_FOUND "Slot not found") ;;
  raise_if (negb (Slot.is_available selected_slot))
           (mkHTTP HTTP_400_BAD_REQUEST "Slot is no longer available") ;;
  db_interviews_update_one (by_interview_id interview_id)
    ($set [ Interview.set_selected_slot_id (Some slot_id);
            Interview.set_scheduled_start_time (Slot.start_time selected_slot);
            Interview.set_scheduled_end_time (Slot.end_time selected_slot);
            Interview.set_interview_status (Some Confirmed);
            Interview.set_candidate_confirmation_timestamp (Some now);
            Interview.set_updated_at now;
            Interview.set_proposed_slots
              (mark_unavailable slot_id (Interview.proposed_slots interview)) ]).

(** The interview a command addresses; creating addresses none. *)
Definition target (c : Command) : option string :=
  match c with
  | CreateInterview _ _ => None
  | UpdateInterview id _ | BookInterviewSlot id _ | PublicBookSlot id _ _
  | SendInterviewInvite _ id _ | MarkInterviewCompleted id
  | MarkInterviewNoShow id | CancelInterview id | MoveToNextRound id _
  | RejectAfterInterview id _ | InitiateHiring id _ => Some id
  end.

(** * Vocabulary of the properties *)

(** Every field write leaves [interview_id] alone. *)
Definition keeps_id (w : Interview.t -> Interview.t) : Prop :=
  forall d, Interview.interview_id (w d) = Interview.interview_id d.

(** The caller passes the tenant check on the interview stored under [id]
    (an admin or recruiter, or a client user of the owning tenant). *)
Definition may_access (current_user : User.t) (id : string) (db : DB) : Prop :=
  forall interview,
    find (by_interview_id id) (interviews db) = Some interview ->
    tenant_denied current_user (Interview.client_id interview) = false.

(** The failures of a booking that the specification lists: the interview
    is unknown, it is not awaiting confirmation, the slot is not among
    the proposed ones, or the slot is already claimed. *)
Definition listed_failure (id slot_id : string) (db : DB) : Prop :=
  match find (by_interview_id id) (interviews db) with
  | None => True
  | Some interview =>
      Interview.interview_status interview
      <> Some AwaitingCandidateConfirmation
      \/ match find_slot slot_id (Interview.proposed_slots interview) with
         | None => True
         | Some slot => Slot.is_available slot = false
         end
  end.

(** The interviews a statistics request is about: those of the caller's
    tenant for a client user; otherwise those of the client the request
    names, or all of them when it names none. *)
Definition in_scope (client_id : option string) (current_user : User.t)
    (d : Interview.t) : bool :=
  if User.role current_user =? "client_user"
  then Interview.client_id d =? User.client_id current_user
  else
    match client_id with
    | Some c => (c =? "") || (Interview.client_id d =? c)
    | None => true
    end.

(** How many of [docs] hold the status [key]. *)
Definition count_status (key : option InterviewStatus)
    (docs : list Interview.t) : Z :=
  Z.of_nat
    (List.length
       (filter (fun d => opt_status_eqb (Interview.interview_status d) key)
               docs)).

(** The count a [$group] result holds for [key], 0 when it has no item
    for it. *)
Definition group_lookup (key : option InterviewStatus)
    (groups : list (option InterviewStatus * Z)) : Z :=
  match find (fun g => opt_status_eqb (fst g) key) groups with
  | Some g => snd g
  | None => 0
  end.

Definition group_total (groups : list (option InterviewStatus * Z)) : Z :=
  fold_right (fun g n => snd g + n) 0 groups.

(** Every value [interview_status] can hold. *)
Definition all_status_keys : list (option InterviewStatus) :=
  [ None; Some Draft; Some AwaitingCandidateConfirmation; Some Confirmed;
    Some Scheduled; Some Completed; Some NoShow; Some Cancelled; Some Passed;
    Some Failed ].

(** The fields the pipeline statistics read from an interview. *)
Definition stats_key (d : Interview.t) : string * option InterviewStatus :=
  (Interview.client_id d, Interview.interview_status d).

(** Reading one field of [stats] after the loop body has run on an item
    whose status is [key]. *)
Definition bucket_of (get : InterviewPipelineStats.t -> Z)
    (key : option InterviewStatus) : Prop :=
  forall s item,
    get (count_item s item)
    = if opt_status_eqb (fst item) key then snd item else get s.

(** ** Status transitions *)

Definition terminal (s : InterviewStatus) : Prop :=
  s = Passed \/ s = Failed \/ s = NoShow \/ s = Cancelled.

(** The transition table of section 4.1 of the specification, row by row:
    the status changes it lets a command make.  (A book that is not
    confirmed "stays", and [update_interview] has no row.) *)
Definition table_transition (c : Command)
    (from to : option InterviewStatus) : Prop :=
  match c with
  | BookInterviewSlot _ _ | PublicBookSlot _ _ _ =>
      from = Some AwaitingCandidateConfirmation /\ to = Some Confirmed
  | SendInterviewInvite _ _ _ => from = Some Confirmed /\ to = Some Scheduled
  | MarkInterviewCompleted _ =>
      (from = Some Scheduled \/ from = Some Completed) /\ to = Some Completed
  | MarkInterviewNoShow _ =>
      (exists s, from = Some s /\ ~ terminal s) /\ to = Some NoShow
  | CancelInterview _ =>
      (exists s, from = Some s /\ ~ terminal s) /\ to = Some Cancelled
  | MoveToNextRound _ _ =>
      (from = Some Completed \/ from = Some Scheduled) /\ to = Some Passed
  | RejectAfterInterview _ _ => to = Some Failed
  | InitiateHiring _ _ => to = Some Passed
  | CreateInterview _ _ | UpdateInterview _ _ => False
  end.

(** The status changes the handlers make: only booking, the invitation
    and [move_to_next_round] look at the current status. *)
Definition handler_transition (c : Command)
    (from to : option InterviewStatus) : Prop :=
  match c with
  | CreateInterview _ _ => False
  | UpdateInterview _ data => InterviewUpdate.interview_status data = Some to
  | BookInterviewSlot _ _ | PublicBookSlot _ _ _ =>
      from = Some AwaitingCandidateConfirmation /\ to = Some Confirmed
  | SendInterviewInvite _ _ _ => from = Some Confirmed /\ to = Some Scheduled
  | MarkInterviewCompleted _ => to = Some Completed
  | MarkInterviewNoShow _ => to = Some NoShow
  | CancelInterview _ => to = Some Cancelled
  | MoveToNextRound _ _ =>
      (from = Some Completed \/ from = Some Scheduled) /\ to = Some Passed
  | RejectAfterInterview _ _ => to = Some Failed
  | InitiateHiring _ _ => to = Some Passed
  end.

(** ** Claimed slots *)

Definition claimed_slots (i : Interview.t) : list Slot.t :=
  filter (fun s => negb (Slot.is_available s)) (Interview.proposed_slots i).

(** At most one slot is unavailable, and an unavailable slot is the one
    [selected_slot_id] names and starts at [scheduled_start_time]. *)
Definition one_claim (i : Interview.t) : Prop :=
  (List.length (claimed_slots i) <= 1)%nat
  /\ forall s,
       In s (Interview.proposed_slots i) ->
       Slot.is_available s = false ->
       Interview.selected_slot_id i = Some (Slot.slot_id s)
       /\ Interview.scheduled_start_time i = Slot.start_time s.

(** Requests after which a booked interview is no longer awaiting
    confirmation: every [book_interview_slot] is confirmed, and no
    [update_interview] sets the status back to
    [Awaiting Candidate Confirmation]. *)
Definition settles_bookings (c : Command) : Prop :=
  match c with
  | BookInterviewSlot _ sel => CandidateSlotSelection.confirmed sel = true
  | UpdateInterview _ data =>
      InterviewUpdate.interview_status data
      <> Some (Some AwaitingCandidateConfirmation)
  | _ => True
  end.

(** What the booking guards rely on: slot ids are distinct, and while the
    interview awaits confirmation no slot has been claimed. *)
Definition slot_inv (i : Interview.t) : Prop :=
  NoDup (map Slot.slot_id (Interview.proposed_slots i))
  /\ one_claim i
  /\ (Interview.interview_status i = Some AwaitingCandidateConfirmation ->
      Forall (fun s => Slot.is_available s = true)
             (Interview.proposed_slots i)).

(** ** The no-show ledger *)

(** The aggregate a candidate document holds; an absent field is 0. *)
Definition candidate_no_shows (c : Candidate.t) : Z :=
  match Candidate.no_show_count c with
  | Some n => n
  | None => 0
  end.

(** The sum of [no_show_count] over the interviews of a candidate. *)
Fixpoint no_shows_of (candidate_id : string) (ivs : list Interview.t) : Z :=
  match ivs with
  | [] => 0
  | i :: rest =>
      (if Interview.candidate_id i =? candidate_id
       then Interview.no_show_count i else 0)
      + no_shows_of candidate_id rest
  end.

Definition ledger_key (i : Interview.t) : string * Z :=
  (Interview.candidate_id i, Interview.no_show_count i).

Definition candidate_key (c : Candidate.t) : string * option Z :=
  (Candidate.candidate_id c, Candidate.no_show_count c).

Definition ledger_inv (db : DB) : Prop :=
  NoDup (map Candidate.candidate_id (candidates db))
  /\ Forall (fun i => 0 <= Interview.no_show_count i) (interviews db)
  /\ Forall (fun c => candidate_no_shows c
                      = no_shows_of (Candidate.candidate_id c) (interviews db))
            (candidates db).

(** ** What a request may change *)

(** The fields of a slot other than its availability. *)
Definition slot_core (s : Slot.t)
  : string * option string * option string * Z :=
  (Slot.slot_id s, Slot.start_time s, Slot.end_time s, Slot.duration_minutes s).

(** The fields of an interview that creation fixes. *)
Definition interview_core (i : Interview.t)
  : string * string * string * string * Z * Z * string * string * string :=
  (Interview.interview_id i, Interview.job_id i, Interview.candidate_id i,
   Interview.client_id i, Interview.interview_duration i,
   Interview.interview_round i, Interview.round_name i,
   Interview.created_at i, Interview.created_by i).

(** Slot by slot: same id, times and duration, and a slot that was
    unavailable still is. *)
Definition never_released (old new : list Slot.t) : Prop :=
  Forall2 (fun s s' =>
             slot_core s' = slot_core s
             /\ (Slot.is_available s = false -> Slot.is_available s' = false))
          old new.

(** How a stored interview may differ after a request served at [now]. *)
Definition rewritten (now : string) (i i' : Interview.t) : Prop :=
  interview_core i' = interview_core i
  /\ never_released (Interview.proposed_slots i) (Interview.proposed_slots i')
  /\ Interview.no_show_count i <= Interview.no_show_count i'
  /\ Interview.updated_at i' = now.

(** The fields of a candidate the interview commands never write. *)
Definition candidate_core (c : Candidate.t)
  : string * string * option string * option string :=
  (Candidate.candidate_id c, Candidate.job_id c, Candidate.name c,
   Candidate.email c).

(** Commands whose handler compares tenants before it writes. *)
Definition tenant_checked (c : Command) : Prop :=
  match c with
  | CreateInterview _ _ | BookInterviewSlot _ _ | PublicBookSlot _ _ _ => False
  | _ => True
  end.

(** The raises that can follow a write: the 403 and the 500 of the
    response step of [book_interview_slot], the 500 of the response step
    of [update_interview], and the 500 of [move_to_next_round] and
    [initiate_hiring] when the candidate or job is not on file. *)
Definition raised_after_write (c : Command) (e : HTTPException) : Prop :=
  match c with
  | BookInterviewSlot _ _ =>
      e = mkHTTP 403 "Access denied" \/ e = internal_server_error
  | UpdateInterview _ _ | MoveToNextRound _ _ | InitiateHiring _ _ =>
      e = internal_server_error
  | _ => False
  end.

(** Every slot lasts as long as the interview says. *)
Definition slots_last_as_planned (i : Interview.t) : Prop :=
  Forall (fun s => Slot.duration_minutes s = Interview.interview_duration i)
         (Interview.proposed_slots i).

(** ** A worked scenario

    One tenant with one job and one candidate, an administrator, a client
    user of another tenant, and an interview proposed with two slots. *)
Module Scenario.

Definition env : Env := mkEnv (fun s => s) None.

Definition admin : User.t := User.mk "admin@arbeit.com" "admin" "".

Definition outsider : User.t :=
  User.mk "hr@other.example" "client_user" "client_other".

Definition candidate : Candidate.t :=
  Candidate.mk "cand_1" "job_1" (Some "Asha Rao") (Some "asha@example.com")
    "PIPELINE" None None None None None None None None None None None None.

Definition db0 : DB :=
  mkDB [] [candidate]
       [Job.mk "job_1" "client_1" (Some "Backend Engineer")]
       [Client.mk "client_1" (Some "Acme")].

Definition uuid4_hex (n : nat) : string :=
  match n with
  | 0%nat => "0a1b2c3d4e5f60718293a4b5c6d7e8f9"
  | 1%nat => "11111111222233334444555566667777"
  | 2%nat => "22222222333344445555666677778888"
  | _ => "33333333444455556666777788889999"
  end.

Definition two_slots : list InterviewCreate.SlotDict :=
  [ InterviewCreate.mkSlot (Some "2026-01-10T10:00:00Z")
                           (Some "2026-01-10T11:00:00Z");
    InterviewCreate.mkSlot (Some "2026-01-10T14:00:00Z")
                           (Some "2026-01-10T15:00:00Z") ].

Definition request (round : Z) (slots : list InterviewCreate.SlotDict)
  : InterviewCreate.t :=
  InterviewCreate.mk "job_1" "cand_1" "Video" 60 "Asia/Kolkata" slots
                     None None round None.

Definition interview_id : string := "int_0a1b2c3d4e5f".
Definition slot_1 : string := "slot_11111111".
Definition slot_2 : string := "slot_22222222".

(** Runs a list of requests, each with its time and caller. *)
Definition run (requests : list (string * User.t * Command)) (db : DB) : DB :=
  fold_left (fun db '(now, user, c) => fst (run_command env now user c db))
            requests db.

(** The database once the interview has been proposed. *)
Definition db1 : DB :=
  run [("t1", admin, CreateInterview uuid4_hex (request 1 two_slots))] db0.

(** ... and once it has been marked completed. *)
Definition db_completed : DB :=
  run [("t2", admin, MarkInterviewCompleted interview_id)] db1.

(** A tentative booking of the first slot, then a confirmed booking of
    the second. *)
Definition db_two_claims : DB :=
  run [ ("t2", admin,
         BookInterviewSlot interview_id (CandidateSlotSelection.mk slot_1 false));
        ("t3", admin,
         BookInterviewSlot interview_id (CandidateSlotSelection.mk slot_2 true)) ]
      db1.

(** A confirmed booking of the first slot. *)
Definition db_booked : DB :=
  run [ ("t2", admin,
         BookInterviewSlot interview_id (CandidateSlotSelection.mk slot_1 true)) ]
      db1.

(** The interview is marked as a no-show twice. *)
Definition db_two_no_shows : DB :=
  run [ ("t2", admin, MarkInterviewNoShow interview_id);
        ("t3", admin, MarkInterviewNoShow interview_id) ]
      db1.

(** A second interview of the same candidate, for round 2. *)
Definition uuid4_hex_b (n : nat) : string :=
  match n with
  | 0%nat => "b0b1b2b3b4b5b6b7b8b9babbbcbdbebf"
  | 1%nat => "44444444555566667777888899990000"
  | 2%nat => "55555555666677778888999900001111"
  | _ => "66666666777788889999000011112222"
  end.

Definition interview_id_b : string := "int_b0b1b2b3b4b5".

Definition pass : MoveToNextRoundRequest.t :=
  MoveToNextRoundRequest.mk (Some "strong") (Some 4) None.

(** Rounds 1 and 2 are scheduled and completed, and round 2 is passed
    first: the candidate is at round 3. *)
Definition db_round_3 : DB :=
  run [ ("t2", admin, CreateInterview uuid4_hex_b (request 2 two_slots));
        ("t3", admin, MarkInterviewCompleted interview_id);
        ("t4", admin, MarkInterviewCompleted interview_id_b);
        ("t5", admin, MoveToNextRound interview_id_b pass) ]
      db1.

(** An invitation whose body sets [time_zone] to [null], sent while the
    interview still awaits confirmation. *)
Definition invite_without_time_zone : SendInterviewInviteRequest.t :=
  SendInterviewInviteRequest.mk None (Some "Video") (Some 30) None
    (Some false).

Definition db_null_time_zone : DB :=
  run [ ("t2", admin,
         SendInterviewInvite CalendarFailure interview_id
           (Some invite_without_time_zone)) ]
      db1.

(** The invitation request and calendar answer of the C10 example. *)
Definition invite : SendInterviewInviteRequest.t :=
  SendInterviewInviteRequest.mk (Some "https://meet.example/room-a")
    (Some "Phone") (Some 45) (Some "UTC") (Some true).

Definition calendar : CalendarResult :=
  CalendarSuccess "evt_1" "https://meet.google.com/xyz" "https://cal/evt_1".

(** A uuid generator that repeats itself after the interview id, and the
    interview it yields once its first slot is booked. *)
Definition uuid4_hex_repeating (n : nat) : string :=
  match n with
  | 0%nat => "0a1b2c3d4e5f60718293a4b5c6d7e8f9"
  | _ => "11111111222233334444555566667777"
  end.

Definition db_twin_slots : DB :=
  run [ ("t1", admin, CreateInterview uuid4_hex_repeating (request 1 two_slots));
        ("t2", admin,
         BookInterviewSlot interview_id (CandidateSlotSelection.mk slot_1 true)) ]
      db0.

(** A second tenant with a job and a candidate of its own, and a client
    user of the first tenant. *)
Definition insider : User.t :=
  User.mk "hr@acme.example" "client_user" "client_1".

Definition candidate_b : Candidate.t :=
  Candidate.mk "cand_2" "job_2" (Some "Bo Li") (Some "bo@example.com")
    "PIPELINE" None None None None None None None None None None None None.

Definition db0_two_tenants : DB :=
  mkDB [] [candidate; candidate_b]
       [ Job.mk "job_1" "client_1" (Some "Backend Engineer");
         Job.mk "job_2" "client_other" (Some "Designer") ]
       [ Client.mk "client_1" (Some "Acme");
         Client.mk "client_other" (Some "Other Co") ].

Definition request_b : InterviewCreate.t :=
  InterviewCreate.mk "job_2" "cand_2" "Phone" 30 "UTC" two_slots
                     None None 1 None.

(** The first tenant has one interview ... *)
Definition db_one_tenant : DB :=
  run [("t1", admin, CreateInterview uuid4_hex (request 1 two_slots))]
      db0_two_tenants.

(** ... and then the second tenant gets one too. *)
Definition db_two_tenants : DB :=
  run [("t2", admin, CreateInterview uuid4_hex_b request_b)] db_one_tenant.

(** Slot lists the specification rules out: none, six, and one that ends
    an hour before it starts. *)
Definition six_slots : list InterviewCreate.SlotDict :=
  two_slots ++ two_slots ++ two_slots.

Definition inverted_slot : list InterviewCreate.SlotDict :=
  [ InterviewCreate.mkSlot (Some "2026-01-10T11:00:00Z")
                           (Some "2026-01-10T10:00:00Z") ].

End Scenario.

(** * Properties *)

(** ** Collections *)

Section Collections.

Context {A : Type}.
Variable query : A -> bool.
Variable update : A -> A.

Lemma update_one_length (coll : list A) :
  List.length (update_one query update coll) = List.length coll.
Proof.
  induction coll as [|d rest IH]; simpl; [reflexivity|].
  destruct (query d); simpl; congruence.
Qed.

Lemma update_one_no_match (coll : list A) :
  find query coll = None -> update_one query update coll = coll.
Proof.
  induction coll as [|d rest IH]; simpl; [reflexivity|].
  destruct (query d); [discriminate|].
  intros H. now rewrite IH.
Qed.

(** The document [update_one] rewrites is the one [find_one] returns. *)
Lemma update_one_split (coll : list A) (d : A) :
  find query coll = Some d ->
  exists before after,
    coll = (before ++ d :: after)%list
    /\ update_one query update coll = (before ++ update d :: after)%list
    /\ find query before = None.
Proof.
  induction coll as [|x rest IH]; simpl; [discriminate|].
  destruct (query x) eqn:Q.
  - intros [= ->]. exists [], rest. repeat split.
  - intros H. destruct (IH H) as (b & a & -> & E & N).
    exists (x :: b), a. simpl. rewrite Q, E. repeat split. exact N.
Qed.

Lemma update_one_Forall (P : A -> Prop) (coll : list A) :
  Forall P coll ->
  (forall d, find query coll = Some d -> P (update d)) ->
  Forall P (update_one query update coll).
Proof.
  induction coll as [|x rest IH]; simpl; intros HF HU; [constructor|].
  inversion HF as [|? ? Px Prest]; subst.
  destruct (query x) eqn:Q.
  - constructor; [apply HU; reflexivity | exact Prest].
  - constructor; [exact Px | apply IH; assumption].
Qed.

Lemma update_one_nth (coll : list A) (k : nat) (d d' : A) :
  nth_error coll k = Some d ->
  nth_error (update_one query update coll) k = Some d' ->
  d' = d \/ (find query coll = Some d /\ d' = update d).
Proof.
  revert k. induction coll as [|x rest IH]; intros k; simpl.
  - destruct k; discriminate.
  - destruct (query x) eqn:Q.
    + destruct k; simpl.
      * intros [= ->] [= <-]. right. split; reflexivity.
      * intros H1 H2. left. congruence.
    + destruct k; simpl.
      * intros [= ->] [= <-]. left. reflexivity.
      * intros H1 H2. destruct (IH _ H1 H2) as [E | [F E]]; auto.
Qed.

Lemma find_update_one (coll : list A) (d : A) :
  (forall x, query (update x) = query x) ->
  find query coll = Some d ->
  find query (update_one query update coll) = Some (update d).
Proof.
  intros Hq. induction coll as [|x rest IH]; simpl; [discriminate|].
  destruct (query x) eqn:Q.
  - intros [= ->]. simpl. now rewrite Hq, Q.
  - intros H. simpl. rewrite Q. auto.
Qed.

Lemma map_update_one {B : Type} (f : A -> B) (coll : list A) :
  (forall x, f (update x) = f x) ->
  map f (update_one query update coll) = map f coll.
Proof.
  intros Hf. induction coll as [|x rest IH]; simpl; [reflexivity|].
  destruct (query x); simpl; congruence.
Qed.

End Collections.

Lemma find_some_In {A : Type} (q : A -> bool) (l : list A) (d : A) :
  find q l = Some d -> In d l /\ q d = true.
Proof. apply find_some. Qed.

(** ** Field writes *)

Lemma status_is_true (o : option InterviewStatus) (s : InterviewStatus) :
  status_is o s = true <-> o = Some s.
Proof.
  destruct o as [x|]; simpl; [|split; discriminate].
  destruct x, s; simpl; split; intros H; try discriminate;
    try reflexivity; inversion H.
Qed.

Lemma status_is_false (o : option InterviewStatus) (s : InterviewStatus) :
  status_is o s = false <-> o <> Some s.
Proof.
  rewrite <- status_is_true. destruct (status_is o s); split; congruence.
Qed.

Lemma opt_status_eqb_eq (a b : option InterviewStatus) :
  opt_status_eqb a b = true <-> a = b.
Proof.
  destruct a as [x|], b as [y|]; simpl; try (split; congruence).
  change (status_is (Some x) y = true <-> Some x = Some y).
  rewrite status_is_true. reflexivity.
Qed.

Lemma by_interview_id_set (ws : list (Interview.t -> Interview.t)) id :
  Forall (fun w => forall d, Interview.interview_id (w d) = Interview.interview_id d) ws ->
  forall d, by_interview_id id (apply_set ws d) = by_interview_id id d.
Proof.
  unfold by_interview_id, apply_set.
  induction ws as [|w ws IH]; simpl; intros HF d; [reflexivity|].
  inversion HF; subst. rewrite IH by assumption. now f_equal.
Qed.

(** ** Running a handler symbolically *)

(** The scrutinee on which the evaluation of a handler is blocked. *)
Ltac stuck t :=
  lazymatch t with
  | match ?x with _ => _ end => stuck x
  | fst ?y => stuck y
  | snd ?y => stuck y
  | ?f ?a =>
      lazymatch f with
      | match _ with _ => _ end => stuck f
      | _ => t
      end
  | _ => t
  end.

Ltac unfold_handler_in H :=
  cbv beta iota zeta delta
    [run_command ignore create_interview update_interview book_interview_slot
     public_book_slot send_interview_invite mark_interview_completed
     mark_interview_no_show cancel_interview move_to_next_round
     reject_after_interview initiate_hiring get_interview
     require_found tenant_check raise_if
     db_interviews_find_one db_interviews_update_one db_interviews_insert_one
     db_candidates_find_one db_candidates_update_one db_jobs_find_one
     db_clients_find_one bind require raise ret fst snd negb] in H;
  cbn [interviews candidates jobs clients set_interviews set_candidates] in H.

(** Runs the handler on the left of [H : handler ... db = out], one case
    per path through its guards. *)
Ltac exec_in H :=
  repeat (unfold_handler_in H;
          lazymatch type of H with
          | ?lhs = _ =>
              let s := stuck lhs in
              lazymatch s with
              | (_, _) => fail
              | _ => destruct s eqn:?
              end
          end).

Ltac keeps_id := cbn [app]; repeat constructor; intros ?; reflexivity.

Lemma find_after_set (ws : list (Interview.t -> Interview.t)) id coll d :
  Forall keeps_id ws ->
  find (by_interview_id id) coll = Some d ->
  find (by_interview_id id) (update_one (by_interview_id id) ($set ws) coll)
  = Some ($set ws d).
Proof.
  intros Hws Hd. apply find_update_one; [|exact Hd].
  intros x. apply by_interview_id_set. exact Hws.
Qed.

Lemma update_dict_keeps_id data now : Forall keeps_id (update_dict data now).
Proof.
  unfold update_dict.
  destruct data as [[m|] [l|] [a|] [s|] [f|] [r|]]; simpl; keeps_id.
Qed.

(** ** Booking a slot *)


(** What [book_interview_slot] does on each path. *)
Lemma book_interview_slot_run now id sel u db :
  book_interview_slot now id sel u db =
  match find (by_interview_id id) (interviews db) with
  | None => (db, Raise (mkHTTP 404 "Interview not found"))
  | Some interview =>
      if status_is (Interview.interview_status interview)
                   AwaitingCandidateConfirmation
      then
        match find_slot (CandidateSlotSelection.slot_id sel)
                        (Interview.proposed_slots interview) with
        | None => (db, Raise (mkHTTP 404 "Slot not found"))
        | Some slot =>
            if Slot.is_available slot then
              let ws :=
                [ Interview.set_selected_slot_id
                    (Some (CandidateSlotSelection.slot_id sel));
                  Interview.set_scheduled_start_time (Slot.start_time slot);
                  Interview.set_scheduled_end_time (Slot.end_time slot);
                  Interview.set_interview_status
                    (Some (if CandidateSlotSelection.confirmed sel
                           then Confirmed
                           else AwaitingCandidateConfirmation));
                  Interview.set_candidate_confirmation_timestamp
                    (if CandidateSlotSelection.confirmed sel
                     then Some now else None);
                  Interview.set_updated_at now;
                  Interview.set_proposed_slots
                    (mark_unavailable (CandidateSlotSelection.slot_id sel)
                       (Interview.proposed_slots interview)) ] in
              (set_interviews
                 (update_one (by_interview_id id) ($set ws) (interviews db)) db,
               if tenant_denied u (Interview.client_id interview)
               then Raise (mkHTTP 403 "Access denied")
               else
                 match interview_response ($set ws interview)
                         (find (by_candidate_id (Interview.candidate_id interview))
                               (candidates db))
                         (find (by_job_id (Interview.job_id interview)) (jobs db))
                         (find (by_client_id (Interview.client_id interview))
                               (clients db)) with
                 | Some response => Return response
                 | None => Raise internal_server_error
                 end)
            else (db, Raise (mkHTTP 400 "Slot is no longer available"))
        end
      else (db, Raise (not_awaiting_confirmation interview))
  end.
Proof.
  destruct (book_interview_slot now id sel u db) as [db' r] eqn:H.
  exec_in H; try (rewrite <- H; reflexivity).
  all: match goal with
       | F : find _ (update_one _ ($set ?ws) _) = _,
         G : find _ (interviews _) = Some ?i |- _ =>
           rewrite (find_after_set ws id _ i) in F by (keeps_id || exact G);
           inversion F; subst; clear F
       end.
  all: cbn [apply_set fold_left Interview.client_id Interview.candidate_id
            Interview.job_id Interview.set_proposed_slots
            Interview.set_updated_at Interview.set_candidate_confirmation_timestamp
            Interview.set_interview_status Interview.set_scheduled_end_time
            Interview.set_scheduled_start_time Interview.set_selected_slot_id]
         in *.
  all: try match goal with
       | D : tenant_denied _ _ = _ |- _ => rewrite D
       end.
  all: try match goal with
       | D : interview_response _ _ _ _ = _ |- _ => rewrite D
       end.
  all: rewrite <- H; reflexivity.
Qed.

(** What [public_book_slot] does on each path. *)
Lemma public_book_slot_run env now id slot_id token db :
  public_book_slot env now id slot_id token db =
  if verify_booking_token env id token then
    match find (by_interview_id id) (interviews db) with
    | None => (db, Raise (mkHTTP 404 "Interview not found"))
    | Some interview =>
        if status_is (Interview.interview_status interview)
                     AwaitingCandidateConfirmation
        then
          match find_slot slot_id (Interview.proposed_slots interview) with
          | None => (db, Raise (mkHTTP 404 "Slot not found"))
          | Some slot =>
              if Slot.is_available slot then
                (set_interviews
                   (update_one (by_interview_id id)
                      ($set [ Interview.set_selected_slot_id (Some slot_id);
                              Interview.set_scheduled_start_time
                                (Slot.start_time slot);
                              Interview.set_scheduled_end_time
                                (Slot.end_time slot);
                              Interview.set_interview_status (Some Confirmed);
                              Interview.set_candidate_confirmation_timestamp
                                (Some now);
                              Interview.set_updated_at now;
                              Interview.set_proposed_slots
                                (mark_unavailable slot_id
                                   (Interview.proposed_slots interview)) ])
                      (interviews db)) db,
                 Return tt)
              else (db, Raise (mkHTTP 400 "Slot is no longer available"))
          end
        else (db, Raise (not_awaiting_confirmation interview))
    end
  else (db, Raise (mkHTTP 403 "Invalid or expired booking link")).
Proof.
  destruct (public_book_slot env now id slot_id token db) as [db' r] eqn:H.
  unfold public_book_slot in H.
  exec_in H; rewrite <- H; reflexivity.
Qed.


Lemma interview_response_fields interview candidate job client response :
  interview_response interview candidate job client = Some response ->
  InterviewResponse.proposed_slots response
  = Interview.proposed_slots interview
  /\ InterviewResponse.selected_slot_id response
     = Interview.selected_slot_id interview
  /\ InterviewResponse.scheduled_start_time response
     = Interview.scheduled_start_time interview
  /\ InterviewResponse.scheduled_end_time response
     = Interview.scheduled_end_time interview
  /\ Some (InterviewResponse.interview_status response)
     = option_map status_string (Interview.interview_status interview).
Proof.
  unfold interview_response.
  destruct (Interview.interview_mode interview); [|discriminate].
  destruct (Interview.time_zone interview); [|discriminate].
  destruct (Interview.interview_status interview); [|discriminate].
  intros [= <-]. repeat split.
Qed.




(** A client user of another tenant gets the booking written and then the
    403 of the response step, which is where the handler first compares
    tenants. *)
Lemma book_interview_slot_foreign_tenant :
  let sel := CandidateSlotSelection.mk Scenario.slot_1 true in
  let out := book_interview_slot "t2" Scenario.interview_id sel
               Scenario.outsider Scenario.db1 in
  snd out = Raise (mkHTTP 403 "Access denied")
  /\ map (fun i => map Slot.is_available (Interview.proposed_slots i))
         (interviews (fst out)) = [[false; true]].
Proof. vm_compute. split; reflexivity. Qed.

(** Once an invitation has nulled [time_zone], the booking is written and
    the response step dies on the missing string. *)
Lemma book_interview_slot_null_time_zone :
  let sel := CandidateSlotSelection.mk Scenario.slot_1 true in
  let out := book_interview_slot "t3" Scenario.interview_id sel
               Scenario.admin Scenario.db_null_time_zone in
  map (fun i => (Interview.interview_status i, Interview.time_zone i))
      (interviews Scenario.db_null_time_zone)
  = [(Some AwaitingCandidateConfirmation, None)]
  /\ snd out = Raise internal_server_error
  /\ map (fun i => (Interview.interview_status i,
                    map Slot.is_available (Interview.proposed_slots i)))
         (interviews (fst out)) = [(Some Confirmed, [false; true])].
Proof. vm_compute. repeat split; reflexivity. Qed.

(** C9.  A booking that fails for one of the listed reasons (unknown
    interview, interview not awaiting confirmation, slot not found, slot
    already claimed) is answered 404 or 400 and leaves the database as it
    was, whoever calls; conversely every 404 and every 400 of
    [book_interview_slot] leaves the database as it was.  The same holds
    of [public_book_slot], none of whose raises follows a write.  In
    particular no field of the stored interview changes. *)
Theorem failed_booking_writes_nothing :
  (forall now id sel u db,
      listed_failure id (CandidateSlotSelection.slot_id sel) db ->
      exists e,
        book_interview_slot now id sel u db = (db, Raise e)
        /\ (status_code e = 404 \/ status_code e = 400))
  /\ (forall now id sel u db e,
        snd (book_interview_slot now id sel u db) = Raise e ->
        status_code e = 404 \/ status_code e = 400 ->
        fst (book_interview_slot now id sel u db) = db)
  /\ (forall env now id slot_id token db,
        listed_failure id slot_id db ->
        exists e, public_book_slot env now id slot_id token db = (db, Raise e))
  /\ (forall env now id slot_id token db e,
        snd (public_book_slot env now id slot_id token db) = Raise e ->
        fst (public_book_slot env now id slot_id token db) = db).
Proof.
  split; [|split; [|split]].
  - intros now id sel u db. unfold listed_failure.
    rewrite book_interview_slot_run.
    destruct (find (by_interview_id id) (interviews db)) as [i|] eqn:F.
    + destruct (status_is (Interview.interview_status i)
                          AwaitingCandidateConfirmation) eqn:St.
      * apply status_is_true in St. intros [Hne|Hslot]; [contradiction|].
        destruct (find_slot _ _) as [slot|].
        -- rewrite Hslot. eexists. split; [reflexivity|right; reflexivity].
        -- eexists. split; [reflexivity|left; reflexivity].
      * intros _. eexists. split; [reflexivity|right; reflexivity].
    + intros _. eexists. split; [reflexivity|left; reflexivity].
  - intros now id sel u db e.
    rewrite book_interview_slot_run.
    destruct (find (by_interview_id id) (interviews db)) as [i|] eqn:F;
      [|reflexivity].
    destruct (status_is _ _); [|reflexivity].
    destruct (find_slot _ _) as [slot|]; [|reflexivity].
    destruct (Slot.is_available slot); [|reflexivity].
    cbn [snd fst].
    destruct (tenant_denied u (Interview.client_id i)).
    + intros [= <-]. cbn. intros [?|?]; discriminate.
    + destruct (interview_response _ _ _ _); [discriminate|].
      intros [= <-]. cbn. intros [?|?]; discriminate.
  - intros env now id slot_id token db. unfold listed_failure.
    rewrite public_book_slot_run.
    destruct (verify_booking_token env id token);
      [|intros _; eexists; reflexivity].
    destruct (find (by_interview_id id) (interviews db)) as [i|] eqn:F;
      [|intros _; eexists; reflexivity].
    destruct (status_is (Interview.interview_status i)
                        AwaitingCandidateConfirmation) eqn:St;
      [|intros _; eexists; reflexivity].
    apply status_is_true in St. intros [Hne|Hslot]; [contradiction|].
    destruct (find_slot _ _) as [slot|]; [|eexists; reflexivity].
    rewrite Hslot. eexists. reflexivity.
  - intros env now id slot_id token db e.
    rewrite public_book_slot_run.
    destruct (verify_booking_token env id token); [|reflexivity].
    destruct (find (by_interview_id id) (interviews db)) as [i|];
      [|reflexivity].
    destruct (status_is _ _); [|reflexivity].
    destruct (find_slot _ _) as [slot|]; [|reflexivity].
    destruct (Slot.is_available slot); [|reflexivity].
    cbn [snd]. discriminate.
Qed.

Lemma failed_booking_writes_nothing_witness :
  (exists e,
     book_interview_slot "t3" Scenario.interview_id
       (CandidateSlotSelection.mk Scenario.slot_1 true)
       Scenario.outsider Scenario.db_booked = (Scenario.db_booked, Raise e)
     /\ (status_code e = 404 \/ status_code e = 400))
  /\ fst (book_interview_slot "t2" Scenario.interview_id
            (CandidateSlotSelection.mk "slot_invalid" true)
            Scenario.admin Scenario.db1) = Scenario.db1
  /\ (exists e,
        public_book_slot Scenario.env "t3" Scenario.interview_id
          Scenario.slot_1
          (generate_booking_token Scenario.env Scenario.interview_id)
          Scenario.db_booked = (Scenario.db_booked, Raise e))
  /\ fst (public_book_slot Scenario.env "t2" Scenario.interview_id
            Scenario.slot_1 "not-the-token" Scenario.db1) = Scenario.db1.
Proof.
  destruct failed_booking_writes_nothing
    as (Hlisted & Hbook & Hplisted & Hpublic).
  split; [|split; [|split]].
  - apply Hlisted. vm_compute. left. discriminate.
  - eapply Hbook.
    + vm_compute. reflexivity.
    + vm_compute. left. reflexivity.
  - apply Hplisted. vm_compute. left. discriminate.
  - eapply Hpublic. vm_compute. reflexivity.
Defined.

(** ** Pipeline statistics *)

Lemma opt_status_eqb_refl k : opt_status_eqb k k = true.
Proof. now apply opt_status_eqb_eq. Qed.

Lemma opt_status_eqb_trans_l k k' key :
  opt_status_eqb k k' = true -> opt_status_eqb k key = opt_status_eqb k' key.
Proof. intros H. apply opt_status_eqb_eq in H. now subst. Qed.

Lemma group_add_lookup key k groups :
  group_lookup key (group_add k groups)
  = group_lookup key groups + (if opt_status_eqb k key then 1 else 0).
Proof.
  unfold group_lookup.
  induction groups as [|[k0 n] rest IH]; simpl.
  - destruct (opt_status_eqb k key); reflexivity.
  - destruct (opt_status_eqb k0 k) eqn:E; simpl.
    + rewrite <- (opt_status_eqb_trans_l _ _ key E).
      destruct (opt_status_eqb k0 key); simpl; lia.
    + destruct (opt_status_eqb k0 key) eqn:E'; simpl.
      * assert (opt_status_eqb k key = false) as ->.
        { apply opt_status_eqb_eq in E'. subst.
          destruct (opt_status_eqb k key) eqn:E2; [|reflexivity].
          apply opt_status_eqb_eq in E2. subst.
          now rewrite opt_status_eqb_refl in E. }
        lia.
      * exact IH.
Qed.

Lemma group_add_total k groups :
  group_total (group_add k groups) = group_total groups + 1.
Proof.
  induction groups as [|[k0 n] rest IH]; simpl; [lia|].
  destruct (opt_status_eqb k0 k); simpl; lia.
Qed.

Lemma group_add_keys k groups x :
  In x (map fst (group_add k groups)) -> x = k \/ In x (map fst groups).
Proof.
  induction groups as [|[k0 n] rest IH]; simpl.
  - intros [<-|[]]. now left.
  - destruct (opt_status_eqb k0 k); simpl; intros [<-|H]; auto.
    destruct (IH H); auto.
Qed.

Lemma group_add_NoDup k groups :
  NoDup (map fst groups) -> NoDup (map fst (group_add k groups)).
Proof.
  induction groups as [|[k0 n] rest IH]; simpl; intros ND.
  - constructor; [intros []|constructor].
  - inversion ND as [|? ? Hnotin ND']; subst.
    destruct (opt_status_eqb k0 k) eqn:E; simpl.
    + constructor; assumption.
    + constructor; [|auto].
      intros Hin. apply group_add_keys in Hin as [->|Hin]; [|contradiction].
      now rewrite opt_status_eqb_refl in E.
Qed.

Lemma group_fold key docs : forall groups,
  let groups' :=
    fold_left (fun gs d => group_add (Interview.interview_status d) gs)
              docs groups in
  group_lookup key groups' = group_lookup key groups + count_status key docs
  /\ group_total groups' = group_total groups + Z.of_nat (List.length docs)
  /\ (NoDup (map fst groups) -> NoDup (map fst groups')).
Proof.
  unfold count_status.
  induction docs as [|d docs IH]; intros groups; cbn zeta.
  - simpl. repeat split; try lia. auto.
  - cbn [fold_left].
    destruct (IH (group_add (Interview.interview_status d) groups))
      as (L & T & N).
    cbn zeta in L, T, N.
    rewrite L, T, group_add_lookup, group_add_total. repeat split.
    + cbn [filter].
      destruct (opt_status_eqb (Interview.interview_status d) key);
        cbn [List.length]; lia.
    + cbn [List.length]. lia.
    + intros ND. apply N, group_add_NoDup, ND.
Qed.

Lemma status_keys_complete (k : option InterviewStatus) :
  In k all_status_keys.
Proof. destruct k as [[]|]; simpl; tauto. Qed.

Lemma group_by_status_short docs :
  (List.length (group_by_status docs) <= 100)%nat.
Proof.
  unfold group_by_status.
  destruct (group_fold None docs []) as (_ & _ & ND).
  specialize (ND (NoDup_nil _)). cbn zeta in ND.
  rewrite <- (length_map fst).
  transitivity (List.length all_status_keys); [|simpl; lia].
  apply NoDup_incl_length; [exact ND|].
  intros k _. apply status_keys_complete.
Qed.

Lemma count_items_bucket get key :
  bucket_of get key ->
  forall groups s,
    NoDup (map fst groups) ->
    get (fold_left count_item groups s)
    = if existsb (fun g => opt_status_eqb (fst g) key) groups
      then group_lookup key groups
      else get s.
Proof.
  intros Hb. unfold group_lookup.
  induction groups as [|g rest IH]; intros s ND; simpl; [reflexivity|].
  inversion ND as [|? ? Hnotin ND']; subst.
  rewrite (IH _ ND'), Hb.
  destruct (opt_status_eqb (fst g) key) eqn:E; simpl; [|reflexivity].
  assert (existsb (fun g0 => opt_status_eqb (fst g0) key) rest = false) as ->;
    [|reflexivity].
  destruct (existsb _ rest) eqn:Ex; [|reflexivity].
  apply existsb_exists in Ex as (g' & Hin & E').
  exfalso. apply Hnotin.
  apply opt_status_eqb_eq in E, E'. rewrite E, <- E'.
  now apply in_map.
Qed.

Lemma count_items_total groups : forall s,
  InterviewPipelineStats.total_interviews (fold_left count_item groups s)
  = InterviewPipelineStats.total_interviews s + group_total groups.
Proof.
  induction groups as [|g rest IH]; intros s; simpl; [lia|].
  rewrite IH. destruct g as [[[]|] n]; cbn; lia.
Qed.

Lemma existsb_false_find {A : Type} (p : A -> bool) (l : list A) :
  existsb p l = false -> find p l = None.
Proof.
  induction l as [|x l IH]; simpl; [reflexivity|].
  destruct (p x); simpl; [discriminate|exact IH].
Qed.

Lemma count_status_partition docs :
  Z.of_nat (List.length docs)
  = count_status (Some AwaitingCandidateConfirmation) docs
    + count_status (Some Confirmed) docs
    + count_status (Some Scheduled) docs
    + count_status (Some Completed) docs
    + count_status (Some NoShow) docs
    + count_status (Some Cancelled) docs
    + (count_status (Some Draft) docs + count_status (Some Passed) docs
       + count_status (Some Failed) docs + count_status None docs).
Proof.
  unfold count_status.
  induction docs as [|d docs IH]; [reflexivity|].
  cbn [filter List.length].
  destruct (Interview.interview_status d) as [[]|]; cbn [opt_status_eqb
    InterviewStatus_beq List.length]; lia.
Qed.

Lemma count_status_nonneg key docs : 0 <= count_status key docs.
Proof. unfold count_status. lia. Qed.

Lemma pipeline_bucket get key docs :
  bucket_of get key ->
  get (InterviewPipelineStats.mk 0 0 0 0 0 0 0) = 0 ->
  get (fold_left count_item (firstn 100 (group_by_status docs))
                 (InterviewPipelineStats.mk 0 0 0 0 0 0 0))
  = count_status key docs.
Proof.
  intros Hb H0.
  rewrite firstn_all2 by apply group_by_status_short.
  destruct (group_fold key docs []) as (L & _ & ND).
  cbn zeta in L, ND. fold (group_by_status docs) in L, ND.
  rewrite (count_items_bucket get key Hb) by (apply ND; constructor).
  destruct (existsb _ _) eqn:Ex.
  - rewrite L. reflexivity.
  - rewrite H0. unfold group_lookup in L.
    rewrite (existsb_false_find _ _ Ex) in L. simpl in L. lia.
Qed.

(** The [$match] stage keeps the interviews the request is about. *)
Lemma match_query_in_scope client_id u docs :
  match_query (pipeline_query client_id u) docs
  = filter (in_scope client_id u) docs.
Proof.
  unfold pipeline_query, in_scope.
  destruct (User.role u =? "client_user"); [reflexivity|].
  destruct client_id as [c|]; cbn [truthy_str].
  - destruct (c =? ""); cbn [negb orb match_query].
    + induction docs as [|d docs IH]; [reflexivity|].
      cbn [filter]. f_equal. exact IH.
    + reflexivity.
  - cbn [match_query].
    induction docs as [|d docs IH]; [reflexivity|].
    cbn [filter]. f_equal. exact IH.
Qed.

(** C8.  [get_interview_pipeline_stats] always returns.  With [docs] the
    stored interviews the request is about (those of the caller's tenant
    for a client user, else those of the client named, else all), its
    total is the number of [docs]; each of the six named buckets is the
    number of [docs] holding that status; interviews in any other status
    ([Draft], [Passed], [Failed], or none) are in the total and in no
    bucket, so the total is at least the sum of the buckets. *)
Theorem pipeline_stats_total_covers_buckets db client_id u :
  let docs := filter (in_scope client_id u) (interviews db) in
  exists stats,
    get_interview_pipeline_stats client_id u db = (db, Return stats)
    /\ InterviewPipelineStats.total_interviews stats
       = Z.of_nat (List.length docs)
    /\ InterviewPipelineStats.awaiting_confirmation stats
       = count_status (Some AwaitingCandidateConfirmation) docs
    /\ InterviewPipelineStats.confirmed stats
       = count_status (Some Confirmed) docs
    /\ InterviewPipelineStats.scheduled stats
       = count_status (Some Scheduled) docs
    /\ InterviewPipelineStats.completed stats
       = count_status (Some Completed) docs
    /\ InterviewPipelineStats.no_shows stats = count_status (Some NoShow) docs
    /\ InterviewPipelineStats.cancelled stats
       = count_status (Some Cancelled) docs
    /\ InterviewPipelineStats.total_interviews stats
       = InterviewPipelineStats.awaiting_confirmation stats
         + InterviewPipelineStats.confirmed stats
         + InterviewPipelineStats.scheduled stats
         + InterviewPipelineStats.completed stats
         + InterviewPipelineStats.no_shows stats
         + InterviewPipelineStats.cancelled stats
         + (count_status (Some Draft) docs + count_status (Some Passed) docs
            + count_status (Some Failed) docs + count_status None docs)
    /\ InterviewPipelineStats.total_interviews stats
       >= InterviewPipelineStats.awaiting_confirmation stats
          + InterviewPipelineStats.confirmed stats
          + InterviewPipelineStats.scheduled stats
          + InterviewPipelineStats.completed stats
          + InterviewPipelineStats.no_shows stats
          + InterviewPipelineStats.cancelled stats.
Proof.
  intros docs. unfold get_interview_pipeline_stats.
  rewrite match_query_in_scope. fold docs.
  eexists. split; [reflexivity|].
  assert (T : InterviewPipelineStats.total_interviews
                (fold_left count_item (firstn 100 (group_by_status docs))
                   (InterviewPipelineStats.mk 0 0 0 0 0 0 0))
              = Z.of_nat (List.length docs)).
  { rewrite firstn_all2 by apply group_by_status_short.
    rewrite count_items_total.
    destruct (group_fold None docs []) as (_ & Tot & _).
    cbn zeta in Tot. fold (group_by_status docs) in Tot.
    rewrite Tot. simpl. reflexivity. }
  assert (B : forall get key,
             bucket_of get key ->
             get (InterviewPipelineStats.mk 0 0 0 0 0 0 0) = 0 ->
             get (fold_left count_item (firstn 100 (group_by_status docs))
                    (InterviewPipelineStats.mk 0 0 0 0 0 0 0))
             = count_status key docs)
    by (intros; now apply pipeline_bucket).
  rewrite T.
  rewrite (B InterviewPipelineStats.awaiting_confirmation
             (Some AwaitingCandidateConfirmation))
    by (try reflexivity; intros s [[[]|] n]; reflexivity).
  rewrite (B InterviewPipelineStats.confirmed (Some Confirmed))
    by (try reflexivity; intros s [[[]|] n]; reflexivity).
  rewrite (B InterviewPipelineStats.scheduled (Some Scheduled))
    by (try reflexivity; intros s [[[]|] n]; reflexivity).
  rewrite (B InterviewPipelineStats.completed (Some Completed))
    by (try reflexivity; intros s [[[]|] n]; reflexivity).
  rewrite (B InterviewPipelineStats.no_shows (Some NoShow))
    by (try reflexivity; intros s [[[]|] n]; reflexivity).
  rewrite (B InterviewPipelineStats.cancelled (Some Cancelled))
    by (try reflexivity; intros s [[[]|] n]; reflexivity).
  pose proof (count_status_partition docs) as P.
  pose proof (count_status_nonneg (Some Draft) docs).
  pose proof (count_status_nonneg (Some Passed) docs).
  pose proof (count_status_nonneg (Some Failed) docs).
  pose proof (count_status_nonneg None docs).
  repeat split; try reflexivity; lia.
Qed.

Lemma pipeline_stats_total_covers_buckets_witness :
  map Interview.interview_status (interviews Scenario.db_round_3)
  = [Some Completed; Some Passed]
  /\ exists stats,
       get_interview_pipeline_stats None Scenario.admin Scenario.db_round_3
       = (Scenario.db_round_3, Return stats)
       /\ InterviewPipelineStats.total_interviews stats = 2
       /\ InterviewPipelineStats.completed stats = 1
       /\ InterviewPipelineStats.awaiting_confirmation stats
          + InterviewPipelineStats.confirmed stats
          + InterviewPipelineStats.scheduled stats
          + InterviewPipelineStats.completed stats
          + InterviewPipelineStats.no_shows stats
          + InterviewPipelineStats.cancelled stats = 1.
Proof.
  split; [vm_compute; reflexivity|].
  destruct (pipeline_stats_total_covers_buckets Scenario.db_round_3 None
              Scenario.admin)
    as (stats & R & T & A & C & S & K & N & X & _).
  exists stats. split; [exact R|].
  rewrite T, A, C, S, K, N, X. vm_compute. repeat split; reflexivity.
Defined.

(** ** mark_interview_completed *)

Lemma mark_interview_completed_run now id u db :
  mark_interview_completed now id u db =
  match find (by_interview_id id) (interviews db) with
  | None => (db, Raise (mkHTTP 404 "Interview not found"))
  | Some interview =>
      if tenant_denied u (Interview.client_id interview)
      then (db, Raise (mkHTTP 403 "Access denied"))
      else (set_interviews
              (update_one (by_interview_id id)
                 ($set [ Interview.set_interview_status (Some Completed);
                         Interview.set_updated_at now ])
                 (interviews db)) db,
            Return tt)
  end.
Proof.
  destruct (mark_interview_completed now id u db) as [db' r] eqn:H.
  exec_in H; rewrite <- H; reflexivity.
Qed.

Lemma match_query_statuses query : forall l l',
  map stats_key l = map stats_key l' ->
  map Interview.interview_status (match_query query l)
  = map Interview.interview_status (match_query query l').
Proof.
  destruct query as [c|]; simpl.
  - induction l as [|d l IH]; intros [|d' l']; simpl; try discriminate;
      [reflexivity|].
    intros [= Hc Hs Hrest].
    rewrite Hc. destruct (Interview.client_id d' =? c); simpl;
      rewrite ?Hs; [f_equal|]; auto.
  - induction l as [|d l IH]; intros [|d' l']; simpl; try discriminate;
      [reflexivity|].
    intros [= _ Hs Hrest]. rewrite Hs. f_equal. auto.
Qed.

Lemma group_by_status_statuses l l' :
  map Interview.interview_status l = map Interview.interview_status l' ->
  group_by_status l = group_by_status l'.
Proof.
  unfold group_by_status. generalize (@nil (option InterviewStatus * Z)).
  revert l'. induction l as [|d l IH]; intros [|d' l']; simpl;
    try discriminate; [reflexivity|].
  intros acc [= Hs Hrest]. rewrite Hs. apply IH, Hrest.
Qed.

(** The statistics read nothing but the tenant and the status of each
    interview. *)
Lemma pipeline_stats_ext db db' client_id u :
  map stats_key (interviews db) = map stats_key (interviews db') ->
  snd (get_interview_pipeline_stats client_id u db)
  = snd (get_interview_pipeline_stats client_id u db').
Proof.
  intros H. unfold get_interview_pipeline_stats. cbn [snd].
  do 3 f_equal.
  apply group_by_status_statuses, match_query_statuses, H.
Qed.

(** C7, the claim as stated fails: the second call on a [Completed]
    interview is not a no-op, it stamps [updated_at] again. *)
Lemma second_mark_completed_restamps_updated_at :
  let out := mark_interview_completed "t3" Scenario.interview_id
               Scenario.admin Scenario.db_completed in
  map (fun i => (Interview.interview_status i, Interview.updated_at i))
      (interviews Scenario.db_completed) = [(Some Completed, "t2")]
  /\ snd out = Return tt
  /\ map (fun i => (Interview.interview_status i, Interview.updated_at i))
         (interviews (fst out)) = [(Some Completed, "t3")]
  /\ fst out <> Scenario.db_completed.
Proof.
  cbn zeta. split; [|split; [|split]]; try (vm_compute; reflexivity).
  intros H.
  apply (f_equal (fun db => map Interview.updated_at (interviews db))) in H.
  vm_compute in H. discriminate H.
Qed.

(** C7, as the handler has it.  On an interview that is already
    [Completed], a caller who passes the tenant check gets a normal
    return from [mark_interview_completed]; the stored interview keeps
    the status [Completed] and every other field except [updated_at],
    which is stamped with the time of the call; no interview changes
    status, and the pipeline statistics (total, completed and every other
    bucket) are the same before and after, for every query. *)
Theorem mark_completed_twice_is_idempotent now id u db interview :
  find (by_interview_id id) (interviews db) = Some interview ->
  tenant_denied u (Interview.client_id interview) = false ->
  Interview.interview_status interview = Some Completed ->
  let out := mark_interview_completed now id u db in
  snd out = Return tt
  /\ find (by_interview_id id) (interviews (fst out))
     = Some (Interview.set_updated_at now interview)
  /\ Interview.interview_status (Interview.set_updated_at now interview)
     = Some Completed
  /\ map Interview.interview_status (interviews (fst out))
     = map Interview.interview_status (interviews db)
  /\ forall client_id user,
       snd (get_interview_pipeline_stats client_id user (fst out))
       = snd (get_interview_pipeline_stats client_id user db).
Proof.
  intros Hfind Hten Hst out. subst out.
  rewrite mark_interview_completed_run, Hfind, Hten. cbn [fst snd].
  set (ws := [Interview.set_interview_status (Some Completed);
              Interview.set_updated_at now]).
  assert (E : $set ws interview = Interview.set_updated_at now interview).
  { subst ws. destruct interview; simpl in *. subst. reflexivity. }
  assert (K : map stats_key
                (update_one (by_interview_id id) ($set ws) (interviews db))
              = map stats_key (interviews db)).
  { destruct (update_one_split (by_interview_id id) ($set ws) _ _ Hfind)
      as (before & after & Hl & Hu & _).
    rewrite Hu, Hl, !map_app. cbn [map]. do 2 f_equal.
    rewrite E. unfold stats_key. reflexivity. }
  split; [reflexivity|]. split; [|split; [exact Hst|split]].
  - cbn [interviews set_interviews]. rewrite <- E.
    apply find_after_set; [subst ws; keeps_id|exact Hfind].
  - cbn [interviews set_interviews].
    apply (f_equal (map snd)) in K. rewrite !map_map in K. exact K.
  - intros client_id user. apply pipeline_stats_ext. exact K.
Qed.

Lemma mark_completed_twice_is_idempotent_witness :
  exists interview,
    find (by_interview_id Scenario.interview_id)
         (interviews Scenario.db_completed) = Some interview
    /\ Interview.interview_status interview = Some Completed
    /\ snd (mark_interview_completed "t3" Scenario.interview_id Scenario.admin
              Scenario.db_completed) = Return tt
    /\ forall client_id user,
         snd (get_interview_pipeline_stats client_id user
                (fst (mark_interview_completed "t3" Scenario.interview_id
                        Scenario.admin Scenario.db_completed)))
         = snd (get_interview_pipeline_stats client_id user
                  Scenario.db_completed).
Proof.
  destruct (find (by_interview_id Scenario.interview_id)
                 (interviews Scenario.db_completed)) as [interview|] eqn:F;
    [|vm_compute in F; discriminate].
  exists interview. split; [reflexivity|].
  assert (S : Interview.interview_status interview = Some Completed)
    by (vm_compute in F; inversion F; reflexivity).
  assert (T : tenant_denied Scenario.admin (Interview.client_id interview)
              = false) by reflexivity.
  split; [exact S|].
  destruct (mark_completed_twice_is_idempotent "t3" Scenario.interview_id
              Scenario.admin Scenario.db_completed interview F T S)
    as (R & _ & _ & _ & P).
  split; [exact R|exact P].
Defined.

(** ** Status transitions *)

Lemma update_dict_status data now d :
  Interview.interview_status ($set (update_dict data now) d)
  = match InterviewUpdate.interview_status data with
    | Some s => s
    | None => Interview.interview_status d
    end.
Proof.
  destruct data as [[m|] [l|] [a|] [s|] [f|] [r|]]; reflexivity.
Qed.

(** Case analysis on the invitation request and the calendar's answer, so
    that the field writes of [send_interview_invite] become explicit. *)
Ltac split_invite :=
  repeat match goal with
    | r : option SendInterviewInviteRequest.t |- _ =>
        destruct r as [[? ? ? ? [[|]|]]|]
    | cal : CalendarResult |- _ => destruct cal
    end.

Ltac same_found :=
  match goal with
  | F : find ?q ?l = Some ?a, G : find ?q ?l = Some ?b |- _ =>
      assert (b = a) by congruence; subst b; clear G
  end.

Ltac status_facts :=
  repeat match goal with
    | S : status_is _ _ = true |- _ => apply status_is_true in S
    | S : status_is _ _ = false |- _ => apply status_is_false in S
    | S : (_ || _) = true |- _ =>
        apply orb_true_iff in S; rewrite !status_is_true in S
    end.

(** Requests served one after the other from an initial database give a
    reachable database. *)
Lemma run_reachable requests : forall db,
  reachable Scenario.env db ->
  Forall (fun '(_, _, c) => distinct_slot_ids c) requests ->
  reachable Scenario.env (Scenario.run requests db).
Proof.
  unfold Scenario.run.
  induction requests as [|[[now u] c] rest IH]; intros db Hdb HF; simpl;
    [exact Hdb|].
  inversion HF; subst. apply IH; [|assumption].
  apply reach_step; [exact Hdb|exact I|assumption].
Qed.

Lemma db0_initial : initial Scenario.db0.
Proof.
  repeat split; simpl.
  - constructor; [intros []|constructor].
  - repeat constructor.
Qed.

Lemma db1_reachable : reachable Scenario.env Scenario.db1.
Proof.
  apply run_reachable; [apply reach_initial, db0_initial|].
  repeat constructor; vm_compute; try (intros [H|[H|[]]]; discriminate);
    try (intros [H|[]]; discriminate); intros [].
Qed.

(** Counterexample to C3: the interview of the scenario is awaiting
    confirmation, [mark_interview_completed] is accepted on it and takes
    it straight to [Completed], which is no edge of the table. *)
Lemma awaiting_confirmation_jumps_to_completed :
  let c := MarkInterviewCompleted Scenario.interview_id in
  let out := run_command Scenario.env "t2" Scenario.admin c Scenario.db1 in
  reachable Scenario.env Scenario.db1
  /\ snd out = Return tt
  /\ map Interview.interview_status (interviews Scenario.db1)
     = [Some AwaitingCandidateConfirmation]
  /\ map Interview.interview_status (interviews (fst out)) = [Some Completed]
  /\ ~ table_transition c (Some AwaitingCandidateConfirmation)
                          (Some Completed).
Proof.
  cbn zeta. split; [exact db1_reachable|].
  repeat split; try (vm_compute; reflexivity).
  intros [[H|H] _]; discriminate.
Qed.

(** C3, as the handlers have it.  Whenever a request changes the status
    of a stored interview, the change is one of: booking takes
    [Awaiting Candidate Confirmation] to [Confirmed]; the invitation takes
    [Confirmed] to [Scheduled]; [move_to_next_round] takes [Completed] or
    [Scheduled] to [Passed]; mark-completed, mark-no-show, cancel, reject
    and initiate-hiring set [Completed], [No Show], [Cancelled], [Failed]
    and [Passed] from any status; [update_interview] sets whatever status
    the request names.  Creating an interview changes no stored status. *)
Theorem status_changes_follow_handlers env now u c db k i i' :
  nth_error (interviews db) k = Some i ->
  nth_error (interviews (fst (run_command env now u c db))) k = Some i' ->
  Interview.interview_status i' <> Interview.interview_status i ->
  handler_transition c (Interview.interview_status i)
                     (Interview.interview_status i').
Proof.
  intros Hi Hi' Hne.
  destruct (run_command env now u c db) as [db' r] eqn:H. cbn [fst] in Hi'.
  destruct c; split_invite; exec_in H; inversion H; subst db' r; clear H;
    cbn [interviews candidates set_interviews set_candidates] in Hi';
    try congruence.
  all: try (rewrite nth_error_app1 in Hi'
              by (apply nth_error_Some; congruence); congruence).
  all: destruct (update_one_nth _ _ _ _ _ _ Hi Hi') as [->|[F ->]];
    [congruence|].
  all: same_found; status_facts.
  all: try rewrite update_dict_status in *.
  all: cbn [handler_transition].
  all: try (destruct (InterviewUpdate.interview_status data); congruence).
  all: try match goal with
       | |- context [status_is ?a ?b] => destruct (status_is a b) eqn:?
       end.
  all: status_facts.
  all: cbn in Hne |- *.
  all: try (destruct (CandidateSlotSelection.confirmed sel)).
  all: solve [intuition congruence].
Qed.

Lemma status_changes_follow_handlers_witness :
  handler_transition (MarkInterviewCompleted Scenario.interview_id)
    (Some AwaitingCandidateConfirmation) (Some Completed).
Proof.
  pose (c := MarkInterviewCompleted Scenario.interview_id).
  destruct (nth_error (interviews Scenario.db1) 0) as [i|] eqn:Hi;
    [|vm_compute in Hi; discriminate].
  destruct (nth_error
              (interviews
                 (fst (run_command Scenario.env "t2" Scenario.admin c
                         Scenario.db1))) 0) as [i'|] eqn:Hi';
    [|vm_compute in Hi'; discriminate].
  assert (Si : Interview.interview_status i
               = Some AwaitingCandidateConfirmation)
    by (vm_compute in Hi; inversion Hi; reflexivity).
  assert (Si' : Interview.interview_status i' = Some Completed)
    by (vm_compute in Hi'; inversion Hi'; reflexivity).
  rewrite <- Si, <- Si'.
  apply (status_changes_follow_handlers _ _ _ _ _ _ _ _ Hi Hi').
  rewrite Si, Si'. discriminate.
Defined.

(** ** At most one claimed slot *)

Lemma mark_unavailable_ids slot_id slots :
  map Slot.slot_id (mark_unavailable slot_id slots) = map Slot.slot_id slots.
Proof.
  unfold mark_unavailable. rewrite map_map. apply map_ext.
  intros s. destruct (Slot.slot_id s =? slot_id); reflexivity.
Qed.

Lemma mark_unavailable_no_match slot_id slots :
  ~ In slot_id (map Slot.slot_id slots) ->
  mark_unavailable slot_id slots = slots.
Proof.
  unfold mark_unavailable.
  induction slots as [|s slots IH]; simpl; intros Hn; [reflexivity|].
  destruct (String.eqb_spec (Slot.slot_id s) slot_id) as [E|E].
  - exfalso. apply Hn. now left.
  - f_equal. apply IH. intros Hin. apply Hn. now right.
Qed.

Lemma no_claim_when_available slots :
  Forall (fun s => Slot.is_available s = true) slots ->
  filter (fun s => negb (Slot.is_available s)) slots = [].
Proof.
  induction 1 as [|s slots Hs _ IH]; simpl; [reflexivity|].
  now rewrite Hs.
Qed.

Lemma mark_unavailable_claims_one slot_id slots :
  NoDup (map Slot.slot_id slots) ->
  Forall (fun s => Slot.is_available s = true) slots ->
  (List.length (filter (fun s => negb (Slot.is_available s))
                       (mark_unavailable slot_id slots)) <= 1)%nat.
Proof.
  induction slots as [|s slots IH]; simpl; intros ND HF; [lia|].
  inversion ND as [|? ? Hnotin ND']; subst.
  inversion HF as [|? ? Hs HF']; subst.
  destruct (String.eqb_spec (Slot.slot_id s) slot_id) as [E|E]; simpl.
  - subst slot_id. fold (mark_unavailable (Slot.slot_id s) slots).
    rewrite mark_unavailable_no_match by exact Hnotin.
    rewrite no_claim_when_available by exact HF'. simpl. lia.
  - rewrite Hs. simpl. apply IH; assumption.
Qed.

Lemma In_mark_unavailable slot_id slots s' :
  In s' (mark_unavailable slot_id slots) ->
  exists s,
    In s slots
    /\ s' = (if Slot.slot_id s =? slot_id
             then Slot.set_is_available false s else s).
Proof.
  unfold mark_unavailable. intros H.
  apply in_map_iff in H as (s & <- & Hin). exists s. split; [exact Hin|].
  reflexivity.
Qed.

Lemma same_id_same_slot slots a b :
  NoDup (map Slot.slot_id slots) ->
  In a slots -> In b slots -> Slot.slot_id a = Slot.slot_id b -> a = b.
Proof.
  induction slots as [|s slots IH]; simpl; intros ND Ha Hb E; [contradiction|].
  inversion ND as [|? ? Hnotin ND']; subst.
  destruct Ha as [->|Ha], Hb as [->|Hb]; auto.
  - exfalso. apply Hnotin. rewrite E. now apply in_map.
  - exfalso. apply Hnotin. rewrite <- E. now apply in_map.
Qed.

(** A write that touches neither the slots nor the selection keeps the
    invariant, as long as it does not put the interview back to awaiting
    confirmation. *)
Lemma slot_inv_frame d d' :
  slot_inv d ->
  Interview.proposed_slots d' = Interview.proposed_slots d ->
  Interview.selected_slot_id d' = Interview.selected_slot_id d ->
  Interview.scheduled_start_time d' = Interview.scheduled_start_time d ->
  (Interview.interview_status d' = Some AwaitingCandidateConfirmation ->
   Interview.interview_status d = Some AwaitingCandidateConfirmation) ->
  slot_inv d'.
Proof.
  unfold slot_inv, one_claim, claimed_slots.
  intros (ND & [L S] & A) -> -> -> Hst. auto.
Qed.

(** Booking an interview that awaits confirmation claims exactly the
    chosen slot. *)
Lemma slot_inv_book d d' slot_id slot :
  slot_inv d ->
  Interview.interview_status d = Some AwaitingCandidateConfirmation ->
  find_slot slot_id (Interview.proposed_slots d) = Some slot ->
  Interview.proposed_slots d'
  = mark_unavailable slot_id (Interview.proposed_slots d) ->
  Interview.selected_slot_id d' = Some slot_id ->
  Interview.scheduled_start_time d' = Slot.start_time slot ->
  Interview.interview_status d' <> Some AwaitingCandidateConfirmation ->
  slot_inv d'.
Proof.
  unfold slot_inv, one_claim, claimed_slots.
  intros (ND & _ & A) St Fs -> Hsel Hstart Hne.
  specialize (A St).
  apply find_some in Fs as [Hslot Hid].
  apply String.eqb_eq in Hid.
  split; [|split; [split|]].
  - now rewrite mark_unavailable_ids.
  - now apply mark_unavailable_claims_one.
  - intros s' Hin Hav.
    apply In_mark_unavailable in Hin as (s & Hs & ->).
    destruct (String.eqb_spec (Slot.slot_id s) slot_id) as [E|E].
    + assert (s = slot) as -> by (apply (same_id_same_slot _ _ _ ND Hs Hslot);
                                   congruence).
      simpl. rewrite Hsel, Hstart, Hid. split; reflexivity.
    + rewrite Forall_forall in A. rewrite (A s Hs) in Hav. discriminate.
  - intros Hst. contradiction.
Qed.

Lemma created_slots_available uuid4_hex duration slots :
  Forall (fun s => Slot.is_available s = true)
         (process_slots uuid4_hex duration slots).
Proof.
  unfold process_slots. apply Forall_forall. intros s Hin.
  apply in_map_iff in Hin as ([k x] & <- & _). reflexivity.
Qed.

Lemma update_dict_frame data now d :
  Interview.proposed_slots ($set (update_dict data now) d)
  = Interview.proposed_slots d
  /\ Interview.selected_slot_id ($set (update_dict data now) d)
     = Interview.selected_slot_id d
  /\ Interview.scheduled_start_time ($set (update_dict data now) d)
     = Interview.scheduled_start_time d.
Proof.
  destruct data as [[m|] [l|] [a|] [s|] [f|] [r|]]; repeat split.
Qed.

Lemma slot_inv_fresh d :
  NoDup (map Slot.slot_id (Interview.proposed_slots d)) ->
  Forall (fun s => Slot.is_available s = true) (Interview.proposed_slots d) ->
  slot_inv d.
Proof.
  unfold slot_inv, one_claim, claimed_slots. intros ND All.
  rewrite no_claim_when_available by exact All.
  split; [exact ND|]. split; [|intros _; exact All].
  split; [simpl; lia|].
  intros s Hs Hav. rewrite Forall_forall in All.
  rewrite (All s Hs) in Hav. discriminate.
Qed.

Lemma settled_step_keeps_slot_inv env now u c db :
  settles_bookings c ->
  distinct_slot_ids c ->
  Forall slot_inv (interviews db) ->
  Forall slot_inv (interviews (fst (run_command env now u c db))).
Proof.
  intros Hc Hd Hinv.
  destruct (run_command env now u c db) as [db' r] eqn:H. cbn [fst].
  destruct c; split_invite; exec_in H; inversion H; subst db' r; clear H;
    cbn [interviews candidates set_interviews set_candidates];
    try exact Hinv.
  (* create *)
  all: try (apply Forall_app; split; [exact Hinv|]; constructor; [|constructor];
            apply slot_inv_fresh;
            [exact Hd|apply created_slots_available]).
  all: apply update_one_Forall; [exact Hinv|]; intros d Hd';
    same_found; status_facts.
  all: match goal with
       | F : find _ (interviews _) = Some ?x |- _ =>
           assert (Hd0 : slot_inv x)
             by (apply find_some in F as [F _];
                 rewrite Forall_forall in Hinv; auto)
       end.
  (* booking *)
  all: try (eapply slot_inv_book; [exact Hd0|eassumption|eassumption
                                   |reflexivity|reflexivity|reflexivity|];
            cbn in Hc |- *; try rewrite Hc; discriminate).
  (* update *)
  all: try (match goal with
            | |- slot_inv (apply_set (update_dict ?data ?now) ?x) =>
                destruct (update_dict_frame data now x) as (P1 & P2 & P3);
                apply (slot_inv_frame x); auto;
                rewrite update_dict_status; cbn in Hc;
                destruct (InterviewUpdate.interview_status data); congruence
            end).
  (* the other writes *)
  all: match goal with
       | |- slot_inv (apply_set _ ?x) => apply (slot_inv_frame x)
       end; try reflexivity; try exact Hd0; cbn; try discriminate.
  all: try match goal with
       | |- context [status_is ?a ?b] => destruct (status_is a b) eqn:?
       end; status_facts; congruence.
Qed.

Lemma settled_reachable_slot_inv env db :
  reachable_by settles_bookings env db -> Forall slot_inv (interviews db).
Proof.
  induction 1 as [db (E & _ & _)|db now u c _ IH Hc Hd].
  - rewrite E. constructor.
  - now apply settled_step_keeps_slot_inv.
Qed.

Lemma scenario_create_distinct round :
  distinct_slot_ids
    (CreateInterview Scenario.uuid4_hex (Scenario.request round Scenario.two_slots)).
Proof.
  cbn. repeat constructor; simpl; intuition discriminate.
Qed.

(** Counterexample to C1: the first slot is booked without confirmation,
    which leaves the interview awaiting confirmation, and the second slot
    is then booked as well; both slots end up unavailable. *)
Lemma unconfirmed_booking_allows_second_claim :
  reachable Scenario.env Scenario.db_two_claims
  /\ map (fun i => map Slot.is_available (Interview.proposed_slots i))
         (interviews Scenario.db_two_claims) = [[false; false]]
  /\ ~ (forall i, In i (interviews Scenario.db_two_claims) -> one_claim i).
Proof.
  split; [|split].
  - apply run_reachable; [exact db1_reachable|].
    repeat constructor.
  - vm_compute. reflexivity.
  - intros H.
    destruct (nth_error (interviews Scenario.db_two_claims) 0) as [i|] eqn:F;
      [|vm_compute in F; discriminate].
    destruct (H i (nth_error_In _ _ F)) as [L _].
    vm_compute in F. inversion F; subst i. vm_compute in L. lia.
Qed.

(** Why the slot ids of an interview must be distinct: when the uuid
    generator repeats itself, both slots get the same id and one
    confirmed booking marks them both. *)
Lemma twin_slot_ids_are_claimed_together :
  map (fun i => map (fun s => (Slot.slot_id s, Slot.is_available s))
                    (Interview.proposed_slots i))
      (interviews Scenario.db_twin_slots)
  = [[(Scenario.slot_1, false); (Scenario.slot_1, false)]].
Proof. vm_compute. reflexivity. Qed.

(** C1, as the handlers have it.  Start from a database without
    interviews and serve requests in which every [create_interview] gets
    pairwise distinct slot ids from the uuid generator, each
    [book_interview_slot] is confirmed and no [update_interview] sets the
    status back to awaiting confirmation.  In every state so reached,
    every interview has at most one unavailable slot, and an unavailable
    slot is the one [selected_slot_id] names, with [scheduled_start_time]
    equal to its start. *)
Theorem settled_bookings_claim_one_slot env db :
  reachable_by settles_bookings env db ->
  forall i, In i (interviews db) -> one_claim i.
Proof.
  intros Hr i Hin.
  pose proof (settled_reachable_slot_inv env db Hr) as Hinv.
  rewrite Forall_forall in Hinv. destruct (Hinv i Hin) as (_ & H & _).
  exact H.
Qed.

Lemma settled_bookings_claim_one_slot_witness :
  reachable_by settles_bookings Scenario.env Scenario.db_booked
  /\ forall i, In i (interviews Scenario.db_booked) -> one_claim i.
Proof.
  assert (R : reachable_by settles_bookings Scenario.env Scenario.db_booked).
  { unfold Scenario.db_booked, Scenario.db1, Scenario.run. cbn [fold_left].
    apply reach_step; [|reflexivity|exact I].
    apply reach_step; [|exact I|apply scenario_create_distinct].
    apply reach_initial, db0_initial. }
  split; [exact R|].
  exact (settled_bookings_claim_one_slot Scenario.env Scenario.db_booked R).
Defined.

(** ** The no-show ledger *)

Lemma no_shows_of_app cid l1 l2 :
  no_shows_of cid (l1 ++ l2) = no_shows_of cid l1 + no_shows_of cid l2.
Proof. induction l1 as [|i l1 IH]; simpl; lia. Qed.

Lemma no_shows_of_ext cid : forall l l',
  map ledger_key l' = map ledger_key l ->
  no_shows_of cid l' = no_shows_of cid l.
Proof.
  induction l as [|i l IH]; intros [|i' l']; simpl; try discriminate;
    [reflexivity|].
  intros [= Hc Hn Hrest]. rewrite Hc, Hn, (IH _ Hrest). reflexivity.
Qed.

Lemma no_shows_of_update cid q u l t delta :
  find q l = Some t ->
  Interview.candidate_id (u t) = Interview.candidate_id t ->
  Interview.no_show_count (u t) = Interview.no_show_count t + delta ->
  no_shows_of cid (update_one q u l)
  = no_shows_of cid l
    + (if Interview.candidate_id t =? cid then delta else 0).
Proof.
  intros F Hc Hn.
  destruct (update_one_split q u l t F) as (b & a & -> & -> & _).
  rewrite !no_shows_of_app. simpl. rewrite Hc, Hn.
  destruct (Interview.candidate_id t =? cid); lia.
Qed.

(** Updating the candidate stored under [cid], when candidate ids are
    distinct. *)
Lemma candidates_update_Forall (P P' : Candidate.t -> Prop) cid u l :
  NoDup (map Candidate.candidate_id l) ->
  Forall P l ->
  (forall c, Candidate.candidate_id c <> cid -> P c -> P' c) ->
  (forall c, Candidate.candidate_id c = cid -> P c -> P' (u c)) ->
  Forall P' (update_one (by_candidate_id cid) u l).
Proof.
  unfold by_candidate_id.
  induction l as [|c l IH]; simpl; intros ND HF Hother Hsame; [constructor|].
  inversion ND as [|? ? Hnotin ND']; subst.
  inversion HF as [|? ? Pc HF']; subst.
  destruct (String.eqb_spec (Candidate.candidate_id c) cid) as [E|E].
  - constructor; [now apply Hsame|].
    rewrite Forall_forall in *. intros c' Hin. apply Hother; [|auto].
    intros E'. apply Hnotin. rewrite E, <- E'. now apply in_map.
  - constructor; [now apply Hother|]. now apply IH.
Qed.

Lemma ledger_frame db db' :
  ledger_inv db ->
  map ledger_key (interviews db') = map ledger_key (interviews db) ->
  map candidate_key (candidates db') = map candidate_key (candidates db) ->
  ledger_inv db'.
Proof.
  unfold ledger_inv. intros (ND & NN & L) Hi Hc. split; [|split].
  - replace (map Candidate.candidate_id (candidates db'))
      with (map fst (map candidate_key (candidates db')))
      by (rewrite map_map; reflexivity).
    rewrite Hc, map_map. exact ND.
  - apply (Forall_map Interview.no_show_count (fun n => 0 <= n)).
    replace (map Interview.no_show_count (interviews db'))
      with (map snd (map ledger_key (interviews db')))
      by (rewrite map_map; reflexivity).
    rewrite Hi, map_map.
    apply (Forall_map Interview.no_show_count (fun n => 0 <= n)). exact NN.
  - apply (Forall_map candidate_key
             (fun k => match snd k with Some n => n | None => 0 end
                       = no_shows_of (fst k) (interviews db'))).
    rewrite Hc.
    apply (Forall_map candidate_key
             (fun k => match snd k with Some n => n | None => 0 end
                       = no_shows_of (fst k) (interviews db'))).
    eapply Forall_impl; [|exact L].
    intros c Hcnt. cbv beta in Hcnt. simpl.
    rewrite (no_shows_of_ext _ _ _ Hi). exact Hcnt.
Qed.

Lemma ledger_insert db doc :
  Interview.no_show_count doc = 0 ->
  ledger_inv db ->
  ledger_inv (set_interviews (interviews db ++ [doc]) db).
Proof.
  unfold ledger_inv. intros H0 (ND & NN & L). cbn. split; [exact ND|split].
  - apply Forall_app. split; [exact NN|]. constructor; [lia|constructor].
  - eapply Forall_impl; [|exact L]. intros c Hc. cbv beta in Hc.
    rewrite no_shows_of_app. simpl. rewrite H0.
    destruct (Interview.candidate_id doc =? Candidate.candidate_id c); lia.
Qed.

Lemma ledger_no_show db q u t :
  ledger_inv db ->
  find q (interviews db) = Some t ->
  Interview.candidate_id (u t) = Interview.candidate_id t ->
  Interview.no_show_count (u t) = Interview.no_show_count t + 1 ->
  ledger_inv
    (set_candidates
       (update_one (by_candidate_id (Interview.candidate_id t))
                   inc_no_show_count (candidates db))
       (set_interviews (update_one q u (interviews db)) db)).
Proof.
  unfold ledger_inv. intros (ND & NN & L) F Hc Hn. cbn. split; [|split].
  - rewrite map_update_one; [exact ND|]. intros c. reflexivity.
  - apply update_one_Forall; [exact NN|].
    intros d Hd. assert (d = t) by congruence. subst d.
    rewrite Hn. apply find_some in F as [Hin _].
    rewrite Forall_forall in NN. specialize (NN t Hin). lia.
  - eapply candidates_update_Forall; [exact ND|exact L| |].
    + intros c Hne Hcnt. cbv beta in Hcnt.
      rewrite (no_shows_of_update _ _ _ _ _ 1 F Hc Hn).
      destruct (String.eqb_spec (Interview.candidate_id t)
                                (Candidate.candidate_id c)); [congruence|lia].
    + intros c He Hcnt. cbv beta in Hcnt.
      rewrite (no_shows_of_update _ _ _ _ _ 1 F Hc Hn).
      change (Candidate.candidate_id (inc_no_show_count c))
        with (Candidate.candidate_id c).
      rewrite He, String.eqb_refl.
      unfold candidate_no_shows in *. cbn. rewrite He in Hcnt. lia.
Qed.

Lemma update_dict_ledger_key data now d :
  ledger_key ($set (update_dict data now) d) = ledger_key d.
Proof.
  destruct data as [[m|] [l|] [a|] [s|] [f|] [r|]]; reflexivity.
Qed.

Lemma step_keeps_ledger env now u c db :
  ledger_inv db -> ledger_inv (fst (run_command env now u c db)).
Proof.
  intros Hinv.
  destruct (run_command env now u c db) as [db' r] eqn:H. cbn [fst].
  destruct c; split_invite; exec_in H; inversion H; subst db' r; clear H;
    try exact Hinv.
  all: try (apply ledger_insert; [reflexivity|exact Hinv]).
  all: try (apply ledger_no_show; [exact Hinv|assumption|reflexivity
                                   |reflexivity]).
  all: apply (ledger_frame db); [exact Hinv| |];
    cbn [interviews candidates set_interviews set_candidates];
    first [ reflexivity
          | apply map_update_one; intros x; apply update_dict_ledger_key
          | apply map_update_one; intros x; reflexivity ].
Qed.

Lemma reachable_ledger env db : reachable env db -> ledger_inv db.
Proof.
  induction 1 as [db (E & ND & Fresh)|db now u c _ IH _ _].
  - unfold ledger_inv. rewrite E. split; [exact ND|]. split; [constructor|].
    eapply Forall_impl; [|exact Fresh].
    intros c Hc. cbv beta in Hc. unfold candidate_no_shows. rewrite Hc.
    reflexivity.
  - now apply step_keeps_ledger.
Qed.

Lemma mark_interview_no_show_run now id u db :
  mark_interview_no_show now id u db =
  match find (by_interview_id id) (interviews db) with
  | None => (db, Raise (mkHTTP 404 "Interview not found"))
  | Some interview =>
      if tenant_denied u (Interview.client_id interview)
      then (db, Raise (mkHTTP 403 "Access denied"))
      else
        (set_candidates
           (update_one (by_candidate_id (Interview.candidate_id interview))
                       inc_no_show_count (candidates db))
           (set_interviews
              (update_one (by_interview_id id)
                 ($set [ Interview.set_interview_status (Some NoShow);
                         Interview.set_no_show_flag true;
                         Interview.set_no_show_count
                           (Interview.no_show_count interview + 1);
                         Interview.set_updated_at now ])
                 (interviews db)) db),
         Return (Interview.no_show_count interview + 1))
  end.
Proof.
  destruct (mark_interview_no_show now id u db) as [db' r] eqn:H.
  exec_in H; rewrite <- H; reflexivity.
Qed.

(** Counterexample to C4: a second [mark_interview_no_show] on the same
    interview is accepted and takes its own count to 2. *)
Lemma second_no_show_counts_twice :
  reachable Scenario.env Scenario.db_two_no_shows
  /\ map Interview.no_show_count (interviews Scenario.db_two_no_shows) = [2]
  /\ ~ (forall i,
          In i (interviews Scenario.db_two_no_shows) ->
          Interview.no_show_count i = 0 \/ Interview.no_show_count i = 1).
Proof.
  split; [|split].
  - apply run_reachable; [exact db1_reachable|]. repeat constructor.
  - vm_compute. reflexivity.
  - intros H.
    destruct (nth_error (interviews Scenario.db_two_no_shows) 0)
      as [i|] eqn:F; [|vm_compute in F; discriminate].
    pose proof (H i (nth_error_In _ _ F)) as Hi.
    vm_compute in F. inversion F; subst i. cbn in Hi.
    destruct Hi; discriminate.
Qed.

(** C4, as the handlers have it.  In every reachable state an interview's
    own [no_show_count] is non-negative (it is not capped at 1), and every
    candidate's aggregate equals the sum of [no_show_count] over that
    candidate's interviews.  A [mark_interview_no_show] that passes the
    tenant check returns, raises the interview's own count by exactly 1
    and raises the aggregate of the interview's candidate by exactly 1. *)
Theorem no_show_ledger_is_exact env db :
  reachable env db ->
  (forall i, In i (interviews db) -> 0 <= Interview.no_show_count i)
  /\ (forall c,
        In c (candidates db) ->
        candidate_no_shows c
        = no_shows_of (Candidate.candidate_id c) (interviews db))
  /\ (forall now id u interview,
        find (by_interview_id id) (interviews db) = Some interview ->
        tenant_denied u (Interview.client_id interview) = false ->
        let out := mark_interview_no_show now id u db in
        snd out = Return (Interview.no_show_count interview + 1)
        /\ (exists interview',
              find (by_interview_id id) (interviews (fst out))
              = Some interview'
              /\ Interview.no_show_count interview'
                 = Interview.no_show_count interview + 1)
        /\ (forall c,
              find (by_candidate_id (Interview.candidate_id interview))
                   (candidates db) = Some c ->
              exists c',
                find (by_candidate_id (Interview.candidate_id interview))
                     (candidates (fst out)) = Some c'
                /\ candidate_no_shows c' = candidate_no_shows c + 1)).
Proof.
  intros Hr. destruct (reachable_ledger env db Hr) as (_ & NN & L).
  rewrite Forall_forall in NN, L.
  split; [exact NN|]. split; [exact L|].
  intros now id u interview Hfind Hten out. subst out.
  rewrite mark_interview_no_show_run, Hfind, Hten. cbn [fst snd].
  split; [reflexivity|]. split.
  - eexists. split.
    + cbn [interviews set_interviews set_candidates].
      apply find_after_set; [keeps_id|exact Hfind].
    + reflexivity.
  - intros c Hc. exists (inc_no_show_count c). split.
    + cbn [candidates set_candidates].
      apply find_update_one; [|exact Hc]. intros x. reflexivity.
    + unfold candidate_no_shows. cbn. reflexivity.
Qed.

Lemma no_show_ledger_is_exact_witness :
  reachable Scenario.env Scenario.db_two_no_shows
  /\ (forall c,
        In c (candidates Scenario.db_two_no_shows) ->
        candidate_no_shows c
        = no_shows_of (Candidate.candidate_id c)
                      (interviews Scenario.db_two_no_shows))
  /\ map candidate_no_shows (candidates Scenario.db_two_no_shows) = [2].
Proof.
  assert (R : reachable Scenario.env Scenario.db_two_no_shows).
  { apply run_reachable; [exact db1_reachable|]. repeat constructor. }
  split; [exact R|]. split.
  - exact (proj1 (proj2 (no_show_ledger_is_exact Scenario.env
                           Scenario.db_two_no_shows R))).
  - vm_compute. reflexivity.
Defined.

(** ** Round progression *)

Lemma move_to_next_round_run now id request u db :
  move_to_next_round now id request u db =
  if MoveToNextRoundRequest.valid request then
    match find (by_interview_id id) (interviews db) with
    | None => (db, Raise (mkHTTP 404 "Interview not found"))
    | Some interview =>
        if tenant_denied u (Interview.client_id interview)
        then (db, Raise (mkHTTP 403 "Access denied"))
        else if status_is (Interview.interview_status interview) Completed
                || status_is (Interview.interview_status interview) Scheduled
        then
          let round := Interview.interview_round interview in
          let cq := by_candidate_id (Interview.candidate_id interview) in
          let cands :=
            update_one cq
              ($set [ Candidate.set_status "IN_PROGRESS";
                      Candidate.set_current_round (Some (round + 1));
                      Candidate.set_last_interview_passed (Some id);
                      Candidate.set_updated_at (Some now) ])
              (candidates db) in
          (set_candidates cands
             (set_interviews
                (update_one (by_interview_id id)
                   ($set [ Interview.set_interview_status (Some Passed);
                           Interview.set_feedback
                             (MoveToNextRoundRequest.feedback request);
                           Interview.set_rating
                             (MoveToNextRoundRequest.rating request);
                           Interview.set_updated_at now;
                           Interview.set_passed_by (Some (User.email u));
                           Interview.set_passed_at (Some now) ])
                   (interviews db)) db),
           match find cq cands with
           | Some _ => Return (round, round + 1)
           | None => Raise internal_server_error
           end)
        else (db, Raise (must_be_completed_or_scheduled interview))
    end
  else (db, Raise validation_error).
Proof.
  destruct (move_to_next_round now id request u db) as [db' r] eqn:H.
  exec_in H; cbv zeta; rewrite <- H;
    repeat match goal with
      | E : find _ (update_one _ _ _) = _ |- _ => rewrite E
      end; reflexivity.
Qed.

(** Counterexample to C5: with round 2 already passed the candidate is at
    round 3; passing the round-1 interview afterwards is accepted and
    writes round 2, which is lower than before and not the previous value
    plus one. *)
Lemma passing_an_earlier_round_lowers_current_round :
  let out := move_to_next_round "t6" Scenario.interview_id Scenario.pass
               Scenario.admin Scenario.db_round_3 in
  reachable Scenario.env Scenario.db_round_3
  /\ map Candidate.current_round (candidates Scenario.db_round_3) = [Some 3]
  /\ snd out = Return (1, 2)
  /\ map Candidate.current_round (candidates (fst out)) = [Some 2].
Proof.
  cbn zeta. split.
  - apply run_reachable; [exact db1_reachable|].
    constructor;
      [cbn; repeat constructor; simpl; intuition discriminate|].
    repeat constructor.
  - repeat split; vm_compute; reflexivity.
Qed.

(** C5, as the handler has it.  A [move_to_next_round] that is accepted
    (valid rating, tenant check passed, interview [Completed] or
    [Scheduled], candidate on file) marks the interview [Passed] and
    writes the interview's own round plus one into the candidate's
    [current_round], whatever the candidate held before; the candidate's
    round therefore does not go down exactly when it was at most that
    value. *)
Theorem move_to_next_round_writes_interview_round
    now id request u db interview c :
  find (by_interview_id id) (interviews db) = Some interview ->
  tenant_denied u (Interview.client_id interview) = false ->
  MoveToNextRoundRequest.valid request = true ->
  Interview.interview_status interview = Some Completed
  \/ Interview.interview_status interview = Some Scheduled ->
  find (by_candidate_id (Interview.candidate_id interview)) (candidates db)
  = Some c ->
  let round := Interview.interview_round interview in
  let out := move_to_next_round now id request u db in
  snd out = Return (round, round + 1)
  /\ (exists interview',
        find (by_interview_id id) (interviews (fst out)) = Some interview'
        /\ Interview.interview_status interview' = Some Passed)
  /\ (exists c',
        find (by_candidate_id (Interview.candidate_id interview))
             (candidates (fst out)) = Some c'
        /\ Candidate.current_round c' = Some (round + 1)
        /\ Candidate.status c' = "IN_PROGRESS"
        /\ Candidate.last_interview_passed c' = Some id
        /\ forall previous,
             Candidate.current_round c = Some previous ->
             (previous <= round + 1 <->
              exists r', Candidate.current_round c' = Some r'
                         /\ previous <= r')).
Proof.
  intros Hfind Hten Hval Hst Hc round out. subst out.
  rewrite move_to_next_round_run, Hval, Hfind, Hten.
  assert (status_is (Interview.interview_status interview) Completed
          || status_is (Interview.interview_status interview) Scheduled
          = true) as ->.
  { apply orb_true_iff. rewrite !status_is_true. exact Hst. }
  cbv zeta. fold round.
  set (cw := $set [ Candidate.set_status "IN_PROGRESS";
                    Candidate.set_current_round (Some (round + 1));
                    Candidate.set_last_interview_passed (Some id);
                    Candidate.set_updated_at (Some now) ]).
  assert (Hc' : find (by_candidate_id (Interview.candidate_id interview))
                  (update_one
                     (by_candidate_id (Interview.candidate_id interview))
                     cw (candidates db)) = Some (cw c)).
  { apply find_update_one; [|exact Hc]. intros x. reflexivity. }
  cbn [fst snd interviews candidates set_interviews set_candidates].
  rewrite Hc'. split; [reflexivity|]. split.
  - eexists. split; [apply find_after_set; [keeps_id|exact Hfind]|].
    reflexivity.
  - exists (cw c). split; [reflexivity|]. repeat split.
    + intros Hle. exists (round + 1). split; [reflexivity|exact Hle].
    + intros (r' & Hr' & Hle). cbn in Hr'. inversion Hr'. lia.
Qed.

Lemma move_to_next_round_writes_interview_round_witness :
  snd (move_to_next_round "t6" Scenario.interview_id Scenario.pass
         Scenario.admin Scenario.db_round_3) = Return (1, 2).
Proof.
  destruct (find (by_interview_id Scenario.interview_id)
                 (interviews Scenario.db_round_3)) as [interview|] eqn:F;
    [|vm_compute in F; discriminate].
  assert (R : Interview.interview_round interview = 1)
    by (vm_compute in F; inversion F; reflexivity).
  assert (S : Interview.interview_status interview = Some Completed)
    by (vm_compute in F; inversion F; reflexivity).
  assert (T : tenant_denied Scenario.admin (Interview.client_id interview)
              = false) by reflexivity.
  destruct (find (by_candidate_id (Interview.candidate_id interview))
                 (candidates Scenario.db_round_3)) as [c|] eqn:C;
    [|vm_compute in F; inversion F; subst interview;
      vm_compute in C; discriminate].
  destruct (move_to_next_round_writes_interview_round "t6"
              Scenario.interview_id Scenario.pass Scenario.admin
              Scenario.db_round_3 interview c F T eq_refl (or_introl S) C)
    as (Hret & _).
  rewrite R in Hret. exact Hret.
Defined.

(** ** Validation at creation *)

(** What the request model does enforce: a duration outside 15..240 (or a
    bad mode or round) is answered with 422 and nothing is stored. *)
Lemma create_interview_rejects_invalid uuid4_hex now data u db :
  InterviewCreate.valid data = false ->
  create_interview uuid4_hex now data u db = (db, Raise validation_error).
Proof.
  intros Hv. unfold create_interview, bind, raise_if. rewrite Hv. reflexivity.
Qed.

Lemma duration_out_of_range_invalid data :
  InterviewCreate.interview_duration data < 15
  \/ 240 < InterviewCreate.interview_duration data ->
  InterviewCreate.valid data = false.
Proof.
  intros H. unfold InterviewCreate.valid.
  destruct (Z.leb_spec 15 (InterviewCreate.interview_duration data));
    destruct (Z.leb_spec (InterviewCreate.interview_duration data) 240);
    rewrite ?andb_false_r, ?andb_false_l; try reflexivity; lia.
Qed.

(** C6 on the code.  [create_interview] stores the interview and answers
    normally when the request proposes no slot, six slots, or a slot that
    ends before it starts: the request model declares [proposed_slots] as
    [List[dict]], so neither the count nor the times are validated. *)
Theorem create_interview_accepts_unvalidated_slots :
  let created slots :=
    create_interview Scenario.uuid4_hex "t1" (Scenario.request 1 slots)
                     Scenario.admin Scenario.db0 in
  let stored slots :=
    map (fun i => (Interview.interview_status i,
                   List.length (Interview.proposed_slots i)))
        (interviews (fst (created slots))) in
  (exists doc, snd (created []) = Return doc)
  /\ stored [] = [(Some AwaitingCandidateConfirmation, 0%nat)]
  /\ (exists doc, snd (created Scenario.six_slots) = Return doc)
  /\ stored Scenario.six_slots = [(Some AwaitingCandidateConfirmation, 6%nat)]
  /\ (exists doc, snd (created Scenario.inverted_slot) = Return doc)
  /\ map (fun i => map (fun s => (Slot.start_time s, Slot.end_time s))
                       (Interview.proposed_slots i))
         (interviews (fst (created Scenario.inverted_slot)))
     = [[(Some "2026-01-10T11:00:00Z", Some "2026-01-10T10:00:00Z")]].
Proof.
  cbn zeta.
  repeat split; try (eexists; vm_compute; reflexivity);
    vm_compute; reflexivity.
Qed.

(** ** The invitation *)

(** Counterexample to C10: the request names one meeting link and asks
    for a calendar event; the calendar call succeeds and it is the
    calendar's link that is stored. *)
Lemma calendar_link_replaces_requested_link :
  let out := send_interview_invite Scenario.calendar "t3"
               Scenario.interview_id (Some Scenario.invite) Scenario.admin
               Scenario.db_booked in
  snd out = Return tt
  /\ SendInterviewInviteRequest.meeting_link Scenario.invite
     = Some "https://meet.example/room-a"
  /\ map Interview.meeting_link (interviews (fst out))
     = [Some "https://meet.google.com/xyz"].
Proof. cbn zeta. repeat split; vm_compute; reflexivity. Qed.

(** A candidate whose stored name is null, empty or blank: the e-mail
    template raises before the [$set], so the request is answered 500
    and nothing is written. *)
Lemma send_invite_without_first_name
    calendar now id request u db interview candidate :
  find (by_interview_id id) (interviews db) = Some interview ->
  tenant_denied u (Interview.client_id interview) = false ->
  find (by_candidate_id (Interview.candidate_id interview)) (candidates db)
  = Some candidate ->
  truthy_str (Candidate.email candidate) = true ->
  find (by_job_id (Interview.job_id interview)) (jobs db) <> None ->
  find (by_client_id (Interview.client_id interview)) (clients db) <> None ->
  candidate_first_name candidate = None ->
  send_interview_invite calendar now id request u db
  = (db, Raise internal_server_error).
Proof.
  intros Hfind Hten Hcand Hmail Hjob Hclient Hname.
  destruct (send_interview_invite calendar now id request u db)
    as [db' r] eqn:H.
  split_invite; exec_in H;
    repeat match goal with
      | E : Some _ = Some _ |- _ => inversion E; subst; clear E
      | E : None = Some _ |- _ => discriminate E
      end;
    try congruence.
Qed.

(** C10, as the handler has it.  An invitation goes out when the caller
    passes the tenant check, the candidate is on file with an e-mail
    address and a name that has a first word, and the job and the client
    are on file.  An invitation that goes out overwrites
    [interview_mode], [duration_minutes] and [time_zone] with the
    request's values, or with "Video", 30 and "IST (Indian Standard
    Time)" when there is no request body, whatever the interview held
    before.  [meeting_link] is overwritten likewise (with the empty
    string when there is no body), except that a calendar event created
    on request supplies its own link instead.  It also sets [invite_sent]
    and moves a [Confirmed] interview to [Scheduled]. *)
Theorem send_invite_overwrites_invitation_fields
    calendar now id request u db interview :
  find (by_interview_id id) (interviews db) = Some interview ->
  let out := send_interview_invite calendar now id request u db in
  (tenant_denied u (Interview.client_id interview) = false ->
   (exists candidate,
      find (by_candidate_id (Interview.candidate_id interview)) (candidates db)
      = Some candidate
      /\ truthy_str (Candidate.email candidate) = true
      /\ candidate_first_name candidate <> None) ->
   find (by_job_id (Interview.job_id interview)) (jobs db) <> None ->
   find (by_client_id (Interview.client_id interview)) (clients db) <> None ->
   snd out = Return tt)
  /\ (snd out = Return tt ->
      exists doc,
        find (by_interview_id id) (interviews (fst out)) = Some doc
        /\ Interview.interview_mode doc
           = match request with
             | Some r => SendInterviewInviteRequest.interview_mode r
             | None => Some "Video"
             end
        /\ Interview.duration_minutes doc
           = match request with
             | Some r => SendInterviewInviteRequest.duration_minutes r
             | None => Some 30
             end
        /\ Interview.time_zone doc
           = match request with
             | Some r => SendInterviewInviteRequest.time_zone r
             | None => Some "IST (Indian Standard Time)"
             end
        /\ Interview.meeting_link doc
           = match request with
             | Some r =>
                 match SendInterviewInviteRequest.auto_create_calendar_event r,
                       calendar with
                 | Some true, CalendarSuccess _ link _ => Some link
                 | _, _ => SendInterviewInviteRequest.meeting_link r
                 end
             | None => Some ""
             end
        /\ Interview.invite_sent doc = true
        /\ Interview.interview_status doc
           = (if status_is (Interview.interview_status interview) Confirmed
              then Some Scheduled
              else Interview.interview_status interview)).
Proof.
  intros Hfind out. subst out.
  destruct (send_interview_invite calendar now id request u db)
    as [db' r] eqn:H.
  cbn [fst snd].
  split.
  - intros Hten (candidate & Hcand & Hmail & Hname) Hjob Hclient.
    split_invite; exec_in H;
      repeat match goal with
        | E : Some _ = Some _ |- _ => inversion E; subst; clear E
        | E : None = Some _ |- _ => discriminate E
        end;
      try congruence.
    all: inversion H; subst db' r; clear H; reflexivity.
  - intros ->.
    split_invite; exec_in H;
      repeat match goal with
        | E : Some _ = Some _ |- _ => inversion E; subst; clear E
        | E : None = Some _ |- _ => discriminate E
        end;
      try congruence.
    all: inversion H; subst db'; clear H.
    all: eexists; split;
      [cbn [interviews set_interviews];
       apply find_after_set; [keeps_id|eassumption]|].
    all: repeat split.
Qed.

Lemma send_invite_overwrites_invitation_fields_witness :
  let out := send_interview_invite Scenario.calendar "t3"
               Scenario.interview_id None Scenario.admin Scenario.db_booked in
  snd out = Return tt
  /\ exists doc,
       find (by_interview_id Scenario.interview_id) (interviews (fst out))
       = Some doc
       /\ Interview.interview_mode doc = Some "Video"
       /\ Interview.duration_minutes doc = Some 30
       /\ Interview.time_zone doc = Some "IST (Indian Standard Time)".
Proof.
  cbn zeta.
  destruct (find (by_interview_id Scenario.interview_id)
                 (interviews Scenario.db_booked)) as [interview|] eqn:F;
    [|vm_compute in F; discriminate].
  assert (E : interview = match find (by_interview_id Scenario.interview_id)
                                (interviews Scenario.db_booked) with
                          | Some i => i
                          | None => interview
                          end) by (rewrite F; reflexivity).
  destruct (send_invite_overwrites_invitation_fields Scenario.calendar "t3"
              Scenario.interview_id None Scenario.admin Scenario.db_booked
              interview F) as [Hgoes Hwrites].
  assert (R : snd (send_interview_invite Scenario.calendar "t3"
                     Scenario.interview_id None Scenario.admin
                     Scenario.db_booked) = Return tt).
  { apply Hgoes.
    - reflexivity.
    - exists Scenario.candidate. rewrite E.
      split; [vm_compute; reflexivity|].
      split; [reflexivity|vm_compute; discriminate].
    - rewrite E. vm_compute. discriminate.
    - rewrite E. vm_compute. discriminate. }
  split; [exact R|].
  destruct (Hwrites R) as (doc & Hd & Hm & Hdur & Htz & _).
  exists doc. repeat split; assumption.
Defined.

(** * Further properties of the handlers *)

(** ** What a request may change *)

Lemma update_one_nth_some {A} (q : A -> bool) (u : A -> A) l k d :
  nth_error l k = Some d ->
  exists d',
    nth_error (update_one q u l) k = Some d'
    /\ (d' = d \/ (find q l = Some d /\ d' = u d)).
Proof.
  revert k. induction l as [|x l IH]; intros [|k]; simpl; try discriminate.
  - intros [= ->]. destruct (q d) eqn:Q; simpl; eexists; split;
      try reflexivity; auto.
  - intros H. destruct (q x) eqn:Q; simpl.
    + exists d. auto.
    + destruct (IH _ H) as (d' & Hd' & Hor). exists d'. tauto.
Qed.

Lemma never_released_refl slots : never_released slots slots.
Proof.
  unfold never_released. induction slots; constructor; auto.
Qed.

Lemma never_released_mark slot_id slots :
  never_released slots (mark_unavailable slot_id slots).
Proof.
  unfold never_released, mark_unavailable.
  induction slots as [|s slots IH]; simpl; constructor; [|exact IH].
  destruct (Slot.slot_id s =? slot_id); simpl; auto.
Qed.

Lemma update_dict_rewritten data now d :
  rewritten now d ($set (update_dict data now) d).
Proof.
  unfold rewritten.
  destruct data as [[m|] [l|] [a|] [s|] [f|] [r|]]; simpl;
    repeat split; try apply never_released_refl; lia.
Qed.

Lemma found_has_id id l d :
  find (by_interview_id id) l = Some d -> Interview.interview_id d = id.
Proof.
  intros H. apply find_some in H as [_ H]. now apply String.eqb_eq in H.
Qed.

Lemma step_interview env now u c db k i :
  nth_error (interviews db) k = Some i ->
  exists i',
    nth_error (interviews (fst (run_command env now u c db))) k = Some i'
    /\ (i' = i
        \/ (target c = Some (Interview.interview_id i) /\ rewritten now i i')).
Proof.
  intros Hi.
  destruct (run_command env now u c db) as [db' r] eqn:H. cbn [fst].
  destruct c; split_invite; exec_in H; inversion H; subst db' r; clear H;
    cbn [interviews candidates set_interviews set_candidates];
    try (exists i; split; [exact Hi|left; reflexivity]).
  all: try (exists i; split; [|left; reflexivity];
            rewrite nth_error_app1 by (apply nth_error_Some; congruence);
            exact Hi).
  all: match goal with
       | |- context [update_one ?q ?w _] =>
           destruct (update_one_nth_some q w _ _ _ Hi) as (i' & Hi' & Hor)
       end.
  all: exists i'; (split; [exact Hi'|]).
  all: destruct Hor as [->|[F ->]]; [left; reflexivity|right].
  all: same_found.
  all: match goal with
       | F : find (by_interview_id _) _ = Some _ |- _ =>
           rewrite (found_has_id _ _ _ F)
       end; (split; [reflexivity|]).
  all: try apply update_dict_rewritten.
  all: unfold rewritten; cbn; repeat split;
    try apply never_released_refl; try apply never_released_mark; lia.
Qed.

(** ** Failures *)

Lemma update_dict_client_id data now d :
  Interview.client_id ($set (update_dict data now) d) = Interview.client_id d.
Proof.
  destruct data as [[m|] [l|] [a|] [s|] [f|] [r|]]; reflexivity.
Qed.

Ltac after_update :=
  repeat match goal with
    | F : find (by_interview_id ?id) (update_one _ ($set ?ws) _) = _,
      G : find (by_interview_id ?id) (interviews _) = Some ?i |- _ =>
        rewrite (find_after_set ws id _ i) in F
          by (first [apply update_dict_keeps_id|keeps_id|exact G]);
        first [discriminate F | inversion F; subst; clear F]
    end.

(** X6.  A request that raises has written nothing, with these
    exceptions: the 403 and the 500 of [book_interview_slot]'s response
    step, the 500 of [update_interview]'s response step, and the 500 of
    [move_to_next_round] and of [initiate_hiring] when the candidate (or,
    for hiring, the job) is not on file.  Every other raise of every
    command leaves the database exactly as it was. *)
Theorem raise_leaves_db_unless_after_write env now u c db e :
  snd (run_command env now u c db) = Raise e ->
  fst (run_command env now u c db) = db \/ raised_after_write c e.
Proof.
  destruct (run_command env now u c db) as [db' r] eqn:H. cbn [fst snd].
  intros ->.
  destruct c; split_invite; exec_in H; inversion H; subst; clear H;
    try (left; reflexivity);
    try (right; first [reflexivity|left; reflexivity|right; reflexivity]).
  all: after_update.
  all: rewrite ?update_dict_client_id in *; congruence.
Qed.

(** X7.  A client user of another tenant cannot change an interview
    through update, send-invite, mark-completed, mark-no-show, cancel,
    move-to-next-round, reject or initiate-hiring: the request is
    answered 403 (or 422 when its body is invalid) and the database is
    left as it was. *)
Theorem foreign_tenant_cannot_write env now u c db id interview :
  tenant_checked c ->
  target c = Some id ->
  find (by_interview_id id) (interviews db) = Some interview ->
  tenant_denied u (Interview.client_id interview) = true ->
  fst (run_command env now u c db) = db
  /\ (snd (run_command env now u c db) = Raise (mkHTTP 403 "Access denied")
      \/ snd (run_command env now u c db) = Raise validation_error).
Proof.
  intros Hc Ht Hfind Hden.
  destruct (run_command env now u c db) as [db' r] eqn:H. cbn [fst snd].
  destruct c; try contradiction; cbn in Ht; inversion Ht; subst;
    split_invite; exec_in H; inversion H; subst; clear H;
    try (split; [reflexivity|]; (left; reflexivity) || (right; reflexivity));
    congruence.
Qed.

Lemma foreign_tenant_cannot_write_witness :
  fst (run_command Scenario.env "t2" Scenario.outsider
         (CancelInterview Scenario.interview_id) Scenario.db1) = Scenario.db1.
Proof.
  destruct (find (by_interview_id Scenario.interview_id)
                 (interviews Scenario.db1)) as [i|] eqn:F;
    [|vm_compute in F; discriminate].
  apply (foreign_tenant_cannot_write Scenario.env "t2" Scenario.outsider
           (CancelInterview Scenario.interview_id) Scenario.db1
           Scenario.interview_id i I eq_refl F).
  vm_compute in F. inversion F. reflexivity.
Defined.

Lemma raise_leaves_db_unless_after_write_witness :
  fst (run_command Scenario.env "t2" Scenario.admin
         (MarkInterviewNoShow "int_unknown") Scenario.db1) = Scenario.db1.
Proof.
  destruct (raise_leaves_db_unless_after_write Scenario.env "t2"
              Scenario.admin (MarkInterviewNoShow "int_unknown") Scenario.db1
              (mkHTTP 404 "Interview not found")) as [E|F].
  - vm_compute. reflexivity.
  - exact E.
  - destruct F.
Defined.

(** ** Invariants of every request *)

Lemma never_released_durations d d' :
  Interview.interview_duration d' = Interview.interview_duration d ->
  never_released (Interview.proposed_slots d) (Interview.proposed_slots d') ->
  slots_last_as_planned d -> slots_last_as_planned d'.
Proof.
  unfold slots_last_as_planned, never_released. intros -> HR.
  induction HR as [|s s' l l' [Hcore _] _ IH]; intros HF; [constructor|].
  inversion HF; subst. constructor; [|auto].
  unfold slot_core in Hcore. congruence.
Qed.

Lemma created_slots_last uuid4_hex duration slots :
  Forall (fun s => Slot.duration_minutes s = duration)
         (process_slots uuid4_hex duration slots).
Proof.
  unfold process_slots. apply Forall_forall. intros s Hin.
  apply in_map_iff in Hin as ([k x] & <- & _). reflexivity.
Qed.

Lemma step_keeps_durations env now u c db :
  Forall slots_last_as_planned (interviews db) ->
  Forall slots_last_as_planned (interviews (fst (run_command env now u c db))).
Proof.
  intros Hinv. apply Forall_forall. intros i' Hin.
  apply In_nth_error in Hin as [k Hk].
  destruct (nth_error (interviews db) k) as [i|] eqn:Hi.
  - destruct (step_interview env now u c db k i Hi) as (i2 & Hi2 & Hor).
    assert (i2 = i') by congruence. subst i2.
    rewrite Forall_forall in Hinv.
    pose proof (Hinv i (nth_error_In _ _ Hi)) as Hd.
    destruct Hor as [->|[_ (Hcore & HR & _)]]; [exact Hd|].
    apply (never_released_durations i); [|exact HR|exact Hd].
    unfold interview_core in Hcore. congruence.
  - (* a position past the end: the interview just created *)
    destruct (run_command env now u c db) as [db' r] eqn:H. cbn [fst] in Hk.
    apply nth_error_None in Hi.
    destruct c; split_invite; exec_in H; inversion H; subst db' r; clear H;
      cbn [interviews candidates set_interviews set_candidates] in Hk;
      try (assert (Hlt : nth_error (interviews db) k <> None)
             by congruence; apply nth_error_Some in Hlt; lia);
      try (match type of Hk with
           | nth_error ?l _ = _ =>
               assert (Hlt : nth_error l k <> None) by congruence;
               apply nth_error_Some in Hlt;
               rewrite update_one_length in Hlt; lia
           end).
    all: rewrite nth_error_app2 in Hk by exact Hi.
    all: destruct (k - List.length (interviews db))%nat as [|n];
      [|destruct n; discriminate].
    all: cbn in Hk; inversion Hk; subst i'; apply created_slots_last.
Qed.

(** X1.  No request deletes, moves or re-identifies a stored interview:
    after any command, every interview is still at its position with the
    same ids, tenant, duration, round, round name and creation stamp. *)
Theorem interviews_keep_place_and_identity env now u c db k i :
  nth_error (interviews db) k = Some i ->
  exists i',
    nth_error (interviews (fst (run_command env now u c db))) k = Some i'
    /\ interview_core i' = interview_core i.
Proof.
  intros Hi.
  destruct (step_interview env now u c db k i Hi) as (i' & Hi' & Hor).
  exists i'. split; [exact Hi'|].
  destruct Hor as [->|[_ (Hcore & _)]]; [reflexivity|exact Hcore].
Qed.

Lemma interviews_keep_place_and_identity_witness :
  exists i i',
    nth_error (interviews Scenario.db_booked) 0 = Some i
    /\ nth_error
         (interviews
            (fst (run_command Scenario.env "t3" Scenario.admin
                    (CancelInterview Scenario.interview_id)
                    Scenario.db_booked))) 0 = Some i'
    /\ interview_core i' = interview_core i.
Proof.
  destruct (nth_error (interviews Scenario.db_booked) 0) as [i|] eqn:F;
    [|vm_compute in F; discriminate].
  destruct (interviews_keep_place_and_identity Scenario.env "t3"
              Scenario.admin (CancelInterview Scenario.interview_id)
              Scenario.db_booked 0 i F) as (i' & H1 & H2).
  exists i, i'. repeat split; assumption.
Defined.

(** X2.  A command leaves alone every interview whose [interview_id] is
    not the one it addresses; creating an interview leaves all stored
    interviews alone. *)
Theorem other_interviews_untouched env now u c db k i :
  nth_error (interviews db) k = Some i ->
  target c <> Some (Interview.interview_id i) ->
  nth_error (interviews (fst (run_command env now u c db))) k = Some i.
Proof.
  intros Hi Hne.
  destruct (step_interview env now u c db k i Hi) as (i' & Hi' & Hor).
  destruct Hor as [->|[Ht _]]; [exact Hi'|contradiction].
Qed.

Lemma other_interviews_untouched_witness :
  exists i,
    nth_error (interviews Scenario.db_round_3) 0 = Some i
    /\ nth_error
         (interviews
            (fst (run_command Scenario.env "t6" Scenario.admin
                    (CancelInterview Scenario.interview_id_b)
                    Scenario.db_round_3))) 0 = Some i.
Proof.
  destruct (nth_error (interviews Scenario.db_round_3) 0) as [i|] eqn:F;
    [|vm_compute in F; discriminate].
  exists i. split; [reflexivity|].
  apply other_interviews_untouched; [exact F|].
  vm_compute in F. inversion F; subst i. cbn. discriminate.
Defined.

(** X3.  No request ever releases, removes, adds or retimes a slot: after
    any command the slots of a stored interview are the same in number,
    id, times and duration, and a slot that was unavailable is still
    unavailable (cancelling included). *)
Theorem claimed_slots_stay_claimed env now u c db k i :
  nth_error (interviews db) k = Some i ->
  exists i',
    nth_error (interviews (fst (run_command env now u c db))) k = Some i'
    /\ never_released (Interview.proposed_slots i)
                      (Interview.proposed_slots i').
Proof.
  intros Hi.
  destruct (step_interview env now u c db k i Hi) as (i' & Hi' & Hor).
  exists i'. split; [exact Hi'|].
  destruct Hor as [->|[_ (_ & HR & _)]];
    [apply never_released_refl|exact HR].
Qed.

Lemma claimed_slots_stay_claimed_witness :
  exists i i',
    nth_error (interviews Scenario.db_booked) 0 = Some i
    /\ map Slot.is_available (Interview.proposed_slots i) = [false; true]
    /\ nth_error
         (interviews
            (fst (run_command Scenario.env "t3" Scenario.admin
                    (CancelInterview Scenario.interview_id)
                    Scenario.db_booked))) 0 = Some i'
    /\ never_released (Interview.proposed_slots i)
                      (Interview.proposed_slots i').
Proof.
  destruct (nth_error (interviews Scenario.db_booked) 0) as [i|] eqn:F;
    [|vm_compute in F; discriminate].
  destruct (claimed_slots_stay_claimed Scenario.env "t3" Scenario.admin
              (CancelInterview Scenario.interview_id) Scenario.db_booked
              0 i F) as (i' & H1 & H2).
  exists i, i'. split; [reflexivity|]. split; [|split; assumption].
  vm_compute in F. inversion F. reflexivity.
Defined.

(** X4.  Whenever a request changes a stored interview in any field, it
    stamps the interview's [updated_at] with the time of the request. *)
Theorem changes_stamp_updated_at env now u c db k i i' :
  nth_error (interviews db) k = Some i ->
  nth_error (interviews (fst (run_command env now u c db))) k = Some i' ->
  i' <> i ->
  Interview.updated_at i' = now.
Proof.
  intros Hi Hi' Hne.
  destruct (step_interview env now u c db k i Hi) as (i2 & Hi2 & Hor).
  assert (i2 = i') by congruence. subst i2.
  destruct Hor as [->|[_ (_ & _ & _ & Hup)]]; [contradiction|exact Hup].
Qed.

Lemma changes_stamp_updated_at_witness :
  exists i',
    nth_error
      (interviews
         (fst (run_command Scenario.env "t3" Scenario.admin
                 (CancelInterview Scenario.interview_id)
                 Scenario.db_booked))) 0 = Some i'
    /\ Interview.updated_at i' = "t3".
Proof.
  destruct (nth_error (interviews Scenario.db_booked) 0) as [i|] eqn:F;
    [|vm_compute in F; discriminate].
  destruct (nth_error
              (interviews
                 (fst (run_command Scenario.env "t3" Scenario.admin
                         (CancelInterview Scenario.interview_id)
                         Scenario.db_booked))) 0) as [i'|] eqn:F';
    [|vm_compute in F'; discriminate].
  exists i'. split; [reflexivity|].
  apply (changes_stamp_updated_at _ _ _ _ _ _ _ _ F F').
  vm_compute in F, F'. inversion F; inversion F'; subst. discriminate.
Defined.

(** X5.  In every reachable state, every proposed slot of every interview
    has [duration_minutes] equal to the interview's [interview_duration]
    (the invitation writes a separate [duration_minutes] field of the
    interview and leaves both alone). *)
Theorem reachable_slots_last_as_planned env db :
  reachable env db ->
  forall i s,
    In i (interviews db) ->
    In s (Interview.proposed_slots i) ->
    Slot.duration_minutes s = Interview.interview_duration i.
Proof.
  intros Hr.
  assert (Hinv : Forall slots_last_as_planned (interviews db)).
  { induction Hr as [db (E & _)|db now u c _ IH _ _].
    - rewrite E. constructor.
    - now apply step_keeps_durations. }
  intros i s Hi Hs. rewrite Forall_forall in Hinv.
  specialize (Hinv i Hi). unfold slots_last_as_planned in Hinv.
  rewrite Forall_forall in Hinv. now apply Hinv.
Qed.

Lemma reachable_slots_last_as_planned_witness :
  reachable Scenario.env Scenario.db1
  /\ forall i s,
       In i (interviews Scenario.db1) ->
       In s (Interview.proposed_slots i) ->
       Slot.duration_minutes s = Interview.interview_duration i.
Proof.
  split; [exact db1_reachable|].
  exact (reachable_slots_last_as_planned Scenario.env Scenario.db1
           db1_reachable).
Defined.

(** ** Candidates *)

(** X8.  No interview command adds, removes or reorders candidates or
    changes a candidate's id, job, name or e-mail address.  Only
    [mark_interview_no_show] changes a [no_show_count] and only
    [move_to_next_round] changes a [current_round]; rejecting or hiring
    leaves both as they were. *)
Theorem candidates_keep_identity env now u c db :
  let db' := fst (run_command env now u c db) in
  map candidate_core (candidates db') = map candidate_core (candidates db)
  /\ ((forall id, c <> MarkInterviewNoShow id) ->
      map Candidate.no_show_count (candidates db')
      = map Candidate.no_show_count (candidates db))
  /\ ((forall id request, c <> MoveToNextRound id request) ->
      map Candidate.current_round (candidates db')
      = map Candidate.current_round (candidates db)).
Proof.
  cbn zeta.
  destruct (run_command env now u c db) as [db' r] eqn:H. cbn [fst].
  destruct c; split_invite; exec_in H; inversion H; subst db' r; clear H;
    cbn [interviews candidates set_interviews set_candidates];
    repeat split; intros;
    try reflexivity;
    try (apply map_update_one; intros x; reflexivity);
    try (exfalso; eapply H; reflexivity).
Qed.

Lemma candidates_keep_identity_witness :
  map Candidate.current_round
      (candidates
         (fst (run_command Scenario.env "t6" Scenario.admin
                 (RejectAfterInterview Scenario.interview_id Scenario.pass)
                 Scenario.db_round_3)))
  = map Candidate.current_round (candidates Scenario.db_round_3).
Proof.
  apply (candidates_keep_identity Scenario.env "t6" Scenario.admin
           (RejectAfterInterview Scenario.interview_id Scenario.pass)
           Scenario.db_round_3).
  intros id request. discriminate.
Defined.

(** ** Creating an interview *)

Lemma process_slots_times uuid4_hex duration slots :
  map (fun s => (Slot.start_time s, Slot.end_time s))
      (process_slots uuid4_hex duration slots)
  = map (fun s => (InterviewCreate.start_time s, InterviewCreate.end_time s))
        slots.
Proof.
  unfold process_slots, enumerate.
  change (enumerate_from 0 slots) with (enumerate_from (0 + 0) slots).
  generalize (0 + 0)%nat.
  induction slots as [|s slots IH]; intros k; simpl; [reflexivity|].
  f_equal. apply IH.
Qed.

(** X9.  [create_interview] returns exactly when the request satisfies
    the model's bounds, the job and the candidate are on file, the
    candidate belongs to the job and the caller passes the tenant check
    on the job.  It then appends one interview: awaiting confirmation,
    owned by the job's tenant, with one available slot per proposed slot,
    in order, carrying the proposed times and the interview's duration,
    nothing selected or scheduled, no invitation and no no-show.  When it
    raises, nothing is stored. *)
Theorem create_interview_contract uuid4_hex now data u db :
  let out := create_interview uuid4_hex now data u db in
  ((exists doc, snd out = Return doc) <->
   InterviewCreate.valid data = true
   /\ exists job candidate,
        find (by_job_id (InterviewCreate.job_id data)) (jobs db) = Some job
        /\ find (by_candidate_id (InterviewCreate.candidate_id data))
                (candidates db) = Some candidate
        /\ Candidate.job_id candidate = InterviewCreate.job_id data
        /\ tenant_denied u (Job.client_id job) = false)
  /\ (forall doc,
        snd out = Return doc ->
        interviews (fst out) = (interviews db ++ [doc])%list
        /\ candidates (fst out) = candidates db
        /\ Interview.interview_status doc = Some AwaitingCandidateConfirmation
        /\ map (fun s => (Slot.start_time s, Slot.end_time s))
               (Interview.proposed_slots doc)
           = map (fun s => (InterviewCreate.start_time s,
                            InterviewCreate.end_time s))
                 (InterviewCreate.proposed_slots data)
        /\ Forall (fun s => Slot.is_available s = true
                            /\ Slot.duration_minutes s
                               = InterviewCreate.interview_duration data)
                  (Interview.proposed_slots doc)
        /\ Interview.interview_duration doc
           = InterviewCreate.interview_duration data
        /\ Interview.selected_slot_id doc = None
        /\ Interview.scheduled_start_time doc = None
        /\ Interview.no_show_count doc = 0
        /\ Interview.invite_sent doc = false
        /\ Interview.created_by doc = User.email u
        /\ Interview.updated_at doc = now
        /\ exists job,
             find (by_job_id (InterviewCreate.job_id data)) (jobs db)
             = Some job
             /\ Interview.client_id doc = Job.client_id job)
  /\ (forall e, snd out = Raise e -> fst out = db).
Proof.
  cbn zeta.
  destruct (create_interview uuid4_hex now data u db) as [db' r] eqn:H.
  exec_in H; inversion H; subst db' r; clear H; cbn [fst snd].
  all: split; [|split].
  all: try (intros doc [=]).
  all: try (intros e [=]).
  all: try reflexivity.
  all: try (split; [intros [doc [=]]|];
            intros (Hv & job & cand & Hj & Hc & Hl & Ht);
            repeat match goal with
              | E : Some _ = Some _ |- _ => inversion E; subst; clear E
              | E : None = Some _ |- _ => discriminate E
              end;
            try congruence;
            match goal with
            | E : (_ =? _) = false |- _ =>
                apply String.eqb_neq in E; congruence
            end).
  - split; [intros _|intros _; eexists; reflexivity].
    split; [reflexivity|]. exists t, t0.
    repeat split; try assumption. now apply String.eqb_eq.
  - subst doc. cbn. repeat split.
    + apply process_slots_times.
    + apply Forall_forall. intros s Hin. unfold process_slots in Hin.
      apply in_map_iff in Hin as ([k x] & <- & _). split; reflexivity.
    + eexists. split; reflexivity.
Qed.

Lemma create_interview_contract_witness :
  exists doc,
    snd (create_interview Scenario.uuid4_hex "t1"
           (Scenario.request 1 Scenario.two_slots) Scenario.admin
           Scenario.db0) = Return doc.
Proof.
  apply (proj1 (create_interview_contract Scenario.uuid4_hex "t1"
                  (Scenario.request 1 Scenario.two_slots) Scenario.admin
                  Scenario.db0)).
  split; [reflexivity|].
  eexists _, _. repeat split; vm_compute; reflexivity.
Defined.

(** ** The public booking link *)

Lemma find_slot_marked slot_id slots slot :
  find_slot slot_id slots = Some slot ->
  find_slot slot_id (mark_unavailable slot_id slots)
  = Some (Slot.set_is_available false slot).
Proof.
  unfold find_slot, mark_unavailable.
  induction slots as [|s slots IH]; simpl; [discriminate|].
  destruct (Slot.slot_id s =? slot_id) eqn:E; simpl.
  - intros [= ->]. now rewrite E.
  - rewrite E. exact IH.
Qed.

(** X10.  [public_book_slot] returns exactly when the token is the one
    generated for the interview, the interview is on file and awaiting
    confirmation, and the requested slot is proposed and available.  It
    then always confirms: the stored interview is [Confirmed], stamped
    with the confirmation time, the chosen slot is unavailable, the other
    slots are unchanged and the scheduled times are the slot's. *)
Theorem public_book_slot_contract env now id slot_id token db :
  let out := public_book_slot env now id slot_id token db in
  (snd out = Return tt <->
   verify_booking_token env id token = true
   /\ exists interview slot,
        find (by_interview_id id) (interviews db) = Some interview
        /\ Interview.interview_status interview
           = Some AwaitingCandidateConfirmation
        /\ find_slot slot_id (Interview.proposed_slots interview) = Some slot
        /\ Slot.is_available slot = true)
  /\ (snd out = Return tt ->
      exists interview slot doc,
        find (by_interview_id id) (interviews db) = Some interview
        /\ find_slot slot_id (Interview.proposed_slots interview) = Some slot
        /\ find (by_interview_id id) (interviews (fst out)) = Some doc
        /\ Interview.interview_status doc = Some Confirmed
        /\ Interview.candidate_confirmation_timestamp doc = Some now
        /\ Interview.selected_slot_id doc = Some slot_id
        /\ Interview.scheduled_start_time doc = Slot.start_time slot
        /\ Interview.scheduled_end_time doc = Slot.end_time slot
        /\ Interview.proposed_slots doc
           = map (fun s => if Slot.slot_id s =? slot_id
                           then Slot.set_is_available false s else s)
                 (Interview.proposed_slots interview)).
Proof.
  cbn zeta. rewrite public_book_slot_run.
  destruct (verify_booking_token env id token);
    [|cbn; split; [split; [discriminate|intros [[=] _]]|discriminate]].
  destruct (find (by_interview_id id) (interviews db)) as [i|] eqn:F;
    [|cbn; split; [split; [discriminate|intros [_ (? & ? & [=] & _)]]
                  |discriminate]].
  destruct (status_is (Interview.interview_status i)
                      AwaitingCandidateConfirmation) eqn:St.
  2:{ apply status_is_false in St. cbn. split; [|discriminate].
      split; [discriminate|].
      intros [_ (i' & s & [= <-] & Hs & _)]. contradiction. }
  apply status_is_true in St.
  destruct (find_slot slot_id (Interview.proposed_slots i)) as [slot|] eqn:Fs.
  2:{ cbn. split; [|discriminate]. split; [discriminate|].
      intros [_ (i' & s & [= <-] & _ & Hs & _)]. congruence. }
  destruct (Slot.is_available slot) eqn:Av.
  2:{ cbn. split; [|discriminate]. split; [discriminate|].
      intros [_ (i' & s & [= <-] & _ & Hs & Ha)]. congruence. }
  cbn [fst snd]. split.
  - split; [intros _|reflexivity].
    split; [reflexivity|]. exists i, slot. auto.
  - intros _. exists i, slot. eexists. split; [reflexivity|].
    split; [exact Fs|]. split.
    + cbn [interviews set_interviews].
      apply find_after_set; [keeps_id|exact F].
    + cbn. repeat split.
Qed.

Lemma public_book_slot_contract_witness :
  snd (public_book_slot Scenario.env "t2" Scenario.interview_id
         Scenario.slot_1
         (generate_booking_token Scenario.env Scenario.interview_id)
         Scenario.db1) = Return tt.
Proof.
  apply (proj1 (public_book_slot_contract Scenario.env "t2"
                  Scenario.interview_id Scenario.slot_1
                  (generate_booking_token Scenario.env Scenario.interview_id)
                  Scenario.db1)).
  split; [vm_compute; reflexivity|].
  eexists _, _. repeat split; vm_compute; reflexivity.
Defined.

Ltac unfold_more_in H :=
  cbv beta iota zeta delta
    [get_public_interview get_booking_link candidate_portal_book_slot
     db_candidates_find] in H.

(** X11.  The link [get_booking_link] hands out opens the public
    endpoints: the call changes nothing, the token it returns is the last
    segment of the link and is accepted for that interview by
    [get_public_interview], which returns the stored interview, and by
    [public_book_slot] on any later database (the token depends on the
    interview id and the secret only, so it never expires). *)
Theorem booking_link_opens_public_endpoints env frontend_url id u db link :
  snd (get_booking_link env frontend_url id u db) = Return link ->
  fst (get_booking_link env frontend_url id u db) = db
  /\ BookingLink.interview_id link = id
  /\ BookingLink.booking_link link
     = (match frontend_url with
        | Some url => url
        | None => "https://hirematch-52.preview.emergentagent.com"
        end ++ "/book/" ++ id ++ "/" ++ BookingLink.booking_token link)
  /\ (exists interview,
        find (by_interview_id id) (interviews db) = Some interview
        /\ get_public_interview env id (BookingLink.booking_token link) db
           = (db, Return interview))
  /\ (forall now slot_id db',
        snd (public_book_slot env now id slot_id
               (BookingLink.booking_token link) db')
        <> Raise (mkHTTP 403 "Invalid or expired booking link")).
Proof.
  destruct (get_booking_link env frontend_url id u db) as [db' r] eqn:H.
  cbn [fst snd]. intros ->.
  unfold_more_in H. exec_in H; inversion H; subst; clear H.
  cbn [BookingLink.interview_id BookingLink.booking_link
       BookingLink.booking_token].
  assert (V : verify_booking_token env id (generate_booking_token env id)
              = true) by apply String.eqb_refl.
  repeat split.
  - eexists. split; [reflexivity|].
    unfold get_public_interview, bind, raise_if, require_found,
      db_interviews_find_one, require, ret.
    rewrite V. cbn. rewrite Heqo. reflexivity.
  - intros now slot_id db2. rewrite public_book_slot_run, V.
    repeat match goal with
      | |- context [match ?x with _ => _ end] => destruct x eqn:?
      end; cbn; discriminate.
Qed.

Lemma booking_link_opens_public_endpoints_witness :
  exists link,
    snd (get_booking_link Scenario.env None Scenario.interview_id
           Scenario.admin Scenario.db1) = Return link
    /\ BookingLink.booking_link link
       = "https://hirematch-52.preview.emergentagent.com/book/int_0a1b2c3d4e5f/int_0a1b2c3d4e5f:arbeit-secret-k".
Proof.
  destruct (snd (get_booking_link Scenario.env None Scenario.interview_id
                   Scenario.admin Scenario.db1)) as [link|e] eqn:H;
    [|vm_compute in H; discriminate].
  exists link. split; [reflexivity|].
  destruct (booking_link_opens_public_endpoints Scenario.env None
              Scenario.interview_id Scenario.admin Scenario.db1 link H)
    as (_ & _ & L & _).
  rewrite L. vm_compute in H. inversion H. reflexivity.
Defined.

(** ** Booking again *)

(** X12.  In the state that [book_interview_slot] leaves when it returns
    on a confirmed selection, a further booking of that interview,
    through either endpoint, by any caller and for any slot, is refused
    with 400 "not awaiting confirmation (current status: Confirmed)" and
    changes nothing.  (A later command that changes the status ends
    this.) *)
Theorem confirmed_booking_blocks_rebooking now id sel u db response :
  snd (book_interview_slot now id sel u db) = Return response ->
  CandidateSlotSelection.confirmed sel = true ->
  let db' := fst (book_interview_slot now id sel u db) in
  let refused :=
    Raise (mkHTTP 400
      "Interview is not awaiting confirmation (current status: Confirmed)") in
  (forall now' sel' u',
      book_interview_slot now' id sel' u' db' = (db', refused))
  /\ (forall env now' slot_id token,
        verify_booking_token env id token = true ->
        public_book_slot env now' id slot_id token db' = (db', Raise
          (mkHTTP 400
            "Interview is not awaiting confirmation (current status: Confirmed)"))).
Proof.
  rewrite book_interview_slot_run.
  destruct (find (by_interview_id id) (interviews db)) as [i|] eqn:F;
    [|discriminate].
  destruct (status_is _ _); [|discriminate].
  destruct (find_slot _ _) as [slot|]; [|discriminate].
  destruct (Slot.is_available slot); [|discriminate].
  cbn [fst snd]. intros _ Hc. rewrite Hc.
  match goal with
  | |- context [update_one _ ($set ?ws) _] => set (W := ws)
  end.
  assert (F' : find (by_interview_id id)
                 (update_one (by_interview_id id) ($set W) (interviews db))
               = Some ($set W i))
    by (apply find_after_set; [subst W; keeps_id|exact F]).
  split.
  - intros now' sel' u'. rewrite book_interview_slot_run.
    cbn [interviews set_interviews]. rewrite F'. reflexivity.
  - intros env now' slot_id token V. rewrite public_book_slot_run, V.
    cbn [interviews set_interviews]. rewrite F'. reflexivity.
Qed.

Lemma confirmed_booking_blocks_rebooking_witness :
  snd (book_interview_slot "t3" Scenario.interview_id
         (CandidateSlotSelection.mk Scenario.slot_2 true) Scenario.admin
         (fst (book_interview_slot "t2" Scenario.interview_id
                 (CandidateSlotSelection.mk Scenario.slot_1 true)
                 Scenario.admin Scenario.db1)))
  = Raise (mkHTTP 400
      "Interview is not awaiting confirmation (current status: Confirmed)").
Proof.
  destruct (snd (book_interview_slot "t2" Scenario.interview_id
                   (CandidateSlotSelection.mk Scenario.slot_1 true)
                   Scenario.admin Scenario.db1)) as [doc|e] eqn:H;
    [|vm_compute in H; discriminate].
  destruct (confirmed_booking_blocks_rebooking "t2" Scenario.interview_id
              (CandidateSlotSelection.mk Scenario.slot_1 true)
              Scenario.admin Scenario.db1 doc H eq_refl) as [B _].
  rewrite B. reflexivity.
Defined.

(** X13.  A slot held by an unconfirmed [book_interview_slot] cannot be
    taken again: the interview stays awaiting confirmation, and booking
    the same slot id once more is refused with 400 "Slot is no longer
    available" and changes nothing. *)
Theorem held_slot_cannot_be_rebooked now id sel u db response :
  snd (book_interview_slot now id sel u db) = Return response ->
  CandidateSlotSelection.confirmed sel = false ->
  let db' := fst (book_interview_slot now id sel u db) in
  InterviewResponse.interview_status response
  = "Awaiting Candidate Confirmation"
  /\ (exists doc,
        find (by_interview_id id) (interviews db') = Some doc
        /\ Interview.interview_status doc
           = Some AwaitingCandidateConfirmation)
  /\ forall now' confirmed' u',
       book_interview_slot now' id
         (CandidateSlotSelection.mk (CandidateSlotSelection.slot_id sel)
                                    confirmed') u' db'
       = (db', Raise (mkHTTP 400 "Slot is no longer available")).
Proof.
  rewrite book_interview_slot_run.
  destruct (find (by_interview_id id) (interviews db)) as [i|] eqn:F;
    [|discriminate].
  destruct (status_is _ _); [|discriminate].
  destruct (find_slot _ _) as [slot|] eqn:Fs; [|discriminate].
  destruct (Slot.is_available slot); [|discriminate].
  cbn [fst snd]. destruct (tenant_denied u _); [discriminate|].
  intros Hr Hc. rewrite Hc in *.
  match goal with
  | |- context [update_one _ ($set ?ws) _] => set (W := ws) in *
  end.
  destruct (interview_response ($set W i) _ _ _) as [r|] eqn:Hresp;
    [|discriminate Hr].
  injection Hr as <-.
  apply interview_response_fields in Hresp.
  destruct Hresp as (_ & _ & _ & _ & Hstatus).
  assert (F' : find (by_interview_id id)
                 (update_one (by_interview_id id) ($set W) (interviews db))
               = Some ($set W i))
    by (apply find_after_set; [subst W; keeps_id|exact F]).
  split; [injection Hstatus as ->; reflexivity|].
  split; [exists ($set W i); split; [exact F'|reflexivity]|].
  intros now' confirmed' u'. rewrite book_interview_slot_run.
  cbn [interviews set_interviews CandidateSlotSelection.slot_id]. rewrite F'.
  assert (Hs : Interview.interview_status ($set W i)
               = Some AwaitingCandidateConfirmation) by reflexivity.
  assert (Hp : Interview.proposed_slots ($set W i)
               = mark_unavailable (CandidateSlotSelection.slot_id sel)
                                  (Interview.proposed_slots i))
    by reflexivity.
  rewrite Hs, Hp, (find_slot_marked _ _ _ Fs). reflexivity.
Qed.

Lemma held_slot_cannot_be_rebooked_witness :
  snd (book_interview_slot "t3" Scenario.interview_id
         (CandidateSlotSelection.mk Scenario.slot_1 true) Scenario.admin
         (fst (book_interview_slot "t2" Scenario.interview_id
                 (CandidateSlotSelection.mk Scenario.slot_1 false)
                 Scenario.admin Scenario.db1)))
  = Raise (mkHTTP 400 "Slot is no longer available").
Proof.
  destruct (snd (book_interview_slot "t2" Scenario.interview_id
                   (CandidateSlotSelection.mk Scenario.slot_1 false)
                   Scenario.admin Scenario.db1)) as [doc|e] eqn:H;
    [|vm_compute in H; discriminate].
  destruct (held_slot_cannot_be_rebooked "t2" Scenario.interview_id
              (CandidateSlotSelection.mk Scenario.slot_1 false)
              Scenario.admin Scenario.db1 doc H eq_refl) as (_ & _ & B).
  cbn [CandidateSlotSelection.slot_id] in B. rewrite B. reflexivity.
Defined.

(** ** Rejecting, hiring and passing *)

Ltac solve_found :=
  repeat match goal with
    | E : Some _ = Some _ |- _ => inversion E; subst; clear E
    | E : None = Some _ |- _ => discriminate E
    | E : Some _ = None |- _ => discriminate E
    end.

(** X14.  [reject_after_interview] has no status guard: on any stored
    interview, whatever its status, a caller who passes the tenant check
    with a valid rating gets a normal return; the interview becomes
    [Failed] with the request's feedback and rating, and its candidate,
    if on file, becomes REJECTED at the interview's round with the
    feedback as reason, keeping its [current_round]. *)
Theorem reject_marks_failed_and_rejected now id request u db interview :
  find (by_interview_id id) (interviews db) = Some interview ->
  tenant_denied u (Interview.client_id interview) = false ->
  MoveToNextRoundRequest.valid request = true ->
  let out := reject_after_interview now id request u db in
  let cq := by_candidate_id (Interview.candidate_id interview) in
  snd out = Return tt
  /\ (exists doc,
        find (by_interview_id id) (interviews (fst out)) = Some doc
        /\ Interview.interview_status doc = Some Failed
        /\ Interview.feedback doc = MoveToNextRoundRequest.feedback request
        /\ Interview.rating doc = MoveToNextRoundRequest.rating request
        /\ Interview.rejected_by doc = Some (User.email u))
  /\ (forall c,
        find cq (candidates db) = Some c ->
        exists c',
          find cq (candidates (fst out)) = Some c'
          /\ Candidate.status c' = "REJECTED"
          /\ Candidate.rejected_at_round c'
             = Some (Interview.interview_round interview)
          /\ Candidate.rejection_reason c'
             = MoveToNextRoundRequest.feedback request
          /\ Candidate.current_round c' = Candidate.current_round c)
  /\ (find cq (candidates db) = None -> candidates (fst out) = candidates db).
Proof.
  intros Hfind Hten Hval. cbn zeta.
  destruct (reject_after_interview now id request u db) as [db' r] eqn:H.
  exec_in H; solve_found; try congruence.
  inversion H; subst db' r; clear H. cbn [fst snd].
  cbn [interviews candidates set_interviews set_candidates].
  split; [reflexivity|]. split; [|split].
  - eexists. split; [apply find_after_set; [keeps_id|eassumption]|].
    cbn. repeat split.
  - intros c Hc. eexists. split.
    + apply find_update_one; [|exact Hc]. intros x. reflexivity.
    + cbn. repeat split.
  - intros Hn. apply update_one_no_match. exact Hn.
Qed.

Lemma reject_marks_failed_and_rejected_witness :
  snd (reject_after_interview "t2" Scenario.interview_id Scenario.pass
         Scenario.admin Scenario.db1) = Return tt.
Proof.
  destruct (find (by_interview_id Scenario.interview_id)
                 (interviews Scenario.db1)) as [i|] eqn:F;
    [|vm_compute in F; discriminate].
  assert (T : tenant_denied Scenario.admin (Interview.client_id i) = false)
    by reflexivity.
  exact (proj1 (reject_marks_failed_and_rejected "t2" Scenario.interview_id
                  Scenario.pass Scenario.admin Scenario.db1 i F T eq_refl)).
Defined.


(** X15.  [initiate_hiring] has no status guard either: with the tenant
    check passed, a valid rating, and the candidate and the job on file,
    it returns the interview's round; the interview becomes [Passed] and
    flagged [hiring_initiated], and the candidate becomes SELECTED with
    [total_rounds_cleared] set to that round and the offer terms stored,
    keeping its [current_round]. *)
Theorem initiate_hiring_selects_candidate now id request u db interview c job :
  find (by_interview_id id) (interviews db) = Some interview ->
  tenant_denied u (Interview.client_id interview) = false ->
  InitiateHiringRequest.valid request = true ->
  find (by_candidate_id (Interview.candidate_id interview)) (candidates db)
  = Some c ->
  find (by_job_id (Interview.job_id interview)) (jobs db) = Some job ->
  let out := initiate_hiring now id request u db in
  snd out = Return (Interview.interview_round interview)
  /\ (exists doc,
        find (by_interview_id id) (interviews (fst out)) = Some doc
        /\ Interview.interview_status doc = Some Passed
        /\ Interview.hiring_initiated doc = true
        /\ Interview.feedback doc = InitiateHiringRequest.feedback request
        /\ Interview.rating doc = InitiateHiringRequest.rating request)
  /\ (exists c',
        find (by_candidate_id (Interview.candidate_id interview))
             (candidates (fst out)) = Some c'
        /\ Candidate.status c' = "SELECTED"
        /\ Candidate.total_rounds_cleared c'
           = Some (Interview.interview_round interview)
        /\ Candidate.salary_offered c'
           = InitiateHiringRequest.salary_offered request
        /\ Candidate.proposed_joining_date c'
           = InitiateHiringRequest.joining_date request
        /\ Candidate.offer_notes c' = InitiateHiringRequest.offer_notes request
        /\ Candidate.current_round c' = Candidate.current_round c).
Proof.
  intros Hfind Hten Hval Hc Hjob. cbn zeta.
  destruct (initiate_hiring now id request u db) as [db' r] eqn:H.
  exec_in H; solve_found; try congruence.
  all: inversion H; subst db' r; clear H; cbn [fst snd].
  all: cbn [interviews candidates set_interviews set_candidates].
  all: repeat same_found.
  all: split; [reflexivity|]; split.
  - eexists. split; [apply find_after_set; [keeps_id|eassumption]|].
    cbn. repeat split.
  - eexists. split.
    + apply find_update_one; [|eassumption]. intros x. reflexivity.
    + cbn. repeat split.
Qed.

Lemma initiate_hiring_selects_candidate_witness :
  let offer := InitiateHiringRequest.mk (Some "hire") (Some 5)
                 (Some "30 LPA") (Some "2026-03-01") None in
  snd (initiate_hiring "t2" Scenario.interview_id offer Scenario.admin
         Scenario.db1) = Return 1.
Proof.
  intros offer.
  destruct (find (by_interview_id Scenario.interview_id)
                 (interviews Scenario.db1)) as [i|] eqn:F;
    [|vm_compute in F; discriminate].
  assert (T : tenant_denied Scenario.admin (Interview.client_id i) = false)
    by reflexivity.
  assert (E : i = match find (by_interview_id Scenario.interview_id)
                          (interviews Scenario.db1) with
                  | Some x => x
                  | None => i
                  end) by (rewrite F; reflexivity).
  destruct (find (by_candidate_id (Interview.candidate_id i))
                 (candidates Scenario.db1)) as [c|] eqn:C;
    [|rewrite E in C; vm_compute in C; discriminate].
  destruct (find (by_job_id (Interview.job_id i)) (jobs Scenario.db1))
    as [j|] eqn:J; [|rewrite E in J; vm_compute in J; discriminate].
  destruct (initiate_hiring_selects_candidate "t2" Scenario.interview_id
              offer Scenario.admin Scenario.db1 i c j F T eq_refl C J)
    as (R & _).
  rewrite R. rewrite E. vm_compute. reflexivity.
Defined.


(** X16.  When the interview's candidate is not on file,
    [move_to_next_round] and [initiate_hiring] still write: the interview
    is stored as [Passed] and the caller gets a 500.  The same holds for
    [initiate_hiring] when only the job is missing. *)
Theorem passing_without_candidate_writes_then_500 now id u db interview :
  find (by_interview_id id) (interviews db) = Some interview ->
  tenant_denied u (Interview.client_id interview) = false ->
  (forall request,
      MoveToNextRoundRequest.valid request = true ->
      Interview.interview_status interview = Some Completed
      \/ Interview.interview_status interview = Some Scheduled ->
      find (by_candidate_id (Interview.candidate_id interview))
           (candidates db) = None ->
      let out := move_to_next_round now id request u db in
      snd out = Raise internal_server_error
      /\ exists doc,
           find (by_interview_id id) (interviews (fst out)) = Some doc
           /\ Interview.interview_status doc = Some Passed)
  /\ (forall request,
        InitiateHiringRequest.valid request = true ->
        find (by_candidate_id (Interview.candidate_id interview))
             (candidates db) = None
        \/ find (by_job_id (Interview.job_id interview)) (jobs db) = None ->
        let out := initiate_hiring now id request u db in
        snd out = Raise internal_server_error
        /\ exists doc,
             find (by_interview_id id) (interviews (fst out)) = Some doc
             /\ Interview.interview_status doc = Some Passed
             /\ Interview.hiring_initiated doc = true).
Proof.
  intros Hfind Hten. split.
  - intros request Hval Hst Hc. cbn zeta.
    rewrite move_to_next_round_run, Hval, Hfind, Hten.
    assert (status_is (Interview.interview_status interview) Completed
            || status_is (Interview.interview_status interview) Scheduled
            = true) as ->
      by (apply orb_true_iff; rewrite !status_is_true; exact Hst).
    cbv zeta. cbn [fst snd interviews candidates set_interviews
                   set_candidates].
    rewrite (update_one_no_match _ _ _ Hc), Hc.
    split; [reflexivity|].
    eexists. split; [apply find_after_set; [keeps_id|exact Hfind]|].
    reflexivity.
  - intros request Hval Hmiss. cbn zeta.
    destruct (initiate_hiring now id request u db) as [db' r] eqn:H.
    exec_in H; solve_found; try congruence;
      try (destruct Hmiss; congruence).
    all: inversion H; subst db' r; clear H; cbn [fst snd].
    all: cbn [interviews candidates set_interviews set_candidates].
    all: split; [reflexivity|].
    all: eexists; split; [apply find_after_set; [keeps_id|eassumption]|].
    all: cbn; split; reflexivity.
Qed.

Lemma passing_without_candidate_writes_then_500_witness :
  let db := set_candidates [] Scenario.db_completed in
  snd (move_to_next_round "t3" Scenario.interview_id Scenario.pass
         Scenario.admin db) = Raise internal_server_error
  /\ map Interview.interview_status
         (interviews (fst (move_to_next_round "t3" Scenario.interview_id
                             Scenario.pass Scenario.admin db)))
     = [Some Passed].
Proof.
  intros db.
  destruct (find (by_interview_id Scenario.interview_id) (interviews db))
    as [i|] eqn:F; [|vm_compute in F; discriminate].
  assert (T : tenant_denied Scenario.admin (Interview.client_id i) = false)
    by reflexivity.
  assert (S : Interview.interview_status i = Some Completed)
    by (vm_compute in F; inversion F; reflexivity).
  destruct (passing_without_candidate_writes_then_500 "t3"
              Scenario.interview_id Scenario.admin db i F T) as [Hmove _].
  destruct (Hmove Scenario.pass eq_refl (or_introl S) eq_refl) as (R & _).
  split; [exact R|]. vm_compute. reflexivity.
Defined.


(** X17.  [move_to_next_round] refuses an interview that is neither
    [Completed] nor [Scheduled] with 400, naming the current status, and
    a rating outside 1..5 with 422; in both cases nothing is written. *)
Theorem move_to_next_round_refusals now id request u db :
  (MoveToNextRoundRequest.valid request = false ->
   move_to_next_round now id request u db = (db, Raise validation_error))
  /\ (forall interview,
        MoveToNextRoundRequest.valid request = true ->
        find (by_interview_id id) (interviews db) = Some interview ->
        tenant_denied u (Interview.client_id interview) = false ->
        Interview.interview_status interview <> Some Completed ->
        Interview.interview_status interview <> Some Scheduled ->
        move_to_next_round now id request u db
        = (db, Raise (mkHTTP 400
             ("Interview must be Completed or Scheduled before moving to next round. Current status: "
              ++ show_status (Interview.interview_status interview))))).
Proof.
  split.
  - intros Hv. now rewrite move_to_next_round_run, Hv.
  - intros interview Hv Hfind Hten Hc Hs.
    rewrite move_to_next_round_run, Hv, Hfind, Hten.
    apply status_is_false in Hc, Hs. rewrite Hc, Hs. reflexivity.
Qed.

Lemma move_to_next_round_refusals_witness :
  move_to_next_round "t2" Scenario.interview_id Scenario.pass Scenario.admin
                     Scenario.db1
  = (Scenario.db1,
     Raise (mkHTTP 400
       "Interview must be Completed or Scheduled before moving to next round. Current status: Awaiting Candidate Confirmation")).
Proof.
  destruct (find (by_interview_id Scenario.interview_id)
                 (interviews Scenario.db1)) as [i|] eqn:F;
    [|vm_compute in F; discriminate].
  assert (T : tenant_denied Scenario.admin (Interview.client_id i) = false)
    by reflexivity.
  assert (S : Interview.interview_status i
              = Some AwaitingCandidateConfirmation)
    by (vm_compute in F; inversion F; reflexivity).
  rewrite (proj2 (move_to_next_round_refusals "t2" Scenario.interview_id
                    Scenario.pass Scenario.admin Scenario.db1)
             i eq_refl F T);
    [rewrite S; reflexivity|rewrite S; discriminate|rewrite S; discriminate].
Defined.


(** ** Updating, and the statistics of a tenant *)






(** X19.  For a client user the pipeline statistics depend on that
    tenant's interviews only: the [client_id] parameter is ignored, and
    two databases that agree on the interviews of the caller's tenant
    give the same statistics. *)
Theorem client_user_stats_are_tenant_scoped client_id client_id' u db db' :
  User.role u = "client_user" ->
  filter (fun d => Interview.client_id d =? User.client_id u) (interviews db)
  = filter (fun d => Interview.client_id d =? User.client_id u)
           (interviews db') ->
  snd (get_interview_pipeline_stats client_id u db)
  = snd (get_interview_pipeline_stats client_id' u db').
Proof.
  intros Hrole Hsame.
  unfold get_interview_pipeline_stats, pipeline_query. cbn [snd].
  rewrite Hrole. cbn [String.eqb Ascii.eqb Bool.eqb]. cbn [match_query].
  now rewrite Hsame.
Qed.

Lemma client_user_stats_are_tenant_scoped_witness :
  let stats client_id u db := snd (get_interview_pipeline_stats client_id u db) in
  map Interview.client_id (interviews Scenario.db_one_tenant) = ["client_1"]
  /\ map Interview.client_id (interviews Scenario.db_two_tenants)
     = ["client_1"; "client_other"]
  /\ stats (Some "client_other") Scenario.insider Scenario.db_two_tenants
     = stats None Scenario.insider Scenario.db_one_tenant
  /\ stats None Scenario.insider Scenario.db_one_tenant
     = Return (InterviewPipelineStats.mk 1 1 0 0 0 0 0)
  /\ stats None Scenario.admin Scenario.db_two_tenants
     = Return (InterviewPipelineStats.mk 2 2 0 0 0 0 0).
Proof.
  cbn zeta. split; [vm_compute; reflexivity|].
  split; [vm_compute; reflexivity|].
  split; [|split; vm_compute; reflexivity].
  apply client_user_stats_are_tenant_scoped;
    [reflexivity|vm_compute; reflexivity].
Defined.

(** ** Booking from the candidate portal *)

Lemma not_in_false x ids : not_in x ids = false <-> In x ids.
Proof.
  unfold not_in. rewrite negb_false_iff, existsb_exists. split.
  - intros (y & Hin & E). apply String.eqb_eq in E. now subst.
  - intros Hin. exists x. split; [exact Hin|apply String.eqb_refl].
Qed.

Lemma In_firstn {A : Type} (n : nat) (l : list A) (x : A) :
  In x (firstn n l) -> In x l.
Proof.
  revert l. induction n as [|n IH]; intros [|y l]; simpl; try tauto.
  intros [->|H]; auto.
Qed.

Lemma opt_str_eqb_eq a b : opt_str_eqb a b = true <-> a = b.
Proof.
  destruct a as [x|], b as [y|]; simpl; try (split; congruence).
  rewrite String.eqb_eq. split; congruence.
Qed.

(** X20.  A portal user can book only an interview of a candidate record
    linked to them: when [candidate_portal_book_slot] returns, some
    candidate on file carries the interview's [candidate_id] and either
    the caller's portal id or the caller's e-mail address, the interview
    was awaiting confirmation and is now stored as [Confirmed] with the
    chosen slot claimed.  Whenever it raises, nothing is written. *)
Theorem portal_booking_requires_ownership
    portal_id_of now id slot_id current_candidate db :
  let out := candidate_portal_book_slot portal_id_of now id slot_id
               current_candidate db in
  (snd out = Return tt ->
   exists interview slot c doc,
     find (by_interview_id id) (interviews db) = Some interview
     /\ In c (candidates db)
     /\ Candidate.candidate_id c = Interview.candidate_id interview
     /\ (portal_id_of c
         = Some (PortalUser.candidate_portal_id current_candidate)
         \/ Candidate.email c = Some (PortalUser.email current_candidate))
     /\ Interview.interview_status interview
        = Some AwaitingCandidateConfirmation
     /\ find_slot slot_id (Interview.proposed_slots interview) = Some slot
     /\ Slot.is_available slot = true
     /\ find (by_interview_id id) (interviews (fst out)) = Some doc
     /\ Interview.interview_status doc = Some Confirmed
     /\ Interview.selected_slot_id doc = Some slot_id
     /\ Interview.scheduled_start_time doc = Slot.start_time slot
     /\ Interview.proposed_slots doc
        = mark_unavailable slot_id (Interview.proposed_slots interview))
  /\ (forall e, snd out = Raise e -> fst out = db).
Proof.
  cbn zeta.
  destruct (candidate_portal_book_slot portal_id_of now id slot_id
              current_candidate db) as [db' r] eqn:H.
  unfold_more_in H. exec_in H; inversion H; subst db' r; clear H;
    cbn [fst snd]; (split; [|intros e [=]; try reflexivity]);
    try discriminate.
  intros _. status_facts.
  match goal with
  | N : not_in _ _ = false |- _ => apply not_in_false in N;
      apply in_map_iff in N as (c & Hid & Hin)
  end.
  apply In_firstn in Hin. apply filter_In in Hin as [Hin Hown].
  unfold owned_by in Hown. apply orb_true_iff in Hown.
  rewrite !opt_str_eqb_eq in Hown.
  eexists _, _, c, _. repeat split; try eassumption.
  cbn [interviews set_interviews set_candidates].
  all: try (apply find_after_set; [keeps_id|eassumption]).
  all: reflexivity.
Qed.

Lemma portal_booking_requires_ownership_witness :
  let me := PortalUser.mk "cp_1" "asha@example.com" "Asha Rao" in
  let out := candidate_portal_book_slot (fun _ => None) "t2"
               Scenario.interview_id Scenario.slot_1 me Scenario.db1 in
  snd out = Return tt
  /\ exists c,
       In c (candidates Scenario.db1)
       /\ Candidate.email c = Some "asha@example.com".
Proof.
  intros me out.
  assert (R : snd out = Return tt) by (vm_compute; reflexivity).
  split; [exact R|].
  destruct (proj1 (portal_booking_requires_ownership (fun _ => None) "t2"
                     Scenario.interview_id Scenario.slot_1 me Scenario.db1)
              R)
    as (i & s & c & doc & _ & Hin & _ & [Hp|He] & _); [discriminate Hp|].
  exists c. split; assumption.
Defined.

